(** * AutoPrint extension: filter engine, settings validation, history log
      and print orchestration

    A shallow embedding of the extension's JavaScript:
    - [src/shared/config.js]: [CONFIG], [getDefaultSettings], [validateSettings];
    - the storage manager (imported as [../shared/storage.js]): [getStorageAPI],
      [loadSettings], [loadPrintHistory], [addToPrintHistory], [clearPrintHistory];
    - the background service worker (the variant with [isInitialized]):
      [getFilename], [getFileExtension], [checkFilters], [showNotification],
      [printFile], [initialize], [updateBadge], [handleDownloadChanged].

    JavaScript strings are modelled by [string], every character standing for
    one code unit in the range 0..255 (Latin-1); outside that range
    [toLowerCase] depends on the context of a character (the final sigma), and
    the development says nothing about such strings.  Numbers stored in the
    settings are modelled by [Z].

    What the browser does is a parameter, the record [Browser]: every call
    into [chrome.*] that the code makes may go through or throw.  A
    capability answers as a function of its arguments, the same way at every
    call of a run. *)

From Stdlib Require Import Bool Arith ZArith Lia List Ascii String.
Import ListNotations.

Local Open Scope string_scope.
Local Open Scope bool_scope.

(* ===================================================================== *)
(** ** JavaScript string primitives *)
(* ===================================================================== *)

Module JSString.

(** Code units that [String.prototype.toLowerCase] changes, in the Latin-1
    range: A-Z, and U+00C0..U+00DE apart from the multiplication sign. *)
Definition isUpper (c : ascii) : bool :=
  let n := nat_of_ascii c in
  ((65 <=? n)%nat && (n <=? 90)%nat)
  || ((192 <=? n)%nat && (n <=? 222)%nat && negb (n =? 215)%nat).

Definition lowerChar (c : ascii) : ascii :=
  if isUpper c then ascii_of_nat (nat_of_ascii c + 32) else c.

(** [s.toLowerCase()] *)
Fixpoint toLowerCase (s : string) : string :=
  match s with
  | EmptyString => EmptyString
  | String c r => String (lowerChar c) (toLowerCase r)
  end.

(** White space and line terminators removed by [trim], in the Latin-1
    range: TAB, LF, VT, FF, CR, SPACE, NBSP. *)
Definition isSpace (c : ascii) : bool :=
  let n := nat_of_ascii c in
  ((9 <=? n)%nat && (n <=? 13)%nat) || (n =? 32)%nat || (n =? 160)%nat.

Fixpoint trimStart (s : string) : string :=
  match s with
  | EmptyString => EmptyString
  | String c r => if isSpace c then trimStart r else s
  end.

Fixpoint trimEnd (s : string) : string :=
  match s with
  | EmptyString => EmptyString
  | String c r =>
      match trimEnd r with
      | EmptyString => if isSpace c then EmptyString else String c EmptyString
      | r' => String c r'
      end
  end.

(** [s.trim()] *)
Definition trim (s : string) : string := trimEnd (trimStart s).

Fixpoint isPrefixOf (p s : string) : bool :=
  match p, s with
  | EmptyString, _ => true
  | String _ _, EmptyString => false
  | String a p', String b s' => Ascii.eqb b a && isPrefixOf p' s'
  end.

(** [s.startsWith(p)] *)
Definition startsWith (s p : string) : bool := isPrefixOf p s.

(** [s.split(sep)] for a separator that is one character out of a class:
    [split('.')] and [split(/[/\\]/)].  The result is never empty. *)
Fixpoint split (isSep : ascii -> bool) (s : string) : list string :=
  match s with
  | EmptyString => [EmptyString]
  | String c r =>
      if isSep c then EmptyString :: split isSep r
      else match split isSep r with
           | h :: t => String c h :: t
           | [] => [String c EmptyString]
           end
  end.

(** [parts[parts.length - 1]] on a non-empty array. *)
Definition lastPart (parts : list string) : string := last parts EmptyString.

Definition isDot (c : ascii) : bool := Ascii.eqb c "."%char.
Definition isPathSep (c : ascii) : bool :=
  Ascii.eqb c "/"%char || Ascii.eqb c "\"%char.

(** [s.replace(/^\./, '')]: drops one leading dot. *)
Definition stripLeadingDot (s : string) : string :=
  match s with
  | String c r => if isDot c then r else s
  | EmptyString => EmptyString
  end.

(** Truthiness of a string: non-empty. *)
Definition truthy (s : string) : bool :=
  match s with EmptyString => false | _ => true end.

Definition quote : string := String "034"%char EmptyString.

(** The guard [x && x.trim()] of [checkFilters]. *)
Definition isActive (x : string) : bool := truthy x && truthy (trim x).

(** Strings made of white space only: exactly those that [trim] empties. *)
Fixpoint allSpace (s : string) : bool :=
  match s with
  | EmptyString => true
  | String c r => isSpace c && allSpace r
  end.

(** The string is not empty and its last character is not white space. *)
Fixpoint endsNonSpace (s : string) : bool :=
  match s with
  | EmptyString => false
  | String c EmptyString => negb (isSpace c)
  | String _ r => endsNonSpace r
  end.

End JSString.
Import JSString.

(* ===================================================================== *)
(** ** Settings ([src/shared/config.js]) *)
(* ===================================================================== *)

Record Settings := mkSettings {
  enabled : bool;
  prefixFilter : string;
  extensionFilter : string;
  showNotifications : bool;
  maxHistoryItems : Z
}.

(** [CONFIG.DEFAULTS] / [getDefaultSettings()] *)
Definition getDefaultSettings : Settings :=
  {| enabled := false;
     prefixFilter := "";
     extensionFilter := "";
     showNotifications := true;
     maxHistoryItems := 100 |}.

(** JSON-like values, as [chrome.storage] holds them. *)
#[local] Set Warnings "-register-all".
Inductive JSValue :=
| JUndefined
| JNull
| JBool (b : bool)
| JNumber (n : Z)
| JString (s : string)
| JArray (items : list JSValue)
| JObject (fields : list (string * JSValue)).

(** [typeof v] *)
Definition typeOf (v : JSValue) : string :=
  match v with
  | JUndefined => "undefined"
  | JNull => "object"
  | JBool _ => "boolean"
  | JNumber _ => "number"
  | JString _ => "string"
  | JArray _ => "object"
  | JObject _ => "object"
  end.

Fixpoint lookupField (k : string) (fields : list (string * JSValue)) : JSValue :=
  match fields with
  | [] => JUndefined
  | (k', v) :: rest => if String.eqb k k' then v else lookupField k rest
  end.

(** [v?.k] for one of the settings keys: [undefined] on [null], [undefined]
    and on values that carry no such property. *)
Definition optField (v : JSValue) (k : string) : JSValue :=
  match v with
  | JObject fields => lookupField k fields
  | _ => JUndefined
  end.

(** Truthiness of a stored value, for [x || fallback]. *)
Definition jsTruthy (v : JSValue) : bool :=
  match v with
  | JUndefined | JNull => false
  | JBool b => b
  | JNumber n => negb (n =? 0)%Z
  | JString s => truthy s
  | JArray _ | JObject _ => true
  end.

Definition validateSettings (settings : JSValue) : Settings :=
  let defaults := getDefaultSettings in
  {| enabled :=
       if String.eqb (typeOf (optField settings "enabled")) "boolean"
       then match optField settings "enabled" with JBool b => b | _ => enabled defaults end
       else enabled defaults;
     prefixFilter :=
       if String.eqb (typeOf (optField settings "prefixFilter")) "string"
       then match optField settings "prefixFilter" with
            | JString s => trim s | _ => prefixFilter defaults end
       else prefixFilter defaults;
     extensionFilter :=
       if String.eqb (typeOf (optField settings "extensionFilter")) "string"
       then match optField settings "extensionFilter" with
            | JString s => stripLeadingDot (toLowerCase (trim s))
            | _ => extensionFilter defaults end
       else extensionFilter defaults;
     showNotifications :=
       if String.eqb (typeOf (optField settings "showNotifications")) "boolean"
       then match optField settings "showNotifications" with
            | JBool b => b | _ => showNotifications defaults end
       else showNotifications defaults;
     maxHistoryItems :=
       if String.eqb (typeOf (optField settings "maxHistoryItems")) "number"
       then match optField settings "maxHistoryItems" with
            | JNumber n => n | _ => maxHistoryItems defaults end
       else maxHistoryItems defaults |}.

(* ===================================================================== *)
(** ** Filter engine (service worker) *)
(* ===================================================================== *)

Record DownloadItem := mkDownloadItem {
  dl_filename : string;          (* downloadItem.filename: the full path *)
  dl_fileSize : Z
}.

Definition getFilename (downloadItem : DownloadItem) : string :=
  if truthy (dl_filename downloadItem)
  then lastPart (split isPathSep (dl_filename downloadItem))
  else "".

Definition getFileExtension (filename : string) : string :=
  let parts := split isDot filename in
  if (1 <? List.length parts)%nat then toLowerCase (lastPart parts) else "".

Record FilterResult := mkFilterResult {
  matches : bool;
  prefixMatch : bool;
  extensionMatch : bool;
  details : list string
}.

(** The prefix step of [checkFilters], on the result built so far. *)
Definition checkPrefix (prefixFilter filename : string) (result : FilterResult)
  : FilterResult :=
  if truthy prefixFilter && truthy (trim prefixFilter) then
    let pm := startsWith (toLowerCase filename) (toLowerCase prefixFilter) in
    if negb pm then
      {| matches := false; prefixMatch := pm;
         extensionMatch := extensionMatch result;
         details := (details result
                     ++ [String.concat "" ["Prefix "; quote; prefixFilter; quote;
                                           " not matched"]])%list |}
    else
      {| matches := matches result; prefixMatch := pm;
         extensionMatch := extensionMatch result;
         details := details result |}
  else result.

(** The extension step of [checkFilters]. *)
Definition checkExtension (extensionFilter filename : string) (result : FilterResult)
  : FilterResult :=
  if truthy extensionFilter && truthy (trim extensionFilter) then
    let fileExt := getFileExtension filename in
    let filterExt := stripLeadingDot (toLowerCase extensionFilter) in
    let em := String.eqb fileExt filterExt in
    if negb em then
      {| matches := false; prefixMatch := prefixMatch result;
         extensionMatch := em;
         details := (details result
                     ++ [String.concat "" ["Extension "; quote; "."; filterExt; quote;
                                           " not matched (file has "; quote; ".";
                                           fileExt; quote; ")"]])%list |}
    else
      {| matches := matches result; prefixMatch := prefixMatch result;
         extensionMatch := em;
         details := details result |}
  else result.

(** [checkFilters(filename)], reading the module-level [currentSettings]
    ([None] is [null]). *)
Definition checkFilters (currentSettings : option Settings) (filename : string)
  : FilterResult :=
  let result := {| matches := true; prefixMatch := true;
                   extensionMatch := true; details := [] |} in
  match currentSettings with
  | None =>
      {| matches := false; prefixMatch := prefixMatch result;
         extensionMatch := extensionMatch result;
         details := (details result ++ ["Settings not loaded"])%list |}
  | Some s =>
      checkExtension (extensionFilter s) filename
        (checkPrefix (prefixFilter s) filename result)
  end.

(* ===================================================================== *)
(** ** The extension's world: storage, cache, browser side effects *)
(* ===================================================================== *)

(** An object handed to [addToPrintHistory]. *)
Record PrintAttempt := mkPrintAttempt {
  pa_filename : string;
  pa_fullPath : string;
  pa_status : string;            (* 'printed' or 'error' *)
  pa_fileSize : option Z;
  pa_error : option string
}.

(** An element of the stored history: [{ id, timestamp, ...item }]. *)
Record HistoryItem := mkHistoryItem {
  h_id : Z;                      (* Date.now() *)
  h_timestamp : Z;               (* the instant new Date() renders as ISO text *)
  h_item : PrintAttempt
}.

Definition stamp (t : Z) (item : PrintAttempt) : HistoryItem :=
  {| h_id := t; h_timestamp := t; h_item := item |}.

(** [chrome.storage.local], restricted to the two keys the extension uses:
    [CONFIG.STORAGE_KEYS.SETTINGS] and [CONFIG.STORAGE_KEYS.PRINT_HISTORY]
    ([None]: the key is absent). *)
Record Storage := mkStorage {
  autoprint_settings : option JSValue;
  autoprint_history : option (list HistoryItem)
}.

Record Notification := mkNotification {
  n_kind : string;               (* CONFIG.NOTIFICATIONS.PRINT_SUCCESS / PRINT_ERROR *)
  n_title : string;
  n_message : string
}.

Record World := mkWorld {
  currentSettings : option Settings;     (* let currentSettings = null *)
  isInitialized : bool;                  (* let isInitialized = false *)
  storage : Storage;
  now : Z;                               (* what Date.now() returns *)
  badgeText : string;                    (* the text last passed to chrome.action.setBadgeText *)
  notifications : list Notification;     (* notifications created, latest first *)
  openedTabs : list (Z * string);        (* chrome.tabs.create results: id and url *)
  printCommands : list Z;                (* tabs on which window.print() ran *)
  tabRemovals : list (Z * Z);            (* scheduled chrome.tabs.remove: tab id, delay in ms *)
  errorLog : list string                 (* console.error lines *)
}.

Definition setCurrentSettings (v : option Settings) (w : World) : World :=
  mkWorld v (isInitialized w) (storage w) (now w) (badgeText w) (notifications w)
          (openedTabs w) (printCommands w) (tabRemovals w) (errorLog w).
Definition setIsInitialized (v : bool) (w : World) : World :=
  mkWorld (currentSettings w) v (storage w) (now w) (badgeText w) (notifications w)
          (openedTabs w) (printCommands w) (tabRemovals w) (errorLog w).
Definition setStorage (v : Storage) (w : World) : World :=
  mkWorld (currentSettings w) (isInitialized w) v (now w) (badgeText w) (notifications w)
          (openedTabs w) (printCommands w) (tabRemovals w) (errorLog w).
Definition setNow (v : Z) (w : World) : World :=
  mkWorld (currentSettings w) (isInitialized w) (storage w) v (badgeText w)
          (notifications w) (openedTabs w) (printCommands w) (tabRemovals w) (errorLog w).
Definition setBadgeText (v : string) (w : World) : World :=
  mkWorld (currentSettings w) (isInitialized w) (storage w) (now w) v (notifications w)
          (openedTabs w) (printCommands w) (tabRemovals w) (errorLog w).
Definition setNotifications (v : list Notification) (w : World) : World :=
  mkWorld (currentSettings w) (isInitialized w) (storage w) (now w) (badgeText w) v
          (openedTabs w) (printCommands w) (tabRemovals w) (errorLog w).
Definition setOpenedTabs (v : list (Z * string)) (w : World) : World :=
  mkWorld (currentSettings w) (isInitialized w) (storage w) (now w) (badgeText w)
          (notifications w) v (printCommands w) (tabRemovals w) (errorLog w).
Definition setPrintCommands (v : list Z) (w : World) : World :=
  mkWorld (currentSettings w) (isInitialized w) (storage w) (now w) (badgeText w)
          (notifications w) (openedTabs w) v (tabRemovals w) (errorLog w).
Definition setTabRemovals (v : list (Z * Z)) (w : World) : World :=
  mkWorld (currentSettings w) (isInitialized w) (storage w) (now w) (badgeText w)
          (notifications w) (openedTabs w) (printCommands w) v (errorLog w).
Definition setErrorLog (v : list string) (w : World) : World :=
  mkWorld (currentSettings w) (isInitialized w) (storage w) (now w) (badgeText w)
          (notifications w) (openedTabs w) (printCommands w) (tabRemovals w) v.

(** How a JavaScript computation completes.  What is thrown is an [Error]
    object, as the browser's interfaces and [getStorageAPI] throw them; the
    model keeps its [message]. *)
Inductive Completion (A : Type) :=
| Normal (a : A)
| Throw (message : string).
Arguments Normal {A} a.
Arguments Throw {A} message.

(** What the browser does when asked: the capabilities the worker calls but
    does not implement.  A promise that rejects is a [Throw].  Each field
    tells how the browser answers every call with the given arguments during
    a run: a storage that rejects a write of a key rejects every write of that
    key. *)
Record Browser := mkBrowser {
  storageAPI : bool;                         (* chrome.storage or browser.storage exists *)
  storageGet : string -> option string;      (* storage.get(key): Some e = rejects with e *)
  storageSet : string -> option string;      (* storage.set({key: ...}): Some e = rejects *)
  downloadsSearch : Z -> Completion (list DownloadItem);
  tabsCreate : string -> Completion Z;       (* chrome.tabs.create({url}): the tab id *)
  tabLoadSignal : Z -> bool;                 (* 'complete' arrives before the 3000 ms timer *)
  executeScript : Z -> Completion unit;      (* chrome.scripting.executeScript *)
  notificationsCreate : Notification -> option string;
                                             (* chrome.notifications.create(id, {...}):
                                                Some e = the call throws e *)
  actionSetBadgeText : string -> option string;
                                             (* chrome.action.setBadgeText({text}):
                                                Some e = the call throws e *)
  actionSetBadgeBackgroundColor : string -> option string
                                             (* chrome.action.setBadgeBackgroundColor({color}) *)
}.

(** Computations over the world that may throw; [None] is a loop that has
    not finished within the iterations allowed. *)
Definition M (A : Type) : Type := World -> option (Completion A * World).

Definition ret {A} (a : A) : M A := fun w => Some (Normal a, w).
Definition throw {A} (e : string) : M A := fun w => Some (Throw e, w).
Definition bind {A B} (m : M A) (f : A -> M B) : M B :=
  fun w => match m w with
           | Some (Normal a, w') => f a w'
           | Some (Throw e, w') => Some (Throw e, w')
           | None => None
           end.
(** [try { m } catch (error) { h error.message }] *)
Definition tryCatch {A} (m : M A) (h : string -> M A) : M A :=
  fun w => match m w with
           | Some (Throw e, w') => h e w'
           | r => r
           end.
Definition modify (f : World -> World) : M unit := fun w => Some (Normal tt, f w).
Definition gets {A} (f : World -> A) : M A := fun w => Some (Normal (f w), w).
Definition liftC {A} (c : Completion A) : M A := fun w => Some (c, w).

Declare Scope js_scope.
Delimit Scope js_scope with js.
Notation "x <- m ;; k" := (bind m (fun x => k))
  (at level 61, m at next level, right associativity) : js_scope.
Notation "m ;; k" := (bind m (fun _ => k))
  (at level 61, right associativity) : js_scope.
Local Open Scope js_scope.

Definition consoleError (line : string) : M unit :=
  modify (fun w => setErrorLog (line :: errorLog w) w).

Definition SETTINGS : string := "autoprint_settings".
Definition PRINT_HISTORY : string := "autoprint_history".

Section StorageManager.

Variable browser : Browser.

Definition getStorageAPI : M unit :=
  if storageAPI browser then ret tt
  else throw "No compatible storage API found".

(** [await storage.get(key)], for the settings key. *)
Definition storageGetSettings : M (option JSValue) :=
  match storageGet browser SETTINGS with
  | Some e => throw e
  | None => gets (fun w => autoprint_settings (storage w))
  end.

(** [await storage.get(key)], for the history key. *)
Definition storageGetHistory : M (option (list HistoryItem)) :=
  match storageGet browser PRINT_HISTORY with
  | Some e => throw e
  | None => gets (fun w => autoprint_history (storage w))
  end.

(** [await storage.set({ [PRINT_HISTORY]: history })] *)
Definition storageSetHistory (history : list HistoryItem) : M unit :=
  match storageSet browser PRINT_HISTORY with
  | Some e => throw e
  | None => modify (fun w =>
      setStorage {| autoprint_settings := autoprint_settings (storage w);
                    autoprint_history := Some history |} w)
  end.

(** [result[KEY] || {}] *)
Definition orEmptyObject (v : option JSValue) : JSValue :=
  match v with
  | Some x => if jsTruthy x then x else JObject []
  | None => JObject []
  end.

Definition loadSettings : M Settings :=
  tryCatch
    (getStorageAPI ;;
     result <- storageGetSettings ;;
     let settings := orEmptyObject result in
     ret (validateSettings settings))
    (fun error =>
       consoleError "[AutoPrint] Error loading settings:" ;;
       ret getDefaultSettings).

(** [result[KEY] || []]: an array, even an empty one, is truthy. *)
Definition orEmptyArray (v : option (list HistoryItem)) : list HistoryItem :=
  match v with
  | Some h => h
  | None => []
  end.

Definition loadPrintHistory : M (list HistoryItem) :=
  tryCatch
    (getStorageAPI ;;
     result <- storageGetHistory ;;
     ret (orEmptyArray result))
    (fun error =>
       consoleError "[AutoPrint] Error loading print history:" ;;
       ret []).

(** [while (history.length > max) { history.pop(); }]: [pop] on an empty
    array leaves it empty.  [fuel] bounds the number of loop tests. *)
Fixpoint trimLoop (fuel : nat) (max : Z) (history : list HistoryItem)
  : option (list HistoryItem) :=
  match fuel with
  | O => None
  | S fuel' =>
      if (max <? Z.of_nat (List.length history))%Z
      then trimLoop fuel' max (removelast history)
      else Some history
  end.

Definition trimHistory (fuel : nat) (max : Z) (history : list HistoryItem)
  : M (list HistoryItem) :=
  fun w => match trimLoop fuel max history with
           | Some h => Some (Normal h, w)
           | None => None
           end.

Definition addToPrintHistory (fuel : nat) (item : PrintAttempt) : M HistoryItem :=
  tryCatch
    (settings <- loadSettings ;;
     history <- loadPrintHistory ;;
     t <- gets now ;;
     let newItem := stamp t item in
     let history := newItem :: history in          (* history.unshift(newItem) *)
     history <- trimHistory fuel (maxHistoryItems settings) history ;;
     getStorageAPI ;;
     storageSetHistory history ;;
     ret newItem)
    (fun error =>
       consoleError "[AutoPrint] Error adding to print history:" ;;
       throw error).

Definition clearPrintHistory : M unit :=
  tryCatch
    (getStorageAPI ;;
     storageSetHistory [])
    (fun error =>
       consoleError "[AutoPrint] Error clearing print history:" ;;
       throw error).

End StorageManager.

(* ===================================================================== *)
(** ** Background service worker *)
(* ===================================================================== *)

Record StringDelta := mkStringDelta {
  previous : option string;
  current : option string
}.

(** The [delta] handed to [chrome.downloads.onChanged] listeners. *)
Record DownloadDelta := mkDownloadDelta {
  delta_id : Z;
  delta_state : option StringDelta
}.

Definition PRINT_SUCCESS : string := "autoprint_success".
Definition PRINT_ERROR : string := "autoprint_error".

(** [currentSettings?.enabled] and [currentSettings?.showNotifications],
    as conditions. *)
Definition cachedEnabled (w : World) : bool :=
  match currentSettings w with Some s => enabled s | None => false end.
Definition cachedShowNotifications (w : World) : bool :=
  match currentSettings w with Some s => showNotifications s | None => false end.

Section ServiceWorker.

Variable browser : Browser.
Variable fuel : nat.            (* loop tests allowed to each history trim *)

(** [chrome.action.setBadgeText({ text })]: the world keeps the text the
    call was given, also when the call then throws. *)
Definition setBadge (text : string) : M unit :=
  modify (setBadgeText text) ;;
  match actionSetBadgeText browser text with
  | Some e => throw e
  | None => ret tt
  end.

(** [chrome.action.setBadgeBackgroundColor({ color })] *)
Definition setBadgeColor (color : string) : M unit :=
  match actionSetBadgeBackgroundColor browser color with
  | Some e => throw e
  | None => ret tt
  end.

Definition updateBadge : M unit :=
  tryCatch
    (en <- gets cachedEnabled ;;
     let badgeText := if en then "ON" else "" in
     let badgeColor := if en then "#22c55e" else "#6b7280" in
     setBadge badgeText ;;
     setBadgeColor badgeColor)
    (fun error => consoleError "[AutoPrint] Badge update error:").

(** [chrome.notifications.create(notificationId + '_' + Date.now(), {...})]:
    the notification appears unless the call throws. *)
Definition createNotification (n : Notification) : M unit :=
  match notificationsCreate browser n with
  | Some e => throw e
  | None => modify (fun w => setNotifications (n :: notifications w) w)
  end.

(** [showNotification(title, message, type)] *)
Definition showNotification (title message type : string) : M unit :=
  show <- gets cachedShowNotifications ;;
  if negb show then ret tt
  else
    tryCatch
      (let notificationId :=
         if String.eqb type "success" then PRINT_SUCCESS else PRINT_ERROR in
       createNotification (mkNotification notificationId title message))
      (fun error => consoleError "[AutoPrint] Notification error:").

(** The callback registered with [onSettingsChange]: the listener hands it
    [validateSettings(changes[SETTINGS].newValue)]. *)
Definition settingsChanged (newValue : JSValue) : M unit :=
  modify (setCurrentSettings (Some (validateSettings newValue))) ;;
  updateBadge.

Definition initialize : M unit :=
  fun w =>
    if isInitialized w then Some (Normal tt, w)
    else
      tryCatch
        (s <- loadSettings browser ;;
         modify (setCurrentSettings (Some s)) ;;
         (* onSettingsChange(...) registers [settingsChanged] *)
         updateBadge ;;
         modify (setIsInitialized true))
        (fun error => consoleError "[AutoPrint] Initialization error:")
        w.

(** [await chrome.tabs.create({ url, active: false })] *)
Definition createTab (url : string) : M Z :=
  tab <- liftC (tabsCreate browser url) ;;
  modify (fun w => setOpenedTabs ((tab, url) :: openedTabs w) w) ;;
  ret tab.

(** The promise that resolves on the tab's 'complete' update or, failing
    that, when the 3000 ms timer fires; then the 500 ms settle delay.
    Either way the flow goes on; [true] tells that the signal came. *)
Definition awaitTabReady (tab : Z) : M bool := ret (tabLoadSignal browser tab).

(** [await chrome.scripting.executeScript({ ..., func: () => window.print() })] *)
Definition executePrint (tab : Z) : M unit :=
  liftC (executeScript browser tab) ;;
  modify (fun w => setPrintCommands (tab :: printCommands w) w).

(** [setTimeout(() => chrome.tabs.remove(tab.id).catch(() => {}), delay)] *)
Definition scheduleTabRemoval (tab delay : Z) : M unit :=
  modify (fun w => setTabRemovals ((tab, delay) :: tabRemovals w) w).

Definition printFile (downloadItem : DownloadItem) : M bool :=
  let filename := getFilename downloadItem in
  tryCatch
    (let fileUrl := "file://" ++ dl_filename downloadItem in
     tab <- createTab fileUrl ;;
     awaitTabReady tab ;;
     early <- tryCatch
       (executePrint tab ;;
        ret None)
       (fun scriptError =>
          consoleError "[AutoPrint] Script execution error:" ;;
          showNotification
            "AutoPrint: File Ready"
            (String.concat "" [quote; filename; quote;
                               " opened for printing. Press Ctrl+P to print."])
            "success" ;;
          ret (Some true)) ;;
     match early with
     | Some b => ret b                      (* return true; inside the inner catch *)
     | None =>
         addToPrintHistory browser fuel
           {| pa_filename := filename;
              pa_fullPath := dl_filename downloadItem;
              pa_status := "printed";
              pa_fileSize := Some (dl_fileSize downloadItem);
              pa_error := None |} ;;
         showNotification
           "AutoPrint: File Sent to Printer"
           (String.concat "" [quote; filename; quote; " has been sent to the printer."])
           "success" ;;
         scheduleTabRemoval tab 5000 ;;
         ret true
     end)
    (fun error =>
       consoleError "[AutoPrint] Error printing file:" ;;
       tryCatch
         (addToPrintHistory browser fuel
            {| pa_filename := filename;
               pa_fullPath := dl_filename downloadItem;
               pa_status := "error";
               pa_fileSize := None;
               pa_error := Some error |} ;;
          ret tt)
         (fun historyError => consoleError "[AutoPrint] History error:") ;;
       showNotification
         "AutoPrint: Print Failed"
         (String.concat "" ["Failed to print "; quote; filename; quote; ": "; error])
         "error" ;;
       ret false).

(** [!delta.state || delta.state.current !== 'complete'] is false. *)
Definition reachesComplete (delta : DownloadDelta) : bool :=
  match delta_state delta with
  | Some st => match current st with
               | Some c => String.eqb c "complete"
               | None => false
               end
  | None => false
  end.

Definition handleDownloadChanged (delta : DownloadDelta) : M unit :=
  if negb (reachesComplete delta) then ret tt
  else
    (inited <- gets isInitialized ;;
     (if negb inited then initialize else ret tt)) ;;
    en <- gets cachedEnabled ;;
    if negb en then ret tt
    else
      tryCatch
        (downloads <- liftC (downloadsSearch browser (delta_id delta)) ;;
         match downloads with
         | [] => consoleError "[AutoPrint] Download not found:"
         | downloadItem :: _ =>
             let filename := getFilename downloadItem in
             cs <- gets currentSettings ;;
             let filterResult := checkFilters cs filename in
             if negb (matches filterResult) then ret tt
             else printFile downloadItem ;; ret tt
         end)
        (fun error => consoleError "[AutoPrint] Error handling download:").

End ServiceWorker.

(* ===================================================================== *)
(** ** What the specification says, in its own words *)
(* ===================================================================== *)

Module Spec.

(** "the substring after the last [.]": [None] when there is no dot. *)
Fixpoint afterLastDot (s : string) : option string :=
  match s with
  | EmptyString => None
  | String c r =>
      match afterLastDot r with
      | Some t => Some t
      | None => if isDot c then Some r else None
      end
  end.

(** "(no dot present => empty extension)" *)
Definition extensionOf (filename : string) : string :=
  match afterLastDot filename with
  | Some t => t
  | None => ""
  end.

Fixpoint hasDot (s : string) : bool :=
  match s with
  | EmptyString => false
  | String c r => isDot c || hasDot r
  end.

(** "match iff filename case-insensitively starts with rule.prefix ...
    lower-casing both sides before comparison" *)
Definition prefixVerdict (prefix filename : string) : bool :=
  if truthy prefix
  then startsWith (toLowerCase filename) (toLowerCase prefix)
  else true.

(** "lower-case it, and compare for exact equality against the lower-cased,
    dot-stripped rule.extension" *)
Definition extensionVerdict (extension filename : string) : bool :=
  if truthy extension
  then String.eqb (toLowerCase (extensionOf filename))
                  (toLowerCase (stripLeadingDot extension))
  else true.

(** "Overall verdict is the logical AND of all active (non-empty)
    sub-filters" *)
Definition evaluate (prefix extension filename : string) : bool :=
  prefixVerdict prefix filename && extensionVerdict extension filename.

End Spec.

(* ===================================================================== *)
(** ** Notions used in the statements *)
(* ===================================================================== *)

(** Whether [getStorageAPI()] and [storage.get(key)] both go through. *)
Definition readSucceeds (browser : Browser) (key : string) : bool :=
  storageAPI browser
  && match storageGet browser key with None => true | Some _ => false end.

(** The read inside [loadSettings]: [getStorageAPI()] then [storage.get]. *)
Definition readSettings (browser : Browser) : M (option JSValue) :=
  getStorageAPI browser ;; storageGetSettings browser.

(** The read inside [loadPrintHistory]. *)
Definition readHistory (browser : Browser) : M (option (list HistoryItem)) :=
  getStorageAPI browser ;; storageGetHistory browser.

Definition throws {A} (m : M A) (w : World) : Prop :=
  exists e w', m w = Some (Throw e, w').

(** A run of appends: each element gives the clock reading at the call and
    the item passed to [addToPrintHistory].  [None] when a call throws or
    does not return. *)
Fixpoint appendAll (browser : Browser) (fuel : nat)
         (calls : list (Z * PrintAttempt)) (w : World) : option World :=
  match calls with
  | [] => Some w
  | (t, item) :: rest =>
      match addToPrintHistory browser fuel item (setNow t w) with
      | Some (Normal _, w') => appendAll browser fuel rest w'
      | _ => None
      end
  end.

(** The records a run of appends creates, oldest first. *)
Definition stamped (calls : list (Z * PrintAttempt)) : list HistoryItem :=
  map (fun c => stamp (fst c) (snd c)) calls.

(** The cap in force: [maxHistoryItems] of the settings as stored. *)
Definition storedCap (w : World) : Z :=
  maxHistoryItems (validateSettings (orEmptyObject (autoprint_settings (storage w)))).

(** Reads and writes of both keys go through. *)
Definition storageWorks (browser : Browser) : bool :=
  readSucceeds browser SETTINGS && readSucceeds browser PRINT_HISTORY
  && match storageSet browser PRINT_HISTORY with None => true | Some _ => false end.

(** The settings [loadSettings] returns in a given world. *)
Definition storedSettings (browser : Browser) (w : World) : Settings :=
  if readSucceeds browser SETTINGS
  then validateSettings (orEmptyObject (autoprint_settings (storage w)))
  else getDefaultSettings.

(** [Settings.enabled] as the handler will find it when an event arrives:
    the cached flag once initialized, the stored one before. *)
Definition settingsEnabled (browser : Browser) (w : World) : bool :=
  if isInitialized w then cachedEnabled w else enabled (storedSettings browser w).

(** Whether one of the two [chrome.action] calls of [updateBadge] throws,
    for the given value of [currentSettings?.enabled]. *)
Definition badgeCallThrows (browser : Browser) (en : bool) : bool :=
  match actionSetBadgeText browser (if en then "ON" else "") with
  | Some _ => true
  | None =>
      match actionSetBadgeBackgroundColor browser
              (if en then "#22c55e" else "#6b7280") with
      | Some _ => true
      | None => false
      end
  end.

(** The world once [updateBadge()] is through: the badge text asked for,
    and one console line when a [chrome.action] call threw. *)
Definition afterBadge (browser : Browser) (w : World) : World :=
  let w1 := setBadgeText (if cachedEnabled w then "ON" else "") w in
  if badgeCallThrows browser (cachedEnabled w)
  then setErrorLog ("[AutoPrint] Badge update error:" :: errorLog w1) w1
  else w1.

(** The world once [if (!isInitialized) await initialize()] is through. *)
Definition afterInit (browser : Browser) (w : World) : World :=
  if isInitialized w then w
  else
    let w0 := if readSucceeds browser SETTINGS then w
              else setErrorLog ("[AutoPrint] Error loading settings:" :: errorLog w) w in
    let w1 := setCurrentSettings (Some (storedSettings browser w)) w0 in
    setIsInitialized true (afterBadge browser w1).

(** The part of [handleDownloadChanged] inside its [try]. *)
Definition handleCompleted (browser : Browser) (fuel : nat) (delta : DownloadDelta)
  : M unit :=
  tryCatch
    (downloads <- liftC (downloadsSearch browser (delta_id delta)) ;;
     match downloads with
     | [] => consoleError "[AutoPrint] Download not found:"
     | downloadItem :: _ =>
         let filename := getFilename downloadItem in
         cs <- gets currentSettings ;;
         let filterResult := checkFilters cs filename in
         if negb (matches filterResult) then ret tt
         else printFile browser fuel downloadItem ;; ret tt
     end)
    (fun error => consoleError "[AutoPrint] Error handling download:").

(** The notification of the fallback path. *)
Definition fileReady (downloadItem : DownloadItem) : Notification :=
  {| n_kind := PRINT_SUCCESS;
     n_title := "AutoPrint: File Ready";
     n_message := String.concat "" [quote; getFilename downloadItem; quote;
                                    " opened for printing. Press Ctrl+P to print."] |}.

(* ===================================================================== *)
(** ** Concrete browsers and worlds used in the examples *)
(* ===================================================================== *)

Module Scenario.

Definition invoice : DownloadItem :=
  {| dl_filename := "/home/ann/Downloads/invoice_2024.pdf"; dl_fileSize := 2048 |}.

(** A browser in which everything works; the download 1 is [invoice]. *)
Definition healthy : Browser :=
  {| storageAPI := true;
     storageGet := fun _ => None;
     storageSet := fun _ => None;
     downloadsSearch := fun id => Normal (if (id =? 1)%Z then [invoice] else []);
     tabsCreate := fun _ => Normal 7%Z;
     tabLoadSignal := fun _ => true;
     executeScript := fun _ => Normal tt;
     notificationsCreate := fun _ => None;
     actionSetBadgeText := fun _ => None;
     actionSetBadgeBackgroundColor := fun _ => None |}.

(** Neither [chrome.storage] nor [browser.storage] exists. *)
Definition noStorage : Browser :=
  {| storageAPI := false;
     storageGet := storageGet healthy;
     storageSet := storageSet healthy;
     downloadsSearch := downloadsSearch healthy;
     tabsCreate := tabsCreate healthy;
     tabLoadSignal := tabLoadSignal healthy;
     executeScript := executeScript healthy;
     notificationsCreate := notificationsCreate healthy;
     actionSetBadgeText := actionSetBadgeText healthy;
     actionSetBadgeBackgroundColor := actionSetBadgeBackgroundColor healthy |}.

(** The page refuses the injected script (a restricted [file://] page). *)
Definition printBlocked : Browser :=
  {| storageAPI := true;
     storageGet := storageGet healthy;
     storageSet := storageSet healthy;
     downloadsSearch := downloadsSearch healthy;
     tabsCreate := tabsCreate healthy;
     tabLoadSignal := tabLoadSignal healthy;
     executeScript := fun _ => Throw "Cannot access contents of the page";
     notificationsCreate := notificationsCreate healthy;
     actionSetBadgeText := actionSetBadgeText healthy;
     actionSetBadgeBackgroundColor := actionSetBadgeBackgroundColor healthy |}.

(** No tab can be created. *)
Definition cannotOpen : Browser :=
  {| storageAPI := true;
     storageGet := storageGet healthy;
     storageSet := storageSet healthy;
     downloadsSearch := downloadsSearch healthy;
     tabsCreate := fun _ => Throw "No current window";
     tabLoadSignal := tabLoadSignal healthy;
     executeScript := executeScript healthy;
     notificationsCreate := notificationsCreate healthy;
     actionSetBadgeText := actionSetBadgeText healthy;
     actionSetBadgeBackgroundColor := actionSetBadgeBackgroundColor healthy |}.

(** The page refuses the injected script, and [chrome.notifications] is not
    there to tell the user (the permission is missing). *)
Definition printBlockedSilent : Browser :=
  {| storageAPI := true;
     storageGet := storageGet healthy;
     storageSet := storageSet healthy;
     downloadsSearch := downloadsSearch healthy;
     tabsCreate := tabsCreate healthy;
     tabLoadSignal := tabLoadSignal healthy;
     executeScript := fun _ => Throw "Cannot access contents of the page";
     notificationsCreate := fun _ =>
       Some "Cannot read properties of undefined (reading 'create')";
     actionSetBadgeText := actionSetBadgeText healthy;
     actionSetBadgeBackgroundColor := actionSetBadgeBackgroundColor healthy |}.

Definition enabledSettings : JSValue :=
  JObject [("enabled", JBool true); ("maxHistoryItems", JNumber 2)].

(** The service worker right after start-up, before [initialize] ran. *)
Definition fresh (stored : option JSValue) : World :=
  {| currentSettings := None;
     isInitialized := false;
     storage := {| autoprint_settings := stored; autoprint_history := None |};
     now := 1700000000000;
     badgeText := "";
     notifications := [];
     openedTabs := [];
     printCommands := [];
     tabRemovals := [];
     errorLog := [] |}.

Definition completed (id : Z) : DownloadDelta :=
  {| delta_id := id;
     delta_state := Some {| previous := Some "in_progress";
                            current := Some "complete" |} |}.

Definition attempt (name : string) : PrintAttempt :=
  {| pa_filename := name; pa_fullPath := "/tmp/" ++ name; pa_status := "printed";
     pa_fileSize := Some 1%Z; pa_error := None |}.

End Scenario.

(* ===================================================================== *)
(** ** Storage manager: writing settings, change notifications *)
(* ===================================================================== *)

(** The object [validateSettings] returns, as a stored value. *)
Definition settingsObject (s : Settings) : JSValue :=
  JObject [("enabled", JBool (enabled s));
           ("prefixFilter", JString (prefixFilter s));
           ("extensionFilter", JString (extensionFilter s));
           ("showNotifications", JBool (showNotifications s));
           ("maxHistoryItems", JNumber (maxHistoryItems s))].

(** The own properties an object spread [...v] copies, for an object. *)
Definition ownFields (v : JSValue) : list (string * JSValue) :=
  match v with
  | JObject fields => fields
  | _ => []
  end.

Fixpoint hasKey (k : string) (fields : list (string * JSValue)) : bool :=
  match fields with
  | [] => false
  | (k', _) :: rest => String.eqb k k' || hasKey k rest
  end.

Section StorageWrites.

Variable browser : Browser.

(** [await storage.set({ [SETTINGS]: value })] *)
Definition storageSetSettings (value : JSValue) : M unit :=
  match storageSet browser SETTINGS with
  | Some e => throw e
  | None => modify (fun w =>
      setStorage {| autoprint_settings := Some value;
                    autoprint_history := autoprint_history (storage w) |} w)
  end.

Definition saveSettings (settings : JSValue) : M Settings :=
  tryCatch
    (getStorageAPI browser ;;
     let validatedSettings := validateSettings settings in
     storageSetSettings (settingsObject validatedSettings) ;;
     ret validatedSettings)
    (fun error =>
       consoleError "[AutoPrint] Error saving settings:" ;;
       throw error).

(** [updateSettings(partialSettings)], for an object [partialSettings]
    given by its own properties: in [{ ...currentSettings,
    ...partialSettings }] the later spread wins. *)
Definition updateSettings (partialSettings : list (string * JSValue)) : M Settings :=
  currentSettings <- loadSettings browser ;;
  let newSettings :=
    JObject (partialSettings ++ ownFields (settingsObject currentSettings)) in
  saveSettings newSettings.

End StorageWrites.

(** One entry of the [changes] object of [chrome.storage.onChanged]. *)
Record StorageChange := mkStorageChange {
  oldValue : JSValue;
  newValue : JSValue
}.

Fixpoint lookupChange (k : string) (changes : list (string * StorageChange))
  : option StorageChange :=
  match changes with
  | [] => None
  | (k', c) :: rest => if String.eqb k k' then Some c else lookupChange k rest
  end.

(** The listener that [onSettingsChange(callback)] registers. *)
Definition settingsListener (callback : Settings -> M unit)
           (changes : list (string * StorageChange)) (areaName : string) : M unit :=
  match (if String.eqb areaName "local" then lookupChange SETTINGS changes else None) with
  | Some change =>
      let newSettings := validateSettings (newValue change) in
      callback newSettings
  | None => ret tt
  end.

(** The callback the service worker passes to [onSettingsChange]. *)
Definition onNewSettings (browser : Browser) (newSettings : Settings) : M unit :=
  modify (setCurrentSettings (Some newSettings)) ;;
  updateBadge browser.

(** The service worker's reaction to a [chrome.storage.onChanged] event. *)
Definition storageChanged (browser : Browser)
           (changes : list (string * StorageChange)) (areaName : string) : M unit :=
  settingsListener (onNewSettings browser) changes areaName.

(** The answer of the message listener to [{ type: 'getStatus' }]:
    [{ enabled: currentSettings?.enabled || false, initialized: isInitialized }]. *)
Definition getStatus (w : World) : bool * bool :=
  (cachedEnabled w, isInitialized w).

(* ===================================================================== *)
(** ** Notions used in the statements about effects *)
(* ===================================================================== *)

(** Every completed run of [m] relates the worlds before and after by [R]. *)
Definition keeps {A} (R : World -> World -> Prop) (m : M A) : Prop :=
  forall w r w', m w = Some (r, w') -> R w w'.

(** No run of [m] ends in an exception. *)
Definition neverThrows {A} (m : M A) : Prop :=
  forall w r w', m w = Some (r, w') -> exists a, r = Normal a.

(** The settings cache, the initialization flag and the badge are as before. *)
Definition sameCache (w w' : World) : Prop :=
  currentSettings w' = currentSettings w
  /\ isInitialized w' = isInitialized w
  /\ badgeText w' = badgeText w.

(** The stored settings are as before. *)
Definition sameStoredSettings (w w' : World) : Prop :=
  autoprint_settings (storage w') = autoprint_settings (storage w).

(** The badge shows ON exactly when the cached settings are enabled. *)
Definition badgeConsistent (w : World) : Prop :=
  badgeText w = (if cachedEnabled w then "ON" else "").

(** Once initialized, the cache is loaded and the badge is consistent. *)
Definition workerInvariant (w : World) : Prop :=
  isInitialized w = true -> currentSettings w <> None /\ badgeConsistent w.

(** The history as [addToPrintHistory] reads it: empty when the read fails. *)
Definition historyRead (browser : Browser) (w : World) : list HistoryItem :=
  if readSucceeds browser PRINT_HISTORY
  then orEmptyArray (autoprint_history (storage w))
  else [].

(** The cap as [addToPrintHistory] reads it: the default when the read fails. *)
Definition capRead (browser : Browser) (w : World) : Z :=
  maxHistoryItems (storedSettings browser w).

(** No character of the string is a separator. *)
Fixpoint noneSatisfy (p : ascii -> bool) (s : string) : bool :=
  match s with
  | EmptyString => true
  | String c r => negb (p c) && noneSatisfy p r
  end.

(** A string with a path separator in it. *)
Fixpoint hasPathSep (s : string) : bool :=
  match s with
  | EmptyString => false
  | String c r => isPathSep c || hasPathSep r
  end.

(** The records of the two terminal paths of [printFile]. *)
Definition printedRecord (downloadItem : DownloadItem) : PrintAttempt :=
  {| pa_filename := getFilename downloadItem;
     pa_fullPath := dl_filename downloadItem;
     pa_status := "printed";
     pa_fileSize := Some (dl_fileSize downloadItem);
     pa_error := None |}.

Definition errorRecord (downloadItem : DownloadItem) (error : string) : PrintAttempt :=
  {| pa_filename := getFilename downloadItem;
     pa_fullPath := dl_filename downloadItem;
     pa_status := "error";
     pa_fileSize := None;
     pa_error := Some error |}.

Definition sentToPrinter (downloadItem : DownloadItem) : Notification :=
  {| n_kind := PRINT_SUCCESS;
     n_title := "AutoPrint: File Sent to Printer";
     n_message := String.concat "" [quote; getFilename downloadItem; quote;
                                    " has been sent to the printer."] |}.

Definition printFailed (downloadItem : DownloadItem) (error : string) : Notification :=
  {| n_kind := PRINT_ERROR;
     n_title := "AutoPrint: Print Failed";
     n_message := String.concat "" ["Failed to print "; quote;
                                    getFilename downloadItem; quote; ": "; error] |}.

(** What a [showNotification] whose call goes through leaves in the
    notification list. *)
Definition notified (n : Notification) (w : World) : list Notification :=
  if cachedShowNotifications w then n :: notifications w else notifications w.

(** [chrome.notifications.create] goes through for this notification. *)
Definition created (browser : Browser) (n : Notification) : bool :=
  match notificationsCreate browser n with
  | None => true
  | Some _ => false
  end.

(** What [showNotification] leaves in the notification list: the
    notification, when notifications are on and the call goes through. *)
Definition notifiedBy (browser : Browser) (n : Notification) (w : World)
  : list Notification :=
  if cachedShowNotifications w && created browser n
  then n :: notifications w
  else notifications w.

(** What [showNotification] leaves on the error console, on top of [log]:
    one line, when notifications are on and the call throws. *)
Definition consoleAfterNotification (browser : Browser) (n : Notification)
           (w : World) (log : list string) : list string :=
  if cachedShowNotifications w && negb (created browser n)
  then "[AutoPrint] Notification error:" :: log
  else log.

(** The world once [showNotification] is through. *)
Definition afterNotification (browser : Browser) (n : Notification) (w : World)
  : World :=
  if cachedShowNotifications w
  then if created browser n
       then setNotifications (n :: notifications w) w
       else setErrorLog ("[AutoPrint] Notification error:" :: errorLog w) w
  else w.

(** The settings cache holds nothing but records that [validateSettings]
    returned. *)
Definition cacheValidated (w : World) : Prop :=
  match currentSettings w with
  | None => True
  | Some s => exists raw : JSValue, s = validateSettings raw
  end.

(** The world after the two reads of [addToPrintHistory]: a failed read
    leaves one line on the error console. *)
Definition afterReads (browser : Browser) (w : World) : World :=
  let w1 := if readSucceeds browser SETTINGS then w
            else setErrorLog ("[AutoPrint] Error loading settings:" :: errorLog w) w in
  if readSucceeds browser PRINT_HISTORY then w1
  else setErrorLog ("[AutoPrint] Error loading print history:" :: errorLog w1) w1.

(** Browsers with one fault each, for the examples. *)
Module Faults.

(** [storage.get] of the history key rejects; everything else works. *)
Definition historyUnreadable : Browser :=
  {| storageAPI := true;
     storageGet := fun k => if String.eqb k PRINT_HISTORY then Some "read failed" else None;
     storageSet := storageSet Scenario.healthy;
     downloadsSearch := downloadsSearch Scenario.healthy;
     tabsCreate := tabsCreate Scenario.healthy;
     tabLoadSignal := tabLoadSignal Scenario.healthy;
     executeScript := executeScript Scenario.healthy;
     notificationsCreate := notificationsCreate Scenario.healthy;
     actionSetBadgeText := actionSetBadgeText Scenario.healthy;
     actionSetBadgeBackgroundColor := actionSetBadgeBackgroundColor Scenario.healthy |}.

(** Every [storage.set] rejects (quota exceeded); reads work. *)
Definition writeRejected : Browser :=
  {| storageAPI := true;
     storageGet := storageGet Scenario.healthy;
     storageSet := fun _ => Some "QUOTA_BYTES quota exceeded";
     downloadsSearch := downloadsSearch Scenario.healthy;
     tabsCreate := tabsCreate Scenario.healthy;
     tabLoadSignal := tabLoadSignal Scenario.healthy;
     executeScript := executeScript Scenario.healthy;
     notificationsCreate := notificationsCreate Scenario.healthy;
     actionSetBadgeText := actionSetBadgeText Scenario.healthy;
     actionSetBadgeBackgroundColor := actionSetBadgeBackgroundColor Scenario.healthy |}.

(** [chrome.downloads.search] rejects. *)
Definition searchFails : Browser :=
  {| storageAPI := true;
     storageGet := storageGet Scenario.healthy;
     storageSet := storageSet Scenario.healthy;
     downloadsSearch := fun _ => Throw "downloads unavailable";
     tabsCreate := tabsCreate Scenario.healthy;
     tabLoadSignal := tabLoadSignal Scenario.healthy;
     executeScript := executeScript Scenario.healthy;
     notificationsCreate := notificationsCreate Scenario.healthy;
     actionSetBadgeText := actionSetBadgeText Scenario.healthy;
     actionSetBadgeBackgroundColor := actionSetBadgeBackgroundColor Scenario.healthy |}.

(** The search returns two items for the id 1. *)
Definition twoResults : Browser :=
  {| storageAPI := true;
     storageGet := storageGet Scenario.healthy;
     storageSet := storageSet Scenario.healthy;
     downloadsSearch := fun _ =>
       Normal [Scenario.invoice; mkDownloadItem "/tmp/other.txt" 1];
     tabsCreate := tabsCreate Scenario.healthy;
     tabLoadSignal := tabLoadSignal Scenario.healthy;
     executeScript := executeScript Scenario.healthy;
     notificationsCreate := notificationsCreate Scenario.healthy;
     actionSetBadgeText := actionSetBadgeText Scenario.healthy;
     actionSetBadgeBackgroundColor := actionSetBadgeBackgroundColor Scenario.healthy |}.

(** No tab can be created and every [storage.set] rejects. *)
Definition openAndWriteFail : Browser :=
  {| storageAPI := true;
     storageGet := storageGet Scenario.healthy;
     storageSet := fun _ => Some "QUOTA_BYTES quota exceeded";
     downloadsSearch := downloadsSearch Scenario.healthy;
     tabsCreate := fun _ => Throw "No current window";
     tabLoadSignal := tabLoadSignal Scenario.healthy;
     executeScript := executeScript Scenario.healthy;
     notificationsCreate := notificationsCreate Scenario.healthy;
     actionSetBadgeText := actionSetBadgeText Scenario.healthy;
     actionSetBadgeBackgroundColor := actionSetBadgeBackgroundColor Scenario.healthy |}.

(** Neither [chrome.notifications] nor [chrome.action] can be called, and
    every [storage.set] rejects. *)
Definition nothingWorks : Browser :=
  {| storageAPI := true;
     storageGet := storageGet Scenario.healthy;
     storageSet := fun _ => Some "QUOTA_BYTES quota exceeded";
     downloadsSearch := downloadsSearch Scenario.healthy;
     tabsCreate := tabsCreate Scenario.healthy;
     tabLoadSignal := tabLoadSignal Scenario.healthy;
     executeScript := executeScript Scenario.healthy;
     notificationsCreate := fun _ =>
       Some "Cannot read properties of undefined (reading 'create')";
     actionSetBadgeText := fun _ =>
       Some "Cannot read properties of undefined (reading 'setBadgeText')";
     actionSetBadgeBackgroundColor := fun _ =>
       Some "Cannot read properties of undefined (reading 'setBadgeBackgroundColor')" |}.

(** [chrome.notifications.create] throws; everything else works. *)
Definition cannotNotify : Browser :=
  {| storageAPI := true;
     storageGet := storageGet Scenario.healthy;
     storageSet := storageSet Scenario.healthy;
     downloadsSearch := downloadsSearch Scenario.healthy;
     tabsCreate := tabsCreate Scenario.healthy;
     tabLoadSignal := tabLoadSignal Scenario.healthy;
     executeScript := executeScript Scenario.healthy;
     notificationsCreate := fun _ =>
       Some "Cannot read properties of undefined (reading 'create')";
     actionSetBadgeText := actionSetBadgeText Scenario.healthy;
     actionSetBadgeBackgroundColor := actionSetBadgeBackgroundColor Scenario.healthy |}.

End Faults.

(** The string is not empty and its first character is not white space. *)
Definition startsNonSpace (s : string) : bool :=
  match s with
  | EmptyString => false
  | String c _ => negb (isSpace c)
  end.

(** A settings record read back from its stored object: what
    [validateSettings] makes of [settingsObject s]. *)
Definition revalidated (s : Settings) : Settings :=
  {| enabled := enabled s;
     prefixFilter := trim (prefixFilter s);
     extensionFilter := stripLeadingDot (toLowerCase (trim (extensionFilter s)));
     showNotifications := showNotifications s;
     maxHistoryItems := maxHistoryItems s |}.

(** Reads and writes of the settings key go through. *)
Definition settingsStorageWorks (browser : Browser) : bool :=
  readSucceeds browser SETTINGS
  && match storageSet browser SETTINGS with None => true | Some _ => false end.

(* ===================================================================== *)
(** ** The earlier service worker (the variant without [isInitialized]) *)
(* ===================================================================== *)

Module Legacy.

(** [checkFilters(filename)]: it destructures [currentSettings] with no
    guard, which throws a TypeError on [null]. *)
Definition checkFilters (filename : string) : M FilterResult :=
  fun w =>
    match currentSettings w with
    | None =>
        Some (Throw "Cannot destructure property 'prefixFilter' of 'currentSettings' as it is null.", w)
    | Some s =>
        let result := {| matches := true; prefixMatch := true;
                         extensionMatch := true; details := [] |} in
        Some (Normal (checkExtension (extensionFilter s) filename
                        (checkPrefix (prefixFilter s) filename result)), w)
    end.

Section Worker.

Variable browser : Browser.
Variable fuel : nat.

(** [updateBadge()]: the two [chrome.action] calls, with no [try]. *)
Definition updateBadge : M unit :=
  en <- gets cachedEnabled ;;
  let badgeText := if en then "ON" else "" in
  let badgeColor := if en then "#22c55e" else "#6b7280" in
  setBadge browser badgeText ;;
  setBadgeColor browser badgeColor.

(** [showNotification(title, message, type)]: here nothing catches what
    [chrome.notifications.create] throws. *)
Definition showNotification (title message type : string) : M unit :=
  show <- gets cachedShowNotifications ;;
  if negb show then ret tt
  else
    let notificationId :=
      if String.eqb type "success" then PRINT_SUCCESS else PRINT_ERROR in
    createNotification browser (mkNotification notificationId title message).

(** [initialize()]: no guard and no [try]; [loadSettings] does not throw. *)
Definition initialize : M unit :=
  s <- loadSettings browser ;;
  modify (setCurrentSettings (Some s)) ;;
  updateBadge.

Definition printFile (downloadItem : DownloadItem) : M bool :=
  let filename := getFilename downloadItem in
  tryCatch
    (let fileUrl := "file://" ++ dl_filename downloadItem in
     tab <- createTab browser fileUrl ;;
     (* await new Promise(resolve => setTimeout(resolve, 1500)) *)
     executePrint browser tab ;;
     addToPrintHistory browser fuel
       {| pa_filename := filename;
          pa_fullPath := dl_filename downloadItem;
          pa_status := "printed";
          pa_fileSize := Some (dl_fileSize downloadItem);
          pa_error := None |} ;;
     showNotification
       "AutoPrint: File Sent to Printer"
       (String.concat "" [quote; filename; quote; " has been sent to the printer."])
       "success" ;;
     scheduleTabRemoval tab 3000 ;;
     ret true)
    (fun error =>
       consoleError "[AutoPrint] Error printing file:" ;;
       addToPrintHistory browser fuel
         {| pa_filename := filename;
            pa_fullPath := dl_filename downloadItem;
            pa_status := "error";
            pa_fileSize := None;
            pa_error := Some error |} ;;
       showNotification
         "AutoPrint: Print Failed"
         (String.concat "" ["Failed to print "; quote; filename; quote; ": "; error])
         "error" ;;
       ret false).

Definition handleDownloadChanged (delta : DownloadDelta) : M unit :=
  if negb (reachesComplete delta) then ret tt
  else
    en <- gets cachedEnabled ;;
    if negb en then ret tt
    else
      tryCatch
        (downloads <- liftC (downloadsSearch browser (delta_id delta)) ;;
         match downloads with
         | [] => consoleError "[AutoPrint] Download not found:"
         | downloadItem :: _ =>
             let filename := getFilename downloadItem in
             filterResult <- checkFilters filename ;;
             if negb (matches filterResult) then ret tt
             else printFile downloadItem ;; ret tt
         end)
        (fun error => consoleError "[AutoPrint] Error handling download:").

End Worker.

End Legacy.

(* ===================================================================== *)
(** ** The popup ([src/popup/popup.js]) and the options form *)
(* ===================================================================== *)

(** The parts of the popup's page that its script reads and writes, and the
    script's own [currentSettings]. *)
Record PopupUI := mkPopupUI {
  enableToggle : bool;            (* elements.enableToggle.checked *)
  statusActive : bool;            (* statusIndicator has the class 'active' *)
  statusText : string;            (* the indicator's '.status-text' *)
  prefixValue : string;           (* elements.prefixFilter.value *)
  extensionValue : string;        (* elements.extensionFilter.value *)
  filterPreview : string;         (* elements.filterPreview.textContent *)
  saveBtnDisabled : bool;
  saveStatusText : string;        (* elements.saveStatus.textContent *)
  saveStatusClass : string;       (* elements.saveStatus.className *)
  statusTimers : nat;             (* pending 3000 ms timers that clear the status *)
  popupSettings : option Settings (* let currentSettings = null *)
}.

Module Popup.

Definition updateStatusIndicator (enabled : bool) (ui : PopupUI) : PopupUI :=
  mkPopupUI (enableToggle ui) enabled (if enabled then "Active" else "Disabled")
            (prefixValue ui) (extensionValue ui) (filterPreview ui)
            (saveBtnDisabled ui) (saveStatusText ui) (saveStatusClass ui)
            (statusTimers ui) (popupSettings ui).

(** [settings.prefixFilter || ''] on a string is the string itself. *)
Definition applySettingsToUI (settings : Settings) (ui : PopupUI) : PopupUI :=
  updateStatusIndicator (enabled settings)
    (mkPopupUI (enabled settings) (statusActive ui) (statusText ui)
               (prefixFilter settings) (extensionFilter settings) (filterPreview ui)
               (saveBtnDisabled ui) (saveStatusText ui) (saveStatusClass ui)
               (statusTimers ui) (popupSettings ui)).

(** The text [updatePreview] computes from the two input values. *)
Definition previewText (prefixInput extensionInput : string) : string :=
  let prefix := trim prefixInput in
  let extension := stripLeadingDot (trim extensionInput) in
  if negb (truthy prefix) && negb (truthy extension) then
    "Printing all downloaded files"
  else if truthy prefix && negb (truthy extension) then
    String.concat "" ["Printing files starting with "; quote; prefix; quote]
  else if negb (truthy prefix) && truthy extension then
    String.concat "" ["Printing all ."; extension; " files"]
  else
    String.concat "" ["Printing ."; extension; " files starting with ";
                      quote; prefix; quote].

Definition updatePreview (ui : PopupUI) : PopupUI :=
  mkPopupUI (enableToggle ui) (statusActive ui) (statusText ui)
            (prefixValue ui) (extensionValue ui)
            (previewText (prefixValue ui) (extensionValue ui))
            (saveBtnDisabled ui) (saveStatusText ui) (saveStatusClass ui)
            (statusTimers ui) (popupSettings ui).

Definition showStatus (message type : string) (ui : PopupUI) : PopupUI :=
  mkPopupUI (enableToggle ui) (statusActive ui) (statusText ui)
            (prefixValue ui) (extensionValue ui) (filterPreview ui)
            (saveBtnDisabled ui) message ("save-status " ++ type)
            (S (statusTimers ui)) (popupSettings ui).

Definition setSaveBtnDisabled (v : bool) (ui : PopupUI) : PopupUI :=
  mkPopupUI (enableToggle ui) (statusActive ui) (statusText ui)
            (prefixValue ui) (extensionValue ui) (filterPreview ui)
            v (saveStatusText ui) (saveStatusClass ui)
            (statusTimers ui) (popupSettings ui).

Definition setEnableToggle (v : bool) (ui : PopupUI) : PopupUI :=
  mkPopupUI v (statusActive ui) (statusText ui)
            (prefixValue ui) (extensionValue ui) (filterPreview ui)
            (saveBtnDisabled ui) (saveStatusText ui) (saveStatusClass ui)
            (statusTimers ui) (popupSettings ui).

Definition setPopupSettings (v : option Settings) (ui : PopupUI) : PopupUI :=
  mkPopupUI (enableToggle ui) (statusActive ui) (statusText ui)
            (prefixValue ui) (extensionValue ui) (filterPreview ui)
            (saveBtnDisabled ui) (saveStatusText ui) (saveStatusClass ui)
            (statusTimers ui) v.

(** [getFormSettings()]: the popup does not edit the last two fields and
    carries them over from its [currentSettings]. *)
Definition getFormSettings (ui : PopupUI) : Settings :=
  {| enabled := enableToggle ui;
     prefixFilter := trim (prefixValue ui);
     extensionFilter := stripLeadingDot (trim (extensionValue ui));
     showNotifications :=
       match popupSettings ui with Some s => showNotifications s | None => true end;
     maxHistoryItems :=
       match popupSettings ui with Some s => maxHistoryItems s | None => 100%Z end |}.

Section Handlers.

Variable browser : Browser.

(** [handleSave()]: [try], [catch] and [finally] written out. *)
Definition handleSave (ui : PopupUI) (w : World) : option (PopupUI * World) :=
  let ui1 := setSaveBtnDisabled true ui in
  let settings := getFormSettings ui1 in
  match saveSettings browser (settingsObject settings) w with
  | Some (Normal _, w') =>
      let ui2 := setPopupSettings (Some settings) ui1 in
      let ui3 := showStatus "Settings saved successfully!" "success" ui2 in
      Some (setSaveBtnDisabled false ui3, w')
  | Some (Throw _, w') =>
      let w'' := setErrorLog ("[AutoPrint Popup] Save error:" :: errorLog w') w' in
      let ui2 := showStatus "Failed to save settings" "error" ui1 in
      Some (setSaveBtnDisabled false ui2, w'')
  | None => None
  end.

(** [handleToggleChange()], run after the user flipped the toggle. *)
Definition handleToggleChange (ui : PopupUI) (w : World) : option (PopupUI * World) :=
  let enabled := enableToggle ui in
  let ui1 := updateStatusIndicator enabled ui in
  let settings := getFormSettings ui1 in
  match saveSettings browser (settingsObject settings) w with
  | Some (Normal _, w') =>
      let ui2 := setPopupSettings (Some settings) ui1 in
      Some (showStatus (if enabled then "AutoPrint enabled" else "AutoPrint disabled")
                       "success" ui2, w')
  | Some (Throw _, w') =>
      let w'' := setErrorLog ("[AutoPrint Popup] Toggle save error:" :: errorLog w') w' in
      let ui2 := setEnableToggle (negb enabled) ui1 in
      let ui3 := updateStatusIndicator (negb enabled) ui2 in
      Some (showStatus "Failed to update" "error" ui3, w'')
  | None => None
  end.

(** [initialize()]: load, show, preview. *)
Definition initialize (ui : PopupUI) (w : World) : option (PopupUI * World) :=
  match loadSettings browser w with
  | Some (Normal s, w') =>
      Some (updatePreview (applySettingsToUI s (setPopupSettings (Some s) ui)), w')
  | Some (Throw _, w') =>
      Some (showStatus "Failed to load settings" "error" ui,
            setErrorLog ("[AutoPrint Popup] Initialization error:" :: errorLog w') w')
  | None => None
  end.

End Handlers.

End Popup.

(** The options form. *)
Module Options.

Definition isDigit (c : ascii) : bool :=
  let n := nat_of_ascii c in (48 <=? n)%nat && (n <=? 57)%nat.

Definition digitValue (c : ascii) : Z := Z.of_nat (nat_of_ascii c - 48).

(** The longest prefix of decimal digits, as a number; [None] when there
    is no digit to start with. *)
Fixpoint parseDigits (acc : Z) (seen : bool) (s : string) : option Z :=
  match s with
  | EmptyString => if seen then Some acc else None
  | String c r =>
      if isDigit c then parseDigits (acc * 10 + digitValue c) true r
      else if seen then Some acc else None
  end.

(** [parseInt(s, 10)]: leading white space skipped, an optional sign, then
    digits; [None] is NaN.  The result is the integer the digits denote,
    which is what [parseInt] returns as long as it is below 2^53; from there
    on [parseInt] returns the nearest double, and the statements about the
    number parsed are made below that bound. *)
Definition parseInt10 (s : string) : option Z :=
  match trimStart s with
  | String c r =>
      if Ascii.eqb c "-"%char then option_map Z.opp (parseDigits 0 false r)
      else if Ascii.eqb c "+"%char then parseDigits 0 false r
      else parseDigits 0 false (String c r)
  | EmptyString => None
  end.

(** [parseInt(value, 10) || 100]: NaN and zero are falsy. *)
Definition maxHistoryOf (value : string) : Z :=
  match parseInt10 value with
  | Some n => if (n =? 0)%Z then 100%Z else n
  | None => 100%Z
  end.

(** [getFormSettings()] of the options page, from the two toggles and the
    three input values. *)
Definition getFormSettings (enableChecked notificationsChecked : bool)
           (prefixInput extensionInput maxHistoryInput : string) : Settings :=
  {| enabled := enableChecked;
     showNotifications := notificationsChecked;
     prefixFilter := trim prefixInput;
     extensionFilter := stripLeadingDot (trim extensionInput);
     maxHistoryItems := maxHistoryOf maxHistoryInput |}.

(** The text of the options page's [updatePreview]. *)
Definition previewText (prefixInput extensionInput : string) : string :=
  let prefix := trim prefixInput in
  let extension := stripLeadingDot (trim extensionInput) in
  if negb (truthy prefix) && negb (truthy extension) then
    "Printing all downloaded files"
  else if truthy prefix && negb (truthy extension) then
    String.concat "" ["Printing files starting with "; quote; prefix; quote]
  else if negb (truthy prefix) && truthy extension then
    String.concat "" ["Printing all ."; extension; " files"]
  else
    String.concat "" ["Printing ."; extension; " files starting with ";
                      quote; prefix; quote].

End Options.

(** A popup that was opened on an enabled extension, the toggle then
    switched off by the user. *)
Definition popupToggledOff : PopupUI :=
  {| enableToggle := false; statusActive := true; statusText := "Active";
     prefixValue := " inv_"; extensionValue := ".PDF";
     filterPreview := ""; saveBtnDisabled := false;
     saveStatusText := ""; saveStatusClass := "save-status"; statusTimers := 0;
     popupSettings := Some (mkSettings true "inv_" "pdf" false 25) |}.

(* ===================================================================== *)
(** ** The PNG icon script: CRC and chunks *)
(* ===================================================================== *)

Module Png.

Local Open Scope Z_scope.

(** JavaScript's conversions of an integral Number to 32 bits. *)
Definition toUint32 (z : Z) : Z := z mod 2 ^ 32.
Definition toInt32 (z : Z) : Z := (z + 2 ^ 31) mod 2 ^ 32 - 2 ^ 31.

(** [a >>> k], [a ^ b] and [a & b]. *)
Definition ushr (a k : Z) : Z := Z.shiftr (toUint32 a) k.
Definition xor (a b : Z) : Z := toInt32 (Z.lxor (toInt32 a) (toInt32 b)).
Definition and (a b : Z) : Z := toInt32 (Z.land (toInt32 a) (toInt32 b)).

(** The inner loop of [makeCRCTable], [k] rounds. *)
Fixpoint tableRounds (k : nat) (c : Z) : Z :=
  match k with
  | O => c
  | S k' =>
      tableRounds k' (if negb (and c 1 =? 0)
                      then xor 3988292384 (ushr c 1)      (* 0xEDB88320 *)
                      else ushr c 1)
  end.

Definition makeCRCTable : list Z :=
  List.map (fun n => tableRounds 8 (Z.of_nat n)) (List.seq 0 256).

(** [table[i]] *)
Definition tableAt (table : list Z) (i : Z) : Z := List.nth (Z.to_nat i) table 0.

Definition crc32 (data : list Z) : Z :=
  let table := makeCRCTable in
  let crc :=
    List.fold_left
      (fun crc byte => xor (ushr crc 8) (tableAt table (and (xor crc byte) 255)))
      data 4294967295 in                                  (* 0xFFFFFFFF *)
  ushr (xor crc 4294967295) 0.

(** [buffer.writeUInt32BE(value, 0)] on a fresh 4-byte buffer: a value out
    of range is a RangeError. *)
Definition writeUInt32BE (value : Z) : Completion (list Z) :=
  if (0 <=? value) && (value <? 2 ^ 32)
  then Normal [value / 2 ^ 24; (value / 2 ^ 16) mod 256;
               (value / 2 ^ 8) mod 256; value mod 256]
  else Throw "RangeError [ERR_OUT_OF_RANGE]".

(** [createChunk(type, data)], [type] given by its bytes. *)
Definition createChunk (type data : list Z) : Completion (list Z) :=
  match writeUInt32BE (Z.of_nat (List.length data)) with
  | Throw e => Throw e
  | Normal length =>
      let crcData := (type ++ data)%list in
      let crc := crc32 crcData in
      match writeUInt32BE crc with
      | Throw e => Throw e
      | Normal crcBuffer => Normal (length ++ type ++ data ++ crcBuffer)%list
      end
  end.

(** The big-endian number four bytes stand for. *)
Definition readUInt32BE (bytes : list Z) : Z :=
  match bytes with
  | [a; b; c; d] => a * 2 ^ 24 + b * 2 ^ 16 + c * 2 ^ 8 + d
  | _ => 0
  end.

Definition isByte (b : Z) : Prop := 0 <= b < 256.

(** The bytes of an ASCII string, as [Buffer.from] gives them. *)
Fixpoint bytesOf (s : string) : list Z :=
  match s with
  | EmptyString => []
  | String c r => Z.of_nat (nat_of_ascii c) :: bytesOf r
  end.

End Png.


(* ===================================================================== *)
(** ** Strings: lower-casing, trimming, splitting *)
(* ===================================================================== *)

Lemma truthy_false_iff (s : string) : truthy s = false <-> s = "".
Proof. destruct s; simpl; split; congruence. Qed.

Lemma truthy_true_iff (s : string) : truthy s = true <-> s <> "".
Proof. destruct s; simpl; split; congruence. Qed.

Lemma lowerChar_idem (c : ascii) : lowerChar (lowerChar c) = lowerChar c.
Proof. destruct c as [[] [] [] [] [] [] [] []]; reflexivity. Qed.

Lemma lowerChar_isSpace (c : ascii) : isSpace (lowerChar c) = isSpace c.
Proof. destruct c as [[] [] [] [] [] [] [] []]; reflexivity. Qed.

Lemma lowerChar_isDot (c : ascii) : isDot (lowerChar c) = isDot c.
Proof. destruct c as [[] [] [] [] [] [] [] []]; reflexivity. Qed.

Lemma isDot_lowerChar_fixed (c : ascii) : isDot c = true -> lowerChar c = c.
Proof.
  destruct c as [[] [] [] [] [] [] [] []]; intros H;
    solve [reflexivity | vm_compute in H; discriminate H].
Qed.

Lemma isDot_eq (c : ascii) : isDot c = true <-> c = "."%char.
Proof. unfold isDot. apply Ascii.eqb_eq. Qed.

Lemma toLowerCase_idem (s : string) : toLowerCase (toLowerCase s) = toLowerCase s.
Proof.
  induction s as [|c r IH]; simpl; [reflexivity|].
  now rewrite lowerChar_idem, IH.
Qed.

Lemma toLowerCase_empty (s : string) : toLowerCase s = "" <-> s = "".
Proof. destruct s; simpl; split; congruence. Qed.

(** Lower-casing and stripping the leading dot commute: the order in which
    the code and the specification do it does not matter. *)
Lemma stripLeadingDot_toLowerCase (s : string) :
  stripLeadingDot (toLowerCase s) = toLowerCase (stripLeadingDot s).
Proof.
  destruct s as [|c r]; simpl; [reflexivity|].
  rewrite lowerChar_isDot. destruct (isDot c); reflexivity.
Qed.

Lemma trimStart_empty (s : string) : trimStart s = "" <-> allSpace s = true.
Proof.
  induction s as [|c r IH]; simpl; [tauto|].
  destruct (isSpace c); simpl; [exact IH|]. split; congruence.
Qed.

Lemma trimEnd_empty (s : string) : trimEnd s = "" <-> allSpace s = true.
Proof.
  induction s as [|c r IH]; simpl; [tauto|].
  destruct (trimEnd r) eqn:E.
  - assert (allSpace r = true) as -> by (apply IH; reflexivity).
    destruct (isSpace c); simpl; split; congruence.
  - destruct (allSpace r).
    + assert (String a s = "") by (apply IH; reflexivity). discriminate.
    + rewrite andb_false_r. split; congruence.
Qed.

Lemma allSpace_trimStart (s : string) : allSpace (trimStart s) = allSpace s.
Proof.
  induction s as [|c r IH]; simpl; [reflexivity|].
  destruct (isSpace c) eqn:E; simpl; [exact IH|]. now rewrite E.
Qed.

Lemma trim_empty (s : string) : trim s = "" <-> allSpace s = true.
Proof. unfold trim. now rewrite trimEnd_empty, allSpace_trimStart. Qed.

Lemma endsNonSpace_not_allSpace (s : string) :
  endsNonSpace s = true -> allSpace s = false.
Proof.
  induction s as [|c r IH]; simpl; [congruence|].
  destruct r as [|c' r'].
  - destruct (isSpace c); simpl; congruence.
  - intros H. rewrite (IH H). apply andb_false_r.
Qed.

Lemma endsNonSpace_trimEnd (s : string) :
  trimEnd s <> "" -> endsNonSpace (trimEnd s) = true.
Proof.
  induction s as [|c r IH]; simpl; [congruence|].
  destruct (trimEnd r) as [|c' r'] eqn:E.
  - destruct (isSpace c) eqn:Ec; [congruence|]. intros _. simpl. now rewrite Ec.
  - intros _. change (endsNonSpace (String c' r') = true). apply IH. congruence.
Qed.

Lemma endsNonSpace_trim (s : string) : trim s <> "" -> endsNonSpace (trim s) = true.
Proof. apply endsNonSpace_trimEnd. Qed.

Lemma endsNonSpace_toLowerCase (s : string) :
  endsNonSpace (toLowerCase s) = endsNonSpace s.
Proof.
  induction s as [|c r IH]; simpl; [reflexivity|].
  destruct r as [|c' r']; simpl in *.
  - now rewrite lowerChar_isSpace.
  - exact IH.
Qed.

Lemma endsNonSpace_stripLeadingDot (s : string) :
  endsNonSpace s = true -> stripLeadingDot s <> "" ->
  endsNonSpace (stripLeadingDot s) = true.
Proof.
  destruct s as [|c r]; simpl; [congruence|].
  destruct (isDot c); [|now simpl].
  destruct r; [congruence|]. now intros H _.
Qed.

Lemma isActive_endsNonSpace (x : string) : endsNonSpace x = true -> isActive x = true.
Proof.
  intros H. unfold isActive.
  assert (allSpace x = false) as Hs by now apply endsNonSpace_not_allSpace.
  destruct x as [|c r]; [discriminate|]. simpl truthy at 1. simpl andb.
  apply truthy_true_iff. intros E. apply trim_empty in E. congruence.
Qed.

Lemma isActive_empty : isActive "" = false.
Proof. reflexivity. Qed.

Lemma split_not_nil (p : ascii -> bool) (s : string) : split p s <> [].
Proof.
  destruct s as [|c r]; simpl; [discriminate|].
  destruct (p c); [discriminate|]. destruct (split p r); discriminate.
Qed.

(** [afterLastDot] is what its name says. *)
Lemma afterLastDot_None (s : string) :
  Spec.afterLastDot s = None <-> Spec.hasDot s = false.
Proof.
  induction s as [|c r IH]; simpl; [tauto|].
  destruct (Spec.afterLastDot r) as [t|].
  - destruct (Spec.hasDot r).
    + rewrite orb_true_r. split; discriminate.
    + assert (Some t = None) by now apply IH. discriminate.
  - assert (Spec.hasDot r = false) as -> by now apply IH.
    rewrite orb_false_r. destruct (isDot c); split; congruence.
Qed.

Lemma afterLastDot_Some (s t : string) :
  Spec.afterLastDot s = Some t ->
  exists pre, s = pre ++ String "."%char t /\ Spec.hasDot t = false.
Proof.
  revert t. induction s as [|c r IH]; simpl; intros t; [discriminate|].
  destruct (Spec.afterLastDot r) as [t'|] eqn:E.
  - intros [= <-]. destruct (IH _ eq_refl) as (pre & -> & Ht).
    exists (String c pre). now split.
  - destruct (isDot c) eqn:Ec; [|discriminate].
    intros [= <-]. apply isDot_eq in Ec as ->.
    exists "". split; [reflexivity|]. now apply afterLastDot_None.
Qed.

(** [filename.split('.')] against the specification's "substring after the
    last dot". *)
Lemma split_isDot_afterLastDot (s : string) :
  match Spec.afterLastDot s with
  | None => split isDot s = [s]
  | Some t => (1 < List.length (split isDot s))%nat /\ lastPart (split isDot s) = t
  end.
Proof.
  unfold lastPart.
  induction s as [|c r IH]; simpl; [reflexivity|].
  destruct (Spec.afterLastDot r) as [t|] eqn:E.
  - destruct IH as [Hlen Hlast].
    destruct (split isDot r) as [|h [|h' tl]] eqn:Es; simpl in Hlen; try lia.
    destruct (isDot c); simpl; (split; [lia | exact Hlast]).
  - rewrite IH. destruct (isDot c); simpl; [split; [lia|reflexivity] | reflexivity].
Qed.

Lemma getFileExtension_spec (filename : string) :
  getFileExtension filename = toLowerCase (Spec.extensionOf filename).
Proof.
  unfold getFileExtension, Spec.extensionOf.
  pose proof (split_isDot_afterLastDot filename) as H.
  destruct (Spec.afterLastDot filename) as [t|].
  - destruct H as [Hlen <-].
    apply Nat.ltb_lt in Hlen. now rewrite Hlen.
  - rewrite H. reflexivity.
Qed.

Lemma getFileExtension_noDot (filename : string) :
  Spec.hasDot filename = false -> getFileExtension filename = "".
Proof.
  intros H. rewrite getFileExtension_spec. unfold Spec.extensionOf.
  apply afterLastDot_None in H. now rewrite H.
Qed.

(* ===================================================================== *)
(** ** The filter engine *)
(* ===================================================================== *)

Lemma checkPrefix_fields (p f : string) (r : FilterResult) :
  let r' := checkPrefix p f r in
  prefixMatch r' = (if isActive p
                    then startsWith (toLowerCase f) (toLowerCase p)
                    else prefixMatch r)
  /\ extensionMatch r' = extensionMatch r
  /\ matches r' = matches r && (if isActive p
                                then startsWith (toLowerCase f) (toLowerCase p)
                                else true).
Proof.
  unfold checkPrefix. fold (isActive p).
  destruct (isActive p); simpl.
  - destruct (startsWith _ _); simpl; repeat split;
      now rewrite ?andb_true_r, ?andb_false_r.
  - repeat split. now rewrite andb_true_r.
Qed.

Lemma checkExtension_fields (e f : string) (r : FilterResult) :
  let r' := checkExtension e f r in
  let em := String.eqb (getFileExtension f) (stripLeadingDot (toLowerCase e)) in
  prefixMatch r' = prefixMatch r
  /\ extensionMatch r' = (if isActive e then em else extensionMatch r)
  /\ matches r' = matches r && (if isActive e then em else true).
Proof.
  unfold checkExtension. fold (isActive e).
  destruct (isActive e); simpl.
  - destruct (String.eqb _ _); simpl; repeat split;
      now rewrite ?andb_true_r, ?andb_false_r.
  - repeat split. now rewrite andb_true_r.
Qed.

(** The three flags of a verdict computed from loaded settings. *)
Lemma checkFilters_loaded (s : Settings) (f : string) :
  let v := checkFilters (Some s) f in
  prefixMatch v = (if isActive (prefixFilter s)
                   then startsWith (toLowerCase f) (toLowerCase (prefixFilter s))
                   else true)
  /\ extensionMatch v = (if isActive (extensionFilter s)
                         then String.eqb (getFileExtension f)
                                (stripLeadingDot (toLowerCase (extensionFilter s)))
                         else true)
  /\ matches v = prefixMatch v && extensionMatch v.
Proof.
  cbv zeta. unfold checkFilters.
  set (r0 := {| matches := true; prefixMatch := true;
                extensionMatch := true; details := [] |}).
  destruct (checkExtension_fields (extensionFilter s) f
              (checkPrefix (prefixFilter s) f r0)) as (Hp & He & Hm).
  destruct (checkPrefix_fields (prefixFilter s) f r0) as (Hp' & He' & Hm').
  cbv zeta in *. rewrite Hp, He, Hm, Hp', He', Hm'. simpl.
  repeat split.
Qed.

(** Filters as [validateSettings] hands them over are either empty or pass
    the guard [x && x.trim()]: for them "non-empty" and "active" coincide. *)
Lemma validated_prefix_active (raw : JSValue) :
  isActive (prefixFilter (validateSettings raw))
  = truthy (prefixFilter (validateSettings raw)).
Proof.
  unfold validateSettings; simpl.
  destruct (optField raw "prefixFilter") as [| | | |x| |]; simpl; try reflexivity.
  destruct (trim x) eqn:E; [reflexivity|].
  rewrite <- E. rewrite isActive_endsNonSpace.
  - rewrite E. reflexivity.
  - apply endsNonSpace_trim. rewrite E. discriminate.
Qed.

Lemma validated_extension_active (raw : JSValue) :
  isActive (extensionFilter (validateSettings raw))
  = truthy (extensionFilter (validateSettings raw)).
Proof.
  unfold validateSettings; simpl.
  destruct (optField raw "extensionFilter") as [| | | |x| |]; simpl; try reflexivity.
  destruct (stripLeadingDot (toLowerCase (trim x))) eqn:E; [reflexivity|].
  rewrite <- E. rewrite isActive_endsNonSpace.
  - rewrite E. reflexivity.
  - apply endsNonSpace_stripLeadingDot; [|rewrite E; discriminate].
    rewrite endsNonSpace_toLowerCase. apply endsNonSpace_trim.
    intros Ht. rewrite Ht in E. discriminate.
Qed.

(** The specification's scenarios A, B and C. *)
Example scenarioA :
  matches (checkFilters (Some (mkSettings true "invoice_" "" true 100))
                        "invoice_2024.pdf") = true.
Proof. reflexivity. Qed.

Example scenarioB :
  matches (checkFilters (Some (mkSettings true "" "pdf" true 100)) "REPORT.PDF") = true.
Proof. reflexivity. Qed.

Example scenarioC :
  checkFilters (Some (mkSettings true "inv_" "pdf" true 100)) "inv_2024.docx"
  = {| matches := false; prefixMatch := true; extensionMatch := false;
       details := ["Extension " ++ quote ++ ".pdf" ++ quote
                   ++ " not matched (file has " ++ quote ++ ".docx" ++ quote ++ ")"] |}.
Proof. reflexivity. Qed.

Lemma eqb_empty_l (x : string) : String.eqb "" x = false <-> x <> "".
Proof. destruct x; simpl; split; congruence. Qed.

Lemma stripLeadingDot_empty (x : string) :
  stripLeadingDot x = "" <-> x = "" \/ x = ".".
Proof.
  destruct x as [|c r]; simpl; [tauto|].
  destruct (isDot c) eqn:E.
  - apply isDot_eq in E as ->. split; [intros ->; now right|].
    intros [H|H]; congruence.
  - split; [discriminate|]. intros [H|H]; [discriminate|].
    injection H as -> _. discriminate.
Qed.

(** The code's extension comparison is the specification's. *)
Lemma extension_comparison_spec (e f : string) :
  String.eqb (getFileExtension f) (stripLeadingDot (toLowerCase e)) = true
  <-> toLowerCase (Spec.extensionOf f) = toLowerCase (stripLeadingDot e).
Proof.
  rewrite getFileExtension_spec, stripLeadingDot_toLowerCase.
  apply String.eqb_eq.
Qed.

(** A rule with an active prefix filter and no active extension filter. *)
Lemma checkFilters_prefix_only (s : Settings) (f : string) :
  isActive (prefixFilter s) = true -> isActive (extensionFilter s) = false ->
  matches (checkFilters (Some s) f)
  = startsWith (toLowerCase f) (toLowerCase (prefixFilter s)).
Proof.
  intros Hp He. destruct (checkFilters_loaded s f) as (H1 & H2 & H3).
  cbv zeta in *. rewrite H3, H1, H2, Hp, He. apply andb_true_r.
Qed.

(** A rule with an active extension filter and no active prefix filter. *)
Lemma checkFilters_extension_only (s : Settings) (f : string) :
  isActive (extensionFilter s) = true -> isActive (prefixFilter s) = false ->
  matches (checkFilters (Some s) f)
  = String.eqb (getFileExtension f) (stripLeadingDot (toLowerCase (extensionFilter s)))
  /\ extensionMatch (checkFilters (Some s) f) = matches (checkFilters (Some s) f).
Proof.
  intros He Hp. destruct (checkFilters_loaded s f) as (H1 & H2 & H3).
  cbv zeta in *. rewrite H3, H1, H2, Hp, He. now split.
Qed.

(** A blank filter (white space only) does not pass the guard
    [x && x.trim()]; it constrains nothing.  [validateSettings] never
    produces one. *)
Lemma blank_filters_are_inactive (p e f : string) (en sn : bool) (mx : Z) :
  allSpace p = true -> allSpace e = true ->
  matches (checkFilters (Some (mkSettings en p e sn mx)) f) = true.
Proof.
  intros Hp He. destruct (checkFilters_loaded (mkSettings en p e sn mx) f)
    as (H1 & H2 & H3).
  cbv zeta in *. rewrite H3, H1, H2. simpl.
  assert (forall x, allSpace x = true -> isActive x = false) as Hb.
  { intros x Hx. unfold isActive. apply trim_empty in Hx. rewrite Hx.
    apply andb_false_r. }
  now rewrite (Hb p Hp), (Hb e He).
Qed.

Lemma isActive_true_iff (x : string) : isActive x = true <-> trim x <> "".
Proof.
  unfold isActive. destruct x as [|c r].
  - simpl. split; [discriminate | intros H; now contradiction H].
  - cbn [truthy andb]. apply truthy_true_iff.
Qed.

(** For the rules the settings cache holds, "non-empty" is enough: the
    statements of the specification hold of them word for word. *)
Lemma validated_prefix_filter (raw : JSValue) (f : string) :
  let s := validateSettings raw in
  prefixFilter s <> "" -> extensionFilter s = "" ->
  matches (checkFilters (Some s) f)
  = startsWith (toLowerCase f) (toLowerCase (prefixFilter s)).
Proof.
  intros s Hp He. apply checkFilters_prefix_only.
  - unfold s. rewrite validated_prefix_active. now apply truthy_true_iff.
  - rewrite He. reflexivity.
Qed.

Lemma validated_extension_filter (raw : JSValue) (f : string) :
  let s := validateSettings raw in
  extensionFilter s <> "" -> prefixFilter s = "" ->
  (matches (checkFilters (Some s) f) = true
   <-> toLowerCase (Spec.extensionOf f)
       = toLowerCase (stripLeadingDot (extensionFilter s))).
Proof.
  intros s He Hp.
  assert (isActive (extensionFilter s) = true) as Ha.
  { unfold s. rewrite validated_extension_active. now apply truthy_true_iff. }
  assert (isActive (prefixFilter s) = false) as Hi by now rewrite Hp.
  destruct (checkFilters_extension_only s f Ha Hi) as [Hm _].
  rewrite Hm. apply extension_comparison_spec.
Qed.

(** C3, as written, fails twice.  With the extension filter ".", which
    [validateSettings] returns for the stored text "..", the filter is
    active and the dot-less filename README has [extensionMatch = true].
    And a filter made of white space is not empty, yet it does not pass the
    guard [extensionFilter && extensionFilter.trim()]: report.pdf matches
    although its extension differs from the filter. *)
Lemma extension_filter_counterexample :
  (let s := validateSettings (JObject [("extensionFilter", JString "..")]) in
   extensionFilter s = "."
   /\ prefixFilter s = ""
   /\ isActive (extensionFilter s) = true
   /\ Spec.hasDot "README" = false
   /\ extensionMatch (checkFilters (Some s) "README") = true)
  /\ (let s := mkSettings true "" " " true 100 in
      extensionFilter s <> ""
      /\ prefixFilter s = ""
      /\ matches (checkFilters (Some s) "report.pdf") = true
      /\ toLowerCase (Spec.extensionOf "report.pdf")
         <> toLowerCase (stripLeadingDot (extensionFilter s))).
Proof. repeat split; discriminate. Qed.

(** C3, amended.  For every filename and every rule whose extension filter
    is not blank (not empty once trimmed) and whose prefix filter is empty,
    [checkFilters] yields [matches = true] iff the substring of the filename
    after its last dot (empty without a dot), lower-cased, equals the
    extension filter stripped of one leading dot and lower-cased; a filename
    without a dot yields [extensionMatch = false] exactly when that filter is
    not the single dot. *)
Theorem extension_filter_matches_iff (s : Settings) (f : string) :
  trim (extensionFilter s) <> "" -> prefixFilter s = "" ->
  (matches (checkFilters (Some s) f) = true
   <-> toLowerCase (Spec.extensionOf f)
       = toLowerCase (stripLeadingDot (extensionFilter s)))
  /\ (Spec.hasDot f = false ->
      (extensionMatch (checkFilters (Some s) f) = false
       <-> extensionFilter s <> ".")).
Proof.
  intros He Hp.
  assert (isActive (extensionFilter s) = true) as Ha by now apply isActive_true_iff.
  assert (isActive (prefixFilter s) = false) as Hi by now rewrite Hp.
  destruct (checkFilters_extension_only s f Ha Hi) as [Hm Hx].
  split.
  - rewrite Hm. apply extension_comparison_spec.
  - intros Hd. rewrite Hx, Hm, (getFileExtension_noDot f Hd).
    rewrite eqb_empty_l, stripLeadingDot_toLowerCase.
    rewrite toLowerCase_empty, stripLeadingDot_empty.
    assert (extensionFilter s <> "") by (intros E; rewrite E in He; now apply He).
    tauto.
Qed.

Lemma extension_filter_matches_iff_witness :
  let s := mkSettings true "" ".PDF" true 100 in
  ((matches (checkFilters (Some s) "REPORT.final.PDF") = true
    <-> toLowerCase (Spec.extensionOf "REPORT.final.PDF")
        = toLowerCase (stripLeadingDot (extensionFilter s)))
   /\ (Spec.hasDot "REPORT.final.PDF" = false ->
       (extensionMatch (checkFilters (Some s) "REPORT.final.PDF") = false
        <-> extensionFilter s <> ".")))
  /\ matches (checkFilters (Some s) "REPORT.final.PDF") = true
  /\ extensionMatch (checkFilters (Some s) "README") = false.
Proof.
  split.
  - apply (extension_filter_matches_iff
             (mkSettings true "" ".PDF" true 100) "REPORT.final.PDF").
    + vm_compute. discriminate.
    + reflexivity.
  - split; reflexivity.
Defined.

(** C5.  With both filters empty the verdict has [matches = true]; in
    general [matches] is the conjunction of the results [prefixMatch] and
    [extensionMatch] of the non-empty sub-filters.  A sub-filter that is not
    active (empty, or blank) has the result [true], so [matches] is also
    [prefixMatch && extensionMatch]; and for every rule as the settings cache
    holds it, the three flags are the specification's [evaluate]. *)
Theorem verdict_is_conjunction_of_active_filters :
  (forall (en sn : bool) (mx : Z) (f : string),
      matches (checkFilters (Some (mkSettings en "" "" sn mx)) f) = true)
  /\ (forall (s : Settings) (f : string),
        let v := checkFilters (Some s) f in
        matches v
        = (if truthy (prefixFilter s) then prefixMatch v else true)
          && (if truthy (extensionFilter s) then extensionMatch v else true))
  /\ (forall (s : Settings) (f : string),
        let v := checkFilters (Some s) f in
        matches v = prefixMatch v && extensionMatch v
        /\ prefixMatch v
           = (if isActive (prefixFilter s)
              then startsWith (toLowerCase f) (toLowerCase (prefixFilter s))
              else true)
        /\ extensionMatch v
           = (if isActive (extensionFilter s)
              then String.eqb (getFileExtension f)
                     (stripLeadingDot (toLowerCase (extensionFilter s)))
              else true))
  /\ (forall (raw : JSValue) (f : string),
        let s := validateSettings raw in
        let v := checkFilters (Some s) f in
        prefixMatch v = Spec.prefixVerdict (prefixFilter s) f
        /\ extensionMatch v = Spec.extensionVerdict (extensionFilter s) f
        /\ matches v = Spec.evaluate (prefixFilter s) (extensionFilter s) f).
Proof.
  split; [reflexivity|]. split; [|split].
  - intros s f v.
    destruct (checkFilters_loaded s f) as (H1 & H2 & H3). fold v in H1, H2, H3.
    rewrite H3. f_equal.
    + destruct (prefixFilter s); [|reflexivity]. now rewrite H1.
    + destruct (extensionFilter s); [|reflexivity]. now rewrite H2.
  - intros s f v.
    destruct (checkFilters_loaded s f) as (H1 & H2 & H3). fold v in H1, H2, H3.
    now repeat split.
  - intros raw f s v.
    destruct (checkFilters_loaded s f) as (H1 & H2 & H3). fold v in H1, H2, H3.
    assert (prefixMatch v = Spec.prefixVerdict (prefixFilter s) f) as Hp.
    { rewrite H1. unfold s. rewrite validated_prefix_active. reflexivity. }
    assert (extensionMatch v = Spec.extensionVerdict (extensionFilter s) f) as He.
    { rewrite H2. unfold s. rewrite validated_extension_active.
      unfold Spec.extensionVerdict.
      destruct (truthy (extensionFilter (validateSettings raw))); [|reflexivity].
      now rewrite getFileExtension_spec, stripLeadingDot_toLowerCase. }
    repeat split; try assumption.
    unfold Spec.evaluate. now rewrite H3, Hp, He.
Qed.

(** C9.  While the cached settings are [null], [checkFilters] answers
    [matches = false] with the one reason 'Settings not loaded' for every
    filename, whereas loaded settings with no filter match everything. *)
Theorem settings_not_loaded_fails_closed (f : string) :
  checkFilters None f
  = {| matches := false; prefixMatch := true; extensionMatch := true;
       details := ["Settings not loaded"] |}
  /\ matches (checkFilters (Some getDefaultSettings) f) = true.
Proof. split; reflexivity. Qed.

(* ===================================================================== *)
(** ** Settings validation and the storage manager's reads *)
(* ===================================================================== *)

Lemma validateSettings_of_nothing :
  validateSettings JUndefined = getDefaultSettings
  /\ validateSettings JNull = getDefaultSettings
  /\ validateSettings (JObject []) = getDefaultSettings.
Proof. repeat split. Qed.

Lemma validated_extension_lowercase (raw : JSValue) :
  toLowerCase (extensionFilter (validateSettings raw))
  = extensionFilter (validateSettings raw).
Proof.
  unfold validateSettings; simpl.
  destruct (optField raw "extensionFilter") as [| | | |x| |]; simpl; try reflexivity.
  now rewrite <- stripLeadingDot_toLowerCase, toLowerCase_idem.
Qed.

Lemma startsWith_cons (c a : ascii) (r p : string) :
  startsWith (String c r) (String a p) = Ascii.eqb c a && startsWith r p.
Proof. reflexivity. Qed.

Lemma stripLeadingDot_leading_dot (y : string) :
  startsWith (stripLeadingDot y) "." = true <-> startsWith y ".." = true.
Proof.
  destruct y as [|c r]; [simpl; tauto|].
  cbn [stripLeadingDot]. rewrite !startsWith_cons. fold (isDot c).
  destruct (isDot c) eqn:E; [tauto|].
  rewrite startsWith_cons. fold (isDot c). rewrite E. tauto.
Qed.

Lemma validated_extensionFilter_eq (v : JSValue) :
  extensionFilter (validateSettings v)
  = match optField v "extensionFilter" with
    | JString x => stripLeadingDot (toLowerCase (trim x))
    | _ => ""
    end.
Proof. unfold validateSettings; simpl. now destruct (optField v "extensionFilter"). Qed.

Lemma validated_extension_leading_dot (v : JSValue) :
  startsWith (extensionFilter (validateSettings v)) "." = true
  <-> exists x, optField v "extensionFilter" = JString x
                /\ startsWith (toLowerCase (trim x)) ".." = true.
Proof.
  rewrite validated_extensionFilter_eq.
  destruct (optField v "extensionFilter") as [| | | |x| |];
    try (split; [discriminate | intros (x & Hx & _); discriminate]).
  rewrite stripLeadingDot_leading_dot. split.
  - intros H. now exists x.
  - intros (x' & [= <-] & H). exact H.
Qed.

(** What [loadSettings] does, in closed form. *)
Lemma loadSettings_run (browser : Browser) (w : World) :
  loadSettings browser w
  = if readSucceeds browser SETTINGS
    then Some (Normal (validateSettings (orEmptyObject (autoprint_settings (storage w)))), w)
    else Some (Normal getDefaultSettings,
               setErrorLog ("[AutoPrint] Error loading settings:" :: errorLog w) w).
Proof.
  unfold loadSettings, readSucceeds, tryCatch, bind, getStorageAPI, storageGetSettings.
  destruct (storageAPI browser); simpl; [|reflexivity].
  destruct (storageGet browser SETTINGS); reflexivity.
Qed.

(** What [loadPrintHistory] does, in closed form. *)
Lemma loadPrintHistory_run (browser : Browser) (w : World) :
  loadPrintHistory browser w
  = if readSucceeds browser PRINT_HISTORY
    then Some (Normal (orEmptyArray (autoprint_history (storage w))), w)
    else Some (Normal [],
               setErrorLog ("[AutoPrint] Error loading print history:" :: errorLog w) w).
Proof.
  unfold loadPrintHistory, readSucceeds, tryCatch, bind, getStorageAPI, storageGetHistory.
  destruct (storageAPI browser); simpl; [|reflexivity].
  destruct (storageGet browser PRINT_HISTORY); reflexivity.
Qed.

(** C8, as written, fails: only one leading dot is removed, so the stored
    text "..pdf" comes back as ".pdf". *)
Lemma validateSettings_keeps_second_dot_counterexample :
  extensionFilter (validateSettings (JObject [("extensionFilter", JString "..pdf")]))
  = ".pdf"
  /\ startsWith
       (extensionFilter (validateSettings (JObject [("extensionFilter", JString "..pdf")])))
       "." = true.
Proof. split; reflexivity. Qed.

(** C8, amended.  For every input value, [validateSettings] returns a record
    in which each field is taken from the input's field of that name when it
    has the right type and is the default otherwise ([null], [undefined] and
    the empty object give the defaults); the returned [extensionFilter] is the
    trimmed text lower-cased with one leading dot removed, so it is always
    lower-case and it starts with a dot exactly when the trimmed text starts
    with two; [loadSettings] returns the validation of what it read, and the
    defaults, themselves a validated record, when the read throws. *)
Theorem validateSettings_fieldwise_defaults (v : JSValue) :
  let s := validateSettings v in
  enabled s = match optField v "enabled" with JBool b => b | _ => false end
  /\ prefixFilter s
     = match optField v "prefixFilter" with JString x => trim x | _ => "" end
  /\ extensionFilter s
     = match optField v "extensionFilter" with
       | JString x => stripLeadingDot (toLowerCase (trim x))
       | _ => ""
       end
  /\ showNotifications s
     = match optField v "showNotifications" with JBool b => b | _ => true end
  /\ maxHistoryItems s
     = match optField v "maxHistoryItems" with JNumber n => n | _ => 100%Z end
  /\ validateSettings JNull = getDefaultSettings
  /\ validateSettings JUndefined = getDefaultSettings
  /\ validateSettings (JObject []) = getDefaultSettings
  /\ toLowerCase (extensionFilter s) = extensionFilter s
  /\ (startsWith (extensionFilter s) "." = true
      <-> exists x, optField v "extensionFilter" = JString x
                    /\ startsWith (toLowerCase (trim x)) ".." = true)
  /\ forall (browser : Browser) (w : World),
       exists raw w',
         loadSettings browser w = Some (Normal (validateSettings raw), w')
         /\ raw = if readSucceeds browser SETTINGS
                  then orEmptyObject (autoprint_settings (storage w))
                  else JObject [].
Proof.
  intros s. unfold s.
  repeat match goal with |- _ /\ _ => split end; try reflexivity.
  - unfold validateSettings; simpl. now destruct (optField v "enabled").
  - unfold validateSettings; simpl. now destruct (optField v "prefixFilter").
  - unfold validateSettings; simpl. now destruct (optField v "extensionFilter").
  - unfold validateSettings; simpl. now destruct (optField v "showNotifications").
  - unfold validateSettings; simpl. now destruct (optField v "maxHistoryItems").
  - apply validated_extension_lowercase.
  - apply validated_extension_leading_dot.
  - intros browser w. rewrite loadSettings_run.
    destruct (readSucceeds browser SETTINGS).
    + exists (orEmptyObject (autoprint_settings (storage w))), w. now split.
    + exists (JObject []),
        (setErrorLog ("[AutoPrint] Error loading settings:" :: errorLog w) w).
      now split.
Qed.

Lemma readSettings_throws (browser : Browser) (w : World) :
  throws (readSettings browser) w <-> readSucceeds browser SETTINGS = false.
Proof.
  unfold throws, readSettings, readSucceeds, bind, getStorageAPI, storageGetSettings.
  destruct (storageAPI browser); simpl.
  - destruct (storageGet browser SETTINGS) as [e|]; simpl.
    + split; [reflexivity|]. intros _. now exists e, w.
    + split; [|discriminate]. intros (e & w' & H). discriminate.
  - split; [reflexivity|]. intros _. now eexists; eexists.
Qed.

Lemma readHistory_throws (browser : Browser) (w : World) :
  throws (readHistory browser) w <-> readSucceeds browser PRINT_HISTORY = false.
Proof.
  unfold throws, readHistory, readSucceeds, bind, getStorageAPI, storageGetHistory.
  destruct (storageAPI browser); simpl.
  - destruct (storageGet browser PRINT_HISTORY) as [e|]; simpl.
    + split; [reflexivity|]. intros _. now exists e, w.
    + split; [|discriminate]. intros (e & w' & H). discriminate.
  - split; [reflexivity|]. intros _. now eexists; eexists.
Qed.

(** C10.  If the storage read throws, [loadSettings] returns the complete
    default settings and [loadPrintHistory] returns the empty list, each
    leaving one line on the error console and nothing else; and in every
    case both return normally: neither throws and neither fails to return. *)
Theorem loads_never_throw (browser : Browser) (w : World) :
  (throws (readSettings browser) w ->
   loadSettings browser w
   = Some (Normal getDefaultSettings,
           setErrorLog ("[AutoPrint] Error loading settings:" :: errorLog w) w))
  /\ (throws (readHistory browser) w ->
      loadPrintHistory browser w
      = Some (Normal [],
              setErrorLog ("[AutoPrint] Error loading print history:" :: errorLog w) w))
  /\ (exists s w', loadSettings browser w = Some (Normal s, w'))
  /\ (exists h w', loadPrintHistory browser w = Some (Normal h, w')).
Proof.
  rewrite loadSettings_run, loadPrintHistory_run.
  repeat split.
  - intros H. apply readSettings_throws in H. now rewrite H.
  - intros H. apply readHistory_throws in H. now rewrite H.
  - destruct (readSucceeds browser SETTINGS); eexists; eexists; reflexivity.
  - destruct (readSucceeds browser PRINT_HISTORY); eexists; eexists; reflexivity.
Qed.

Lemma loads_never_throw_witness :
  let w := Scenario.fresh (Some Scenario.enabledSettings) in
  throws (readSettings Scenario.noStorage) w
  /\ throws (readHistory Scenario.noStorage) w
  /\ loadSettings Scenario.noStorage w
     = Some (Normal getDefaultSettings,
             setErrorLog ["[AutoPrint] Error loading settings:"] w)
  /\ loadPrintHistory Scenario.noStorage w
     = Some (Normal [],
             setErrorLog ["[AutoPrint] Error loading print history:"] w).
Proof.
  intros w.
  assert (throws (readSettings Scenario.noStorage) w) as Hs
    by (exists "No compatible storage API found", w; reflexivity).
  assert (throws (readHistory Scenario.noStorage) w) as Hh
    by (exists "No compatible storage API found", w; reflexivity).
  destruct (loads_never_throw Scenario.noStorage w) as (H1 & H2 & _ & _).
  split; [exact Hs | split; [exact Hh | split; [exact (H1 Hs) | exact (H2 Hh)]]].
Defined.

(* ===================================================================== *)
(** ** The history log *)
(* ===================================================================== *)

Lemma trimLoop_firstn (fuel : nat) (max : Z) (h : list HistoryItem) :
  (0 <= max)%Z ->
  (List.length h - Z.to_nat max < fuel)%nat ->
  trimLoop fuel max h = Some (firstn (Z.to_nat max) h).
Proof.
  intros Hmax. revert h.
  induction fuel as [|fuel IH]; intros h Hf; [lia|].
  simpl. destruct (max <? Z.of_nat (List.length h))%Z eqn:E.
  - apply Z.ltb_lt in E.
    assert (List.length (removelast h) = pred (List.length h)) as Hl.
    { rewrite removelast_firstn_len, length_firstn. lia. }
    rewrite IH by lia.
    rewrite removelast_firstn_len, firstn_firstn.
    f_equal. f_equal. lia.
  - apply Z.ltb_ge in E. rewrite firstn_all2 by lia. reflexivity.
Qed.

(** With a negative cap the loop never exits: [pop] on the empty array
    changes nothing and [0 > max] stays true. *)
Lemma trimLoop_negative_cap (fuel : nat) (max : Z) (h : list HistoryItem) :
  (max < 0)%Z -> trimLoop fuel max h = None.
Proof.
  intros Hmax. revert h. induction fuel as [|fuel IH]; intros h; [reflexivity|].
  simpl. assert ((max <? Z.of_nat (List.length h))%Z = true) as ->
    by (apply Z.ltb_lt; lia).
  apply IH.
Qed.

Lemma firstn_cons_firstn {A} (n : nat) (x : A) (l : list A) :
  firstn n (x :: firstn n l) = firstn n (x :: l).
Proof.
  destruct n as [|k]; [reflexivity|].
  rewrite !firstn_cons, firstn_firstn. f_equal. f_equal. lia.
Qed.

Lemma storedCap_setNow (t : Z) (w : World) : storedCap (setNow t w) = storedCap w.
Proof. reflexivity. Qed.

Lemma storedCap_setHistory (w : World) (h : option (list HistoryItem)) :
  storedCap (setStorage {| autoprint_settings := autoprint_settings (storage w);
                           autoprint_history := h |} w)
  = storedCap w.
Proof. reflexivity. Qed.

(** [clearPrintHistory] empties the listing. *)
Lemma clearPrintHistory_run (browser : Browser) (w : World) :
  storageWorks browser = true ->
  exists w',
    clearPrintHistory browser w = Some (Normal tt, w')
    /\ loadPrintHistory browser w' = Some (Normal [], w').
Proof.
  intros Hw. unfold storageWorks in Hw.
  apply andb_prop in Hw as [Hw Hset]. apply andb_prop in Hw as [Hrs Hrh].
  unfold clearPrintHistory, tryCatch, bind, getStorageAPI, storageSetHistory.
  pose proof Hrs as Hapi. unfold readSucceeds in Hapi.
  apply andb_prop in Hapi as [Hapi _]. rewrite Hapi.
  destruct (storageSet browser PRINT_HISTORY); [discriminate|].
  eexists. split; [reflexivity|].
  rewrite loadPrintHistory_run, Hrh. reflexivity.
Qed.

Section HistoryLog.

Variable browser : Browser.
Variable fuel : nat.
Variable C : Z.

Hypothesis storage_works : storageWorks browser = true.
Hypothesis enough_fuel : (2 <= fuel)%nat.
Hypothesis cap_not_negative : (0 <= C)%Z.

(** One append to a stored history that is within the cap. *)
Lemma addToPrintHistory_run (item : PrintAttempt) (w : World) (L : list HistoryItem) :
  storedCap w = C ->
  orEmptyArray (autoprint_history (storage w)) = firstn (Z.to_nat C) L ->
  addToPrintHistory browser fuel item w
  = Some (Normal (stamp (now w) item),
          setStorage
            {| autoprint_settings := autoprint_settings (storage w);
               autoprint_history :=
                 Some (firstn (Z.to_nat C) (stamp (now w) item :: L)) |} w).
Proof.
  intros Hcap Hh.
  pose proof storage_works as Hw. unfold storageWorks in Hw.
  apply andb_prop in Hw as [Hw Hset]. apply andb_prop in Hw as [Hrs Hrh].
  unfold addToPrintHistory, tryCatch, bind at 1.
  rewrite loadSettings_run, Hrs.
  unfold bind at 1. rewrite loadPrintHistory_run, Hrh.
  unfold bind at 1, gets. unfold bind at 1, trimHistory.
  fold (storedCap w). rewrite Hh, Hcap.
  rewrite trimLoop_firstn; [ | exact cap_not_negative | ].
  - rewrite firstn_cons_firstn.
    unfold bind, getStorageAPI, storageSetHistory.
    unfold readSucceeds in Hrs. apply andb_prop in Hrs as [Hapi _]. rewrite Hapi.
    destruct (storageSet browser PRINT_HISTORY); [discriminate|]. reflexivity.
  - simpl List.length. pose proof (firstn_le_length (Z.to_nat C) L). lia.
Qed.

(** The invariant of a run of appends: the stored history is the first [C]
    elements of everything appended so far, newest first. *)
Lemma appendAll_run (calls : list (Z * PrintAttempt)) :
  forall (w : World) (L : list HistoryItem),
    storedCap w = C ->
    orEmptyArray (autoprint_history (storage w)) = firstn (Z.to_nat C) L ->
    exists w',
      appendAll browser fuel calls w = Some w'
      /\ storedCap w' = C
      /\ orEmptyArray (autoprint_history (storage w'))
         = firstn (Z.to_nat C) (rev (stamped calls) ++ L).
Proof.
  induction calls as [|[t item] rest IH]; intros w L Hcap Hh.
  - exists w. simpl. auto.
  - simpl appendAll.
    rewrite (addToPrintHistory_run item (setNow t w) L);
      [ | rewrite storedCap_setNow; exact Hcap | exact Hh ].
    match goal with
    | |- context [appendAll _ _ rest ?w1] =>
        destruct (IH w1 (stamp t item :: L)) as (w' & Hrun & Hcap' & Hh')
    end.
    + rewrite storedCap_setHistory, storedCap_setNow. exact Hcap.
    + reflexivity.
    + exists w'. split; [exact Hrun|]. split; [exact Hcap'|].
      rewrite Hh'. unfold stamped. simpl. now rewrite <- app_assoc.
Qed.

(** C6.  With working storage and a cap [C >= 0] stored in the settings,
    any run of N appends to an empty history returns normally, and listing
    the history afterwards returns the [C] most recently appended records,
    newest first: exactly [min N C] of them. *)
Theorem history_keeps_most_recent (calls : list (Z * PrintAttempt)) (w : World) :
  storedCap w = C ->
  orEmptyArray (autoprint_history (storage w)) = [] ->
  exists w',
    appendAll browser fuel calls w = Some w'
    /\ loadPrintHistory browser w'
       = Some (Normal (firstn (Z.to_nat C) (rev (stamped calls))), w')
    /\ List.length (firstn (Z.to_nat C) (rev (stamped calls)))
       = Nat.min (List.length calls) (Z.to_nat C).
Proof.
  intros Hcap Hh.
  destruct (appendAll_run calls w [] Hcap) as (w' & Hrun & _ & Hh').
  { rewrite Hh. now rewrite firstn_nil. }
  exists w'. split; [exact Hrun|]. split.
  - rewrite loadPrintHistory_run.
    pose proof storage_works as Hw.
    unfold storageWorks in Hw. apply andb_prop in Hw as [Hw _].
    apply andb_prop in Hw as [_ ->].
    rewrite Hh', app_nil_r. reflexivity.
  - rewrite length_firstn, length_rev. unfold stamped. rewrite length_map. lia.
Qed.

End HistoryLog.

Lemma history_keeps_most_recent_witness :
  let calls := [(10%Z, Scenario.attempt "a.pdf"); (20%Z, Scenario.attempt "b.pdf");
                (30%Z, Scenario.attempt "c.pdf")] in
  exists w',
    appendAll Scenario.healthy 2 calls (Scenario.fresh (Some Scenario.enabledSettings))
    = Some w'
    /\ loadPrintHistory Scenario.healthy w'
       = Some (Normal [stamp 30 (Scenario.attempt "c.pdf");
                       stamp 20 (Scenario.attempt "b.pdf")], w')
    /\ List.length [stamp 30 (Scenario.attempt "c.pdf");
                    stamp 20 (Scenario.attempt "b.pdf")] = Nat.min 3 2.
Proof.
  intros calls.
  apply (history_keeps_most_recent Scenario.healthy 2 2);
    [reflexivity | lia | lia | reflexivity | reflexivity].
Defined.

(* ===================================================================== *)
(** ** The orchestrator *)
(* ===================================================================== *)

(** [updateBadge] always returns: what a [chrome.action] call throws is
    caught and logged. *)
Lemma updateBadge_run (browser : Browser) (w : World) :
  updateBadge browser w = Some (Normal tt, afterBadge browser w).
Proof.
  unfold updateBadge, afterBadge, badgeCallThrows, setBadge, setBadgeColor,
    tryCatch, bind, gets, modify, consoleError, throw, ret.
  destruct (actionSetBadgeText browser (if cachedEnabled w then "ON" else ""));
    [reflexivity|].
  destruct (actionSetBadgeBackgroundColor browser
              (if cachedEnabled w then "#22c55e" else "#6b7280")); reflexivity.
Qed.

(** [showNotification] always returns: what [chrome.notifications.create]
    throws is caught and logged. *)
Lemma showNotification_run (browser : Browser) (title message type : string)
      (w : World) :
  showNotification browser title message type w
  = Some (Normal tt,
          afterNotification browser
            (mkNotification (if String.eqb type "success"
                             then PRINT_SUCCESS else PRINT_ERROR) title message) w).
Proof.
  unfold showNotification, afterNotification, created, createNotification,
    tryCatch, bind, gets, modify, consoleError, throw, ret.
  destruct (cachedShowNotifications w); [|reflexivity]. cbn [negb].
  destruct (notificationsCreate browser _); reflexivity.
Qed.

Lemma afterNotification_fields (browser : Browser) (n : Notification) (w : World) :
  notifications (afterNotification browser n w) = notifiedBy browser n w
  /\ errorLog (afterNotification browser n w)
     = consoleAfterNotification browser n w (errorLog w)
  /\ storage (afterNotification browser n w) = storage w
  /\ currentSettings (afterNotification browser n w) = currentSettings w
  /\ isInitialized (afterNotification browser n w) = isInitialized w
  /\ badgeText (afterNotification browser n w) = badgeText w
  /\ now (afterNotification browser n w) = now w
  /\ openedTabs (afterNotification browser n w) = openedTabs w
  /\ printCommands (afterNotification browser n w) = printCommands w
  /\ tabRemovals (afterNotification browser n w) = tabRemovals w.
Proof.
  unfold afterNotification, notifiedBy, consoleAfterNotification.
  destruct (cachedShowNotifications w), (created browser n); repeat split.
Qed.

Lemma afterBadge_fields (browser : Browser) (w : World) :
  badgeText (afterBadge browser w) = (if cachedEnabled w then "ON" else "")
  /\ currentSettings (afterBadge browser w) = currentSettings w
  /\ isInitialized (afterBadge browser w) = isInitialized w
  /\ storage (afterBadge browser w) = storage w
  /\ notifications (afterBadge browser w) = notifications w
  /\ openedTabs (afterBadge browser w) = openedTabs w
  /\ printCommands (afterBadge browser w) = printCommands w
  /\ tabRemovals (afterBadge browser w) = tabRemovals w.
Proof.
  unfold afterBadge.
  destruct (badgeCallThrows browser (cachedEnabled w)); repeat split.
Qed.

Lemma initialize_run (browser : Browser) (w : World) :
  initialize browser w = Some (Normal tt, afterInit browser w).
Proof.
  unfold initialize, afterInit, storedSettings.
  destruct (isInitialized w); [reflexivity|].
  unfold tryCatch, bind at 1. rewrite loadSettings_run.
  destruct (readSucceeds browser SETTINGS);
    (unfold bind at 1, modify; unfold bind at 1; rewrite updateBadge_run;
     reflexivity).
Qed.

Lemma afterInit_frame (browser : Browser) (w : World) :
  storage (afterInit browser w) = storage w
  /\ notifications (afterInit browser w) = notifications w
  /\ openedTabs (afterInit browser w) = openedTabs w
  /\ printCommands (afterInit browser w) = printCommands w
  /\ tabRemovals (afterInit browser w) = tabRemovals w.
Proof.
  unfold afterInit.
  destruct (isInitialized w); [repeat split|].
  cbn [storage notifications openedTabs printCommands tabRemovals setIsInitialized].
  destruct (afterBadge_fields browser
              (setCurrentSettings (Some (storedSettings browser w))
                 (if readSucceeds browser SETTINGS then w
                  else setErrorLog ("[AutoPrint] Error loading settings:"
                                    :: errorLog w) w)))
    as (_ & _ & _ & -> & -> & -> & -> & ->).
  destruct (readSucceeds browser SETTINGS); repeat split.
Qed.

Lemma afterInit_enabled (browser : Browser) (w : World) :
  cachedEnabled (afterInit browser w) = settingsEnabled browser w.
Proof.
  unfold afterInit, settingsEnabled.
  destruct (isInitialized w); [reflexivity|].
  unfold cachedEnabled at 1. cbn [currentSettings setIsInitialized].
  destruct (afterBadge_fields browser
              (setCurrentSettings (Some (storedSettings browser w))
                 (if readSucceeds browser SETTINGS then w
                  else setErrorLog ("[AutoPrint] Error loading settings:"
                                    :: errorLog w) w)))
    as (_ & -> & _).
  destruct (readSucceeds browser SETTINGS); reflexivity.
Qed.

(** The cache only ever receives records that [validateSettings] returned:
    from [initialize] (through [loadSettings]) and from the change listener. *)
Lemma afterInit_cache (browser : Browser) (w : World) :
  currentSettings (afterInit browser w)
  = (if isInitialized w then currentSettings w else Some (storedSettings browser w))
  /\ isInitialized (afterInit browser w) = true
  /\ (isInitialized w = false ->
      badgeText (afterInit browser w)
      = (if enabled (storedSettings browser w) then "ON" else "")).
Proof.
  unfold afterInit.
  destruct (isInitialized w) eqn:Ei; [repeat split; [exact Ei|discriminate]|].
  cbn [currentSettings isInitialized badgeText setIsInitialized].
  destruct (afterBadge_fields browser
              (setCurrentSettings (Some (storedSettings browser w))
                 (if readSucceeds browser SETTINGS then w
                  else setErrorLog ("[AutoPrint] Error loading settings:"
                                    :: errorLog w) w)))
    as (-> & -> & _).
  repeat split; destruct (readSucceeds browser SETTINGS); reflexivity.
Qed.

Lemma cache_after_initialize (browser : Browser) (w : World) :
  isInitialized w = false ->
  exists raw, currentSettings (afterInit browser w) = Some (validateSettings raw).
Proof.
  intros Hi. destruct (afterInit_cache browser w) as (-> & _).
  rewrite Hi. unfold storedSettings.
  destruct (readSucceeds browser SETTINGS).
  - now exists (orEmptyObject (autoprint_settings (storage w))).
  - now exists (JObject []).
Qed.

Lemma cache_after_settingsChanged (browser : Browser) (newValue : JSValue) (w : World) :
  exists w',
    settingsChanged browser newValue w = Some (Normal tt, w')
    /\ currentSettings w' = Some (validateSettings newValue)
    /\ badgeText w' = (if enabled (validateSettings newValue) then "ON" else "").
Proof.
  unfold settingsChanged, bind, modify. rewrite updateBadge_run.
  eexists. split; [reflexivity|].
  destruct (afterBadge_fields browser
              (setCurrentSettings (Some (validateSettings newValue)) w))
    as (-> & -> & _).
  split; reflexivity.
Qed.

Lemma handleDownloadChanged_run (browser : Browser) (fuel : nat)
      (delta : DownloadDelta) (w : World) :
  handleDownloadChanged browser fuel delta w
  = if negb (reachesComplete delta) then Some (Normal tt, w)
    else if negb (settingsEnabled browser w)
         then Some (Normal tt, afterInit browser w)
         else handleCompleted browser fuel delta (afterInit browser w).
Proof.
  unfold handleDownloadChanged. fold (handleCompleted browser fuel delta).
  destruct (reachesComplete delta); [|reflexivity].
  rewrite <- afterInit_enabled.
  cbn [negb]. unfold bind, gets.
  destruct (isInitialized w) eqn:Ei; cbn [negb].
  - assert (afterInit browser w = w) as -> by (unfold afterInit; now rewrite Ei).
    unfold ret. destruct (cachedEnabled w); reflexivity.
  - rewrite initialize_run.
    destruct (cachedEnabled (afterInit browser w)); reflexivity.
Qed.

(** C7.  A download-change event that does not reach 'complete', or that
    arrives while [Settings.enabled] is false, makes the handler return
    without touching the stored history, the notifications, or any tab:
    nothing is appended, nothing is fired, no print workflow starts. *)
Theorem ignored_event_is_noop (browser : Browser) (fuel : nat)
        (delta : DownloadDelta) (w : World) :
  reachesComplete delta = false \/ settingsEnabled browser w = false ->
  exists w',
    handleDownloadChanged browser fuel delta w = Some (Normal tt, w')
    /\ storage w' = storage w
    /\ notifications w' = notifications w
    /\ openedTabs w' = openedTabs w
    /\ printCommands w' = printCommands w
    /\ tabRemovals w' = tabRemovals w
    /\ (reachesComplete delta = false -> w' = w).
Proof.
  intros H. rewrite handleDownloadChanged_run.
  destruct (reachesComplete delta) eqn:Ec; simpl negb; cbv iota.
  - destruct H as [H|H]; [discriminate|]. rewrite H. simpl negb. cbv iota.
    exists (afterInit browser w).
    destruct (afterInit_frame browser w) as (H1 & H2 & H3 & H4 & H5).
    repeat split; try assumption. discriminate.
  - exists w. repeat split.
Qed.

Lemma ignored_event_is_noop_witness :
  let w := Scenario.fresh (Some (JObject [("enabled", JBool false)])) in
  (reachesComplete (Scenario.completed 1) = false
   \/ settingsEnabled Scenario.healthy w = false)
  /\ exists w',
      handleDownloadChanged Scenario.healthy 2 (Scenario.completed 1) w
      = Some (Normal tt, w')
      /\ storage w' = storage w
      /\ notifications w' = notifications w
      /\ openedTabs w' = openedTabs w
      /\ printCommands w' = printCommands w
      /\ tabRemovals w' = tabRemovals w
      /\ (reachesComplete (Scenario.completed 1) = false -> w' = w).
Proof.
  intros w. split.
  - right. reflexivity.
  - apply (ignored_event_is_noop Scenario.healthy 2 (Scenario.completed 1) w).
    right. reflexivity.
Defined.

(** C2, as written, fails: the download 99 is unknown to the browser, the
    extension is enabled and notifications are on; the handler logs one
    console line, and afterwards the history holds no record and no
    notification has been fired. *)
Lemma download_not_found_counterexample :
  let w := Scenario.fresh (Some Scenario.enabledSettings) in
  downloadsSearch Scenario.healthy 99 = Normal []
  /\ reachesComplete (Scenario.completed 99) = true
  /\ settingsEnabled Scenario.healthy w = true
  /\ exists w',
      handleDownloadChanged Scenario.healthy 2 (Scenario.completed 99) w
      = Some (Normal tt, w')
      /\ cachedShowNotifications w' = true
      /\ loadPrintHistory Scenario.healthy w' = Some (Normal [], w')
      /\ notifications w' = []
      /\ errorLog w' = ["[AutoPrint] Download not found:"].
Proof.
  intros w. repeat split.
  eexists. split; [reflexivity|]. repeat split.
Qed.

(** C2, amended.  If the search for a completed download's id returns no
    item while the extension is enabled, the handler returns normally after
    logging 'Download not found' to the console: the stored history is
    unchanged, no notification is fired and no tab is opened. *)
Theorem download_not_found_only_logs (browser : Browser) (fuel : nat)
        (delta : DownloadDelta) (w : World) :
  reachesComplete delta = true ->
  settingsEnabled browser w = true ->
  downloadsSearch browser (delta_id delta) = Normal [] ->
  exists w',
    handleDownloadChanged browser fuel delta w = Some (Normal tt, w')
    /\ storage w' = storage w
    /\ notifications w' = notifications w
    /\ openedTabs w' = openedTabs w
    /\ printCommands w' = printCommands w
    /\ tabRemovals w' = tabRemovals w
    /\ errorLog w'
       = "[AutoPrint] Download not found:" :: errorLog (afterInit browser w).
Proof.
  intros Hc He Hs. rewrite handleDownloadChanged_run, Hc, He. simpl negb. cbv iota.
  unfold handleCompleted, tryCatch, bind, liftC. rewrite Hs.
  destruct (afterInit_frame browser w) as (H1 & H2 & H3 & H4 & H5).
  eexists. split; [reflexivity|]. simpl. repeat split; assumption.
Qed.

Lemma download_not_found_only_logs_witness :
  let w := Scenario.fresh (Some Scenario.enabledSettings) in
  exists w',
    handleDownloadChanged Scenario.healthy 2 (Scenario.completed 99) w
    = Some (Normal tt, w')
    /\ storage w' = storage w
    /\ notifications w' = notifications w
    /\ openedTabs w' = openedTabs w
    /\ printCommands w' = printCommands w
    /\ tabRemovals w' = tabRemovals w
    /\ errorLog w'
       = "[AutoPrint] Download not found:" :: errorLog (afterInit Scenario.healthy w).
Proof.
  intros w.
  apply (download_not_found_only_logs Scenario.healthy 2 (Scenario.completed 99) w);
    reflexivity.
Defined.

(** C1, as written, fails: the file opens in tab 7, the print script is
    refused, the extension is enabled and notifications are on; the
    'File Ready' notification is fired, and afterwards the history holds no
    record at all. *)
Lemma print_trigger_throws_counterexample :
  let w := Scenario.fresh (Some Scenario.enabledSettings) in
  executeScript Scenario.printBlocked 7 = Throw "Cannot access contents of the page"
  /\ exists w',
      handleDownloadChanged Scenario.printBlocked 2 (Scenario.completed 1) w
      = Some (Normal tt, w')
      /\ openedTabs w' = [(7%Z, "file:///home/ann/Downloads/invoice_2024.pdf")]
      /\ notifications w' = [fileReady Scenario.invoice]
      /\ loadPrintHistory Scenario.printBlocked w' = Some (Normal [], w')
      /\ autoprint_history (storage w') = None.
Proof.
  intros w. split; [reflexivity|].
  eexists. split; [reflexivity|]. repeat split.
Qed.

(** C1, amended.  If the file was opened and the print-trigger invocation
    throws, [printFile] returns [true]; the 'File Ready' notification
    appears exactly when [showNotifications] is true and the call to
    [chrome.notifications.create] goes through (when that call throws, the
    [catch] of [showNotification] logs one more console line); the stored
    history is left as it was, no print command is recorded, and the tab
    stays open with no removal scheduled. *)
Theorem print_trigger_throws_notifies_only (browser : Browser) (fuel : nat)
        (downloadItem : DownloadItem) (w : World) (tab : Z) (e : string) :
  tabsCreate browser ("file://" ++ dl_filename downloadItem) = Normal tab ->
  executeScript browser tab = Throw e ->
  exists w',
    printFile browser fuel downloadItem w = Some (Normal true, w')
    /\ notifications w'
       = (if cachedShowNotifications w && created browser (fileReady downloadItem)
          then fileReady downloadItem :: notifications w
          else notifications w)
    /\ storage w' = storage w
    /\ openedTabs w'
       = (tab, "file://" ++ dl_filename downloadItem) :: openedTabs w
    /\ printCommands w' = printCommands w
    /\ tabRemovals w' = tabRemovals w
    /\ errorLog w'
       = ((if cachedShowNotifications w
              && negb (created browser (fileReady downloadItem))
           then ["[AutoPrint] Notification error:";
                 "[AutoPrint] Script execution error:"]
           else ["[AutoPrint] Script execution error:"]) ++ errorLog w)%list.
Proof.
  intros Ht Hx.
  unfold printFile, createTab, awaitTabReady, executePrint.
  unfold tryCatch at 1, bind at 1, bind at 1, liftC. rewrite Ht. cbn beta iota.
  unfold bind at 1, modify, bind at 1, ret, bind at 1, bind at 1.
  unfold tryCatch at 1, bind at 1, bind at 1. rewrite Hx. cbn beta iota.
  unfold bind at 1, consoleError, modify, bind at 1.
  rewrite showNotification_run. cbn beta iota.
  change (mkNotification (if String.eqb "success" "success"
                          then PRINT_SUCCESS else PRINT_ERROR)
            "AutoPrint: File Ready"
            (String.concat "" [quote; getFilename downloadItem; quote;
                               " opened for printing. Press Ctrl+P to print."]))
    with (fileReady downloadItem).
  eexists. split; [reflexivity|].
  match goal with
  | |- context [afterNotification browser ?n ?w0] =>
      destruct (afterNotification_fields browser n w0)
        as (-> & -> & -> & _ & _ & _ & _ & -> & -> & ->)
  end.
  unfold notifiedBy, consoleAfterNotification, cachedShowNotifications.
  cbn [currentSettings notifications storage openedTabs printCommands tabRemovals
       errorLog setErrorLog setOpenedTabs].
  repeat split.
  destruct (match currentSettings w with
            | Some s => showNotifications s
            | None => false
            end && negb (created browser (fileReady downloadItem))); reflexivity.
Qed.

Lemma print_trigger_throws_notifies_only_witness :
  let w := afterInit Scenario.printBlocked (Scenario.fresh (Some Scenario.enabledSettings)) in
  (exists w',
      printFile Scenario.printBlocked 2 Scenario.invoice w = Some (Normal true, w')
      /\ notifications w' = [fileReady Scenario.invoice]
      /\ storage w' = storage w
      /\ openedTabs w' = [(7%Z, "file:///home/ann/Downloads/invoice_2024.pdf")]
      /\ printCommands w' = []
      /\ tabRemovals w' = []
      /\ errorLog w' = ["[AutoPrint] Script execution error:"])
  /\ (exists w',
        printFile Scenario.printBlockedSilent 2 Scenario.invoice w
        = Some (Normal true, w')
        /\ notifications w' = []
        /\ storage w' = storage w
        /\ openedTabs w' = [(7%Z, "file:///home/ann/Downloads/invoice_2024.pdf")]
        /\ printCommands w' = []
        /\ tabRemovals w' = []
        /\ errorLog w' = ["[AutoPrint] Notification error:";
                          "[AutoPrint] Script execution error:"]).
Proof.
  intros w. split.
  - apply (print_trigger_throws_notifies_only Scenario.printBlocked 2 Scenario.invoice w
             7%Z "Cannot access contents of the page"); reflexivity.
  - apply (print_trigger_throws_notifies_only Scenario.printBlockedSilent 2
             Scenario.invoice w 7%Z "Cannot access contents of the page"); reflexivity.
Defined.

(** The two sibling outcomes of [printFile], for comparison: a print that
    goes through and a file that cannot be opened each leave one record. *)
Example print_goes_through :
  let w := Scenario.fresh (Some Scenario.enabledSettings) in
  exists w',
    handleDownloadChanged Scenario.healthy 2 (Scenario.completed 1) w
    = Some (Normal tt, w')
    /\ autoprint_history (storage w')
       = Some [stamp (now w)
                 {| pa_filename := "invoice_2024.pdf";
                    pa_fullPath := "/home/ann/Downloads/invoice_2024.pdf";
                    pa_status := "printed";
                    pa_fileSize := Some 2048%Z;
                    pa_error := None |}]
    /\ map n_title (notifications w') = ["AutoPrint: File Sent to Printer"]
    /\ printCommands w' = [7%Z]
    /\ tabRemovals w' = [(7%Z, 5000%Z)].
Proof. eexists. split; [reflexivity|]. repeat split. Qed.

Example file_cannot_be_opened :
  let w := Scenario.fresh (Some Scenario.enabledSettings) in
  exists w',
    handleDownloadChanged Scenario.cannotOpen 2 (Scenario.completed 1) w
    = Some (Normal tt, w')
    /\ autoprint_history (storage w')
       = Some [stamp (now w)
                 {| pa_filename := "invoice_2024.pdf";
                    pa_fullPath := "/home/ann/Downloads/invoice_2024.pdf";
                    pa_status := "error";
                    pa_fileSize := None;
                    pa_error := Some "No current window" |}]
    /\ map n_title (notifications w') = ["AutoPrint: Print Failed"]
    /\ map n_kind (notifications w') = [PRINT_ERROR]
    /\ openedTabs w' = []
    /\ tabRemovals w' = [].
Proof. eexists. split; [reflexivity|]. repeat split. Qed.

(* ===================================================================== *)
(** ** File names and extensions *)
(* ===================================================================== *)

Lemma lastPart_cons (x : string) (l : list string) :
  l <> [] -> lastPart (x :: l) = lastPart l.
Proof. unfold lastPart. destruct l; [congruence|reflexivity]. Qed.

Lemma split_cons_sep (p : ascii -> bool) (c : ascii) (r : string) :
  p c = true -> split p (String c r) = "" :: split p r.
Proof. intros H. simpl. now rewrite H. Qed.

Lemma lastPart_split_cons (p : ascii -> bool) (c : ascii) (r : string) :
  lastPart (split p (String c r))
  = match split p r with
    | [_] => if p c then lastPart (split p r) else String c (lastPart (split p r))
    | _ => lastPart (split p r)
    end.
Proof.
  simpl. pose proof (split_not_nil p r) as Hn.
  destruct (split p r) as [|h [|h' t]] eqn:E; [congruence| |].
  - destruct (p c); reflexivity.
  - destruct (p c); reflexivity.
Qed.

(** Everything after a separator decides the last part. *)
Lemma lastPart_split_app (p : ascii -> bool) (a : string) (c : ascii) (b : string) :
  p c = true ->
  lastPart (split p (a ++ String c b)) = lastPart (split p b).
Proof.
  intros Hc. induction a as [|x a IH]; simpl append.
  - rewrite split_cons_sep by exact Hc.
    apply lastPart_cons, split_not_nil.
  - rewrite lastPart_split_cons, IH.
    assert (exists h h' t, split p (a ++ String c b) = h :: h' :: t) as (h & h' & t & E).
    { clear IH. induction a as [|y a IHa]; simpl append.
      - rewrite split_cons_sep by exact Hc.
        pose proof (split_not_nil p b). destruct (split p b) as [|h t]; [congruence|].
        now exists "", h, t.
      - destruct IHa as (h & h' & t & E). simpl. rewrite E.
        destruct (p y); eauto. }
    now rewrite E.
Qed.

Lemma split_no_separator (p : ascii -> bool) (s : string) :
  noneSatisfy p s = true -> split p s = [s].
Proof.
  induction s as [|c r IH]; simpl; [reflexivity|].
  intros H. apply andb_prop in H as [Hc Hr].
  apply negb_true_iff in Hc. rewrite Hc, (IH Hr). reflexivity.
Qed.

Lemma split_parts_clean (p : ascii -> bool) (s : string) :
  Forall (fun part => noneSatisfy p part = true) (split p s).
Proof.
  induction s as [|c r IH]; simpl; [repeat constructor|].
  destruct (p c) eqn:Ec; [constructor; [reflexivity|exact IH]|].
  destruct (split p r) as [|h t]; [repeat constructor; simpl; now rewrite Ec|].
  inversion IH as [|? ? Hh Ht]; subst.
  constructor; [simpl; now rewrite Ec, Hh | exact Ht].
Qed.

Lemma lastPart_clean (p : ascii -> bool) (s : string) :
  noneSatisfy p (lastPart (split p s)) = true.
Proof.
  pose proof (split_parts_clean p s) as H. unfold lastPart.
  induction H as [|x l Hx Hl IH]; [reflexivity|].
  destruct l; [exact Hx|exact IH].
Qed.

Lemma noneSatisfy_pathSep (s : string) :
  noneSatisfy isPathSep s = negb (hasPathSep s).
Proof.
  induction s as [|c r IH]; simpl; [reflexivity|].
  rewrite IH. now destruct (isPathSep c).
Qed.

Lemma noneSatisfy_dot (s : string) : noneSatisfy isDot s = negb (Spec.hasDot s).
Proof.
  induction s as [|c r IH]; simpl; [reflexivity|].
  rewrite IH. now destruct (isDot c).
Qed.

(** X1.  [getFilename] returns the leaf of the download path: what follows
    the last [/] or [\], the whole path when it has neither, and never a
    string that contains a separator. *)
Theorem getFilename_is_leaf :
  (forall (dir name : string) (c : ascii) (size : Z),
      isPathSep c = true -> hasPathSep name = false ->
      getFilename (mkDownloadItem (dir ++ String c name) size) = name)
  /\ (forall (path : string) (size : Z),
        hasPathSep path = false ->
        getFilename (mkDownloadItem path size) = path)
  /\ (forall item : DownloadItem, hasPathSep (getFilename item) = false).
Proof.
  split; [|split].
  - intros dir name c size Hc Hn. unfold getFilename. simpl dl_filename.
    assert (truthy (dir ++ String c name) = true) as ->
      by (destruct dir; reflexivity).
    rewrite lastPart_split_app by exact Hc.
    rewrite split_no_separator; [reflexivity|].
    rewrite noneSatisfy_pathSep, Hn. reflexivity.
  - intros path size Hn. unfold getFilename. simpl dl_filename.
    destruct path as [|c r]; [reflexivity|]. cbn [truthy].
    rewrite split_no_separator; [reflexivity|].
    rewrite noneSatisfy_pathSep, Hn. reflexivity.
  - intros item. unfold getFilename.
    destruct (truthy (dl_filename item)); [|reflexivity].
    pose proof (lastPart_clean isPathSep (dl_filename item)) as H.
    rewrite noneSatisfy_pathSep in H. now apply negb_true_iff in H.
Qed.

Lemma getFilename_is_leaf_witness :
  getFilename (mkDownloadItem "C:\Users\ann/Downloads\Q3.report.PDF" 10) = "Q3.report.PDF"
  /\ getFilename (mkDownloadItem "notes.txt" 10) = "notes.txt".
Proof.
  destruct getFilename_is_leaf as (H1 & H2 & _). split.
  - apply (H1 "C:\Users\ann/Downloads" "Q3.report.PDF" "\"%char 10%Z); reflexivity.
  - apply (H2 "notes.txt" 10%Z); reflexivity.
Defined.

Lemma hasDot_toLowerCase (s : string) : Spec.hasDot (toLowerCase s) = Spec.hasDot s.
Proof.
  induction s as [|c r IH]; simpl; [reflexivity|].
  now rewrite lowerChar_isDot, IH.
Qed.

Lemma afterLastDot_toLowerCase (s : string) :
  Spec.afterLastDot (toLowerCase s) = option_map toLowerCase (Spec.afterLastDot s).
Proof.
  induction s as [|c r IH]; simpl; [reflexivity|].
  rewrite IH, lowerChar_isDot.
  destruct (Spec.afterLastDot r); simpl; [reflexivity|].
  destruct (isDot c); reflexivity.
Qed.

Lemma getFileExtension_toLowerCase (f : string) :
  getFileExtension (toLowerCase f) = getFileExtension f.
Proof.
  rewrite !getFileExtension_spec. unfold Spec.extensionOf.
  rewrite afterLastDot_toLowerCase.
  destruct (Spec.afterLastDot f); simpl; [apply toLowerCase_idem|reflexivity].
Qed.

(** X2.  [getFileExtension] returns what follows the last dot, lower-cased
    (so a name that only starts with a dot has the rest as its extension);
    the result is always lower-case and never contains a dot. *)
Theorem getFileExtension_of_name :
  (forall base ext : string,
      Spec.hasDot ext = false ->
      getFileExtension (base ++ String "."%char ext) = toLowerCase ext)
  /\ (forall f : string,
        Spec.hasDot (getFileExtension f) = false
        /\ toLowerCase (getFileExtension f) = getFileExtension f).
Proof.
  split.
  - intros base ext He. unfold getFileExtension.
    assert ((1 <? List.length (split isDot (base ++ String "." ext)))%nat = true) as ->.
    { apply Nat.ltb_lt. clear He.
      induction base as [|y a IHa]; simpl append.
      - rewrite split_cons_sep by reflexivity. simpl.
        pose proof (split_not_nil isDot ext). destruct (split isDot ext); [congruence|].
        simpl. lia.
      - simpl. destruct (isDot y); [simpl; lia|].
        destruct (split isDot (a ++ String "." ext)) as [|h t]; simpl in *; lia. }
    rewrite lastPart_split_app by reflexivity.
    rewrite split_no_separator; [reflexivity|].
    rewrite noneSatisfy_dot, He. reflexivity.
  - intros f. split.
    + unfold getFileExtension.
      destruct (1 <? List.length (split isDot f))%nat; [|reflexivity].
      rewrite hasDot_toLowerCase.
      pose proof (lastPart_clean isDot f) as H.
      rewrite noneSatisfy_dot in H. now apply negb_true_iff in H.
    + rewrite getFileExtension_spec. apply toLowerCase_idem.
Qed.

Lemma getFileExtension_of_name_witness :
  getFileExtension "archive.tar.GZ" = "gz" /\ getFileExtension ".bashrc" = "bashrc".
Proof.
  destruct getFileExtension_of_name as (H & _). split.
  - apply (H "archive.tar" "GZ"). reflexivity.
  - apply (H "" "bashrc"). reflexivity.
Defined.

(** X3.  Within Latin-1, to which the strings of this development are
    confined, the verdict does not depend on the case of the filename: the
    whole result of [checkFilters], reasons included, is the one of the
    lower-cased name, and two names that differ in case only get the same
    result.  (Beyond Latin-1 [toLowerCase] looks at the neighbours of a
    character - the final sigma - and the property does not carry over.) *)
Theorem checkFilters_ignores_filename_case (cs : option Settings) :
  (forall f : string, checkFilters cs (toLowerCase f) = checkFilters cs f)
  /\ (forall f g : string,
        toLowerCase f = toLowerCase g -> checkFilters cs f = checkFilters cs g).
Proof.
  assert (forall f, checkFilters cs (toLowerCase f) = checkFilters cs f) as H.
  { intros f. destruct cs as [s|]; [|reflexivity].
    unfold checkFilters, checkExtension, checkPrefix.
    rewrite getFileExtension_toLowerCase, toLowerCase_idem. reflexivity. }
  split; [exact H|].
  intros f g E. rewrite <- (H f), <- (H g), E. reflexivity.
Qed.

Lemma checkFilters_ignores_filename_case_witness :
  let cs := Some (mkSettings true "inv" ".Pdf" true 100) in
  checkFilters cs "INVOICE_7.Pdf" = checkFilters cs "invoice_7.PDF"
  /\ matches (checkFilters cs "INVOICE_7.Pdf") = true.
Proof.
  intros cs. split; [|reflexivity].
  apply (proj2 (checkFilters_ignores_filename_case cs) "INVOICE_7.Pdf" "invoice_7.PDF").
  reflexivity.
Defined.

(** X4.  The verdict carries a reason exactly when it does not match: one
    reason per failed sub-filter, or the single reason 'Settings not loaded'. *)
Theorem reasons_iff_no_match (cs : option Settings) (f : string) :
  let v := checkFilters cs f in
  (matches v = true <-> details v = [])
  /\ List.length (details v)
     = match cs with
       | None => 1
       | Some _ => (if prefixMatch v then 0 else 1) + (if extensionMatch v then 0 else 1)
       end%nat.
Proof.
  destruct cs as [s|]; [|simpl; split; [split; discriminate|reflexivity]].
  unfold checkFilters, checkExtension, checkPrefix.
  destruct (truthy (prefixFilter s) && truthy (trim (prefixFilter s)));
    destruct (truthy (extensionFilter s) && truthy (trim (extensionFilter s)));
    cbv zeta;
    repeat match goal with
           | |- context [negb ?b] => destruct b; cbn
           end;
    (split; [split; (reflexivity || discriminate)|reflexivity]).
Qed.
(* ===================================================================== *)
(** ** Reasoning about runs: frames and exceptions *)
(* ===================================================================== *)

Section Frames.

Variable R : World -> World -> Prop.
Hypothesis R_refl : forall w, R w w.
Hypothesis R_trans : forall w1 w2 w3, R w1 w2 -> R w2 w3 -> R w1 w3.

Lemma keeps_ret {A} (a : A) : keeps R (ret a).
Proof. intros w r w' [= <- <-]. apply R_refl. Qed.

Lemma keeps_throw {A} (e : string) : keeps R (@throw A e).
Proof. intros w r w' [= <- <-]. apply R_refl. Qed.

Lemma keeps_gets {A} (f : World -> A) : keeps R (gets f).
Proof. intros w r w' [= <- <-]. apply R_refl. Qed.

Lemma keeps_liftC {A} (c : Completion A) : keeps R (liftC c).
Proof. intros w r w' [= <- <-]. apply R_refl. Qed.

Lemma keeps_modify (f : World -> World) :
  (forall w, R w (f w)) -> keeps R (modify f).
Proof. intros H w r w' [= <- <-]. apply H. Qed.

Lemma keeps_bind {A B} (m : M A) (f : A -> M B) :
  keeps R m -> (forall a, keeps R (f a)) -> keeps R (bind m f).
Proof.
  intros Hm Hf w r w'. unfold bind.
  destruct (m w) as [[[a|e] w1]|] eqn:E; [| |discriminate].
  - intros H. eapply R_trans; [eapply Hm; exact E | eapply Hf; exact H].
  - intros [= <- <-]. eapply Hm; exact E.
Qed.

Lemma keeps_tryCatch {A} (m : M A) (h : string -> M A) :
  keeps R m -> (forall e, keeps R (h e)) -> keeps R (tryCatch m h).
Proof.
  intros Hm Hh w r w'. unfold tryCatch.
  destruct (m w) as [[[a|e] w1]|] eqn:E; [| |discriminate].
  - intros [= <- <-]. eapply Hm; exact E.
  - intros H. eapply R_trans; [eapply Hm; exact E | eapply Hh; exact H].
Qed.

Lemma keeps_trimHistory (fuel : nat) (max : Z) (h : list HistoryItem) :
  keeps R (trimHistory fuel max h).
Proof.
  intros w r w'. unfold trimHistory.
  destruct (trimLoop fuel max h); [|discriminate].
  intros [= <- <-]. apply R_refl.
Qed.

End Frames.

Lemma neverThrows_ret {A} (a : A) : neverThrows (ret a).
Proof. intros w r w' [= <- <-]. now exists a. Qed.

Lemma neverThrows_gets {A} (f : World -> A) : neverThrows (gets f).
Proof. intros w r w' [= <- <-]. now eexists. Qed.

Lemma neverThrows_modify (f : World -> World) : neverThrows (modify f).
Proof. intros w r w' [= <- <-]. now exists tt. Qed.

Lemma neverThrows_bind {A B} (m : M A) (f : A -> M B) :
  neverThrows m -> (forall a, neverThrows (f a)) -> neverThrows (bind m f).
Proof.
  intros Hm Hf w r w'. unfold bind.
  destruct (m w) as [[[a|e] w1]|] eqn:E; [| |discriminate].
  - intros H. eapply Hf; exact H.
  - destruct (Hm _ _ _ E) as [a Ha]. discriminate.
Qed.

Lemma neverThrows_tryCatch {A} (m : M A) (h : string -> M A) :
  (forall e, neverThrows (h e)) -> neverThrows (tryCatch m h).
Proof.
  intros Hh w r w'. unfold tryCatch.
  destruct (m w) as [[[a|e] w1]|] eqn:E; [| |discriminate].
  - intros [= <- <-]. now exists a.
  - intros H. eapply Hh; exact H.
Qed.

(** What [chrome.notifications.create] throws stops at the [catch] of
    [showNotification]. *)
Lemma neverThrows_showNotification (browser : Browser) (title message type : string) :
  neverThrows (showNotification browser title message type).
Proof.
  unfold showNotification.
  apply neverThrows_bind; [apply neverThrows_gets|]. intros show.
  destruct (negb show); [apply neverThrows_ret|].
  apply neverThrows_tryCatch. intros e. apply neverThrows_modify.
Qed.

(** What a [chrome.action] call throws stops at the [catch] of [updateBadge]. *)
Lemma neverThrows_updateBadge (browser : Browser) : neverThrows (updateBadge browser).
Proof.
  unfold updateBadge. apply neverThrows_tryCatch. intros e. apply neverThrows_modify.
Qed.

Lemma neverThrows_initialize (browser : Browser) : neverThrows (initialize browser).
Proof.
  intros w r w'. unfold initialize.
  destruct (isInitialized w); [intros [= <- <-]; now exists tt|].
  apply neverThrows_tryCatch. intros e. apply neverThrows_modify.
Qed.

(** Proves [keeps R m] for a computation built from the primitives above,
    given reflexivity and transitivity of [R] as [Hrefl] and [Htrans]. *)
Ltac frame_with known Hrefl Htrans :=
  repeat first
    [ known
    | apply (keeps_bind _ Htrans)
    | apply (keeps_tryCatch _ Htrans)
    | apply (keeps_ret _ Hrefl)
    | apply (keeps_throw _ Hrefl)
    | apply (keeps_gets _ Hrefl)
    | apply (keeps_liftC _ Hrefl)
    | apply (keeps_trimHistory _ Hrefl)
    | apply keeps_modify; intros ?; repeat split; reflexivity
    | match goal with
      | |- forall _, _ => intros ?
      | |- keeps _ (if ?b then _ else _) => destruct b
      | |- keeps _ (match ?x with _ => _ end) => destruct x
      end ].

Ltac frame Hrefl Htrans := frame_with fail Hrefl Htrans.

Lemma sameCache_refl (w : World) : sameCache w w.
Proof. repeat split. Qed.

Lemma sameCache_trans (w1 w2 w3 : World) :
  sameCache w1 w2 -> sameCache w2 w3 -> sameCache w1 w3.
Proof.
  intros (A1 & A2 & A3) (B1 & B2 & B3).
  repeat split; congruence.
Qed.

Lemma sameStoredSettings_refl (w : World) : sameStoredSettings w w.
Proof. reflexivity. Qed.

Lemma sameStoredSettings_trans (w1 w2 w3 : World) :
  sameStoredSettings w1 w2 -> sameStoredSettings w2 w3 -> sameStoredSettings w1 w3.
Proof. unfold sameStoredSettings. congruence. Qed.

Lemma keeps_showNotification (R : World -> World -> Prop) (browser : Browser)
      (title message type : string) :
  (forall w, R w w) ->
  (forall w n, R w (setNotifications n w)) ->
  (forall w l, R w (setErrorLog l w)) ->
  keeps R (showNotification browser title message type).
Proof.
  intros Hr Hn He w r w'. rewrite showNotification_run. intros [= _ <-].
  unfold afterNotification.
  destruct (cachedShowNotifications w); [|apply Hr].
  destruct (created browser _); [apply Hn|apply He].
Qed.

Lemma addToPrintHistory_sameCache (browser : Browser) (fuel : nat) (item : PrintAttempt) :
  keeps sameCache (addToPrintHistory browser fuel item).
Proof.
  unfold addToPrintHistory, loadSettings, loadPrintHistory, getStorageAPI,
    storageGetSettings, storageGetHistory, storageSetHistory, consoleError.
  frame sameCache_refl sameCache_trans.
Qed.

Lemma addToPrintHistory_sameStoredSettings (browser : Browser) (fuel : nat)
      (item : PrintAttempt) :
  keeps sameStoredSettings (addToPrintHistory browser fuel item).
Proof.
  unfold addToPrintHistory, loadSettings, loadPrintHistory, getStorageAPI,
    storageGetSettings, storageGetHistory, storageSetHistory, consoleError.
  frame sameStoredSettings_refl sameStoredSettings_trans.
Qed.

Lemma printFile_sameCache (browser : Browser) (fuel : nat) (item : DownloadItem) :
  keeps sameCache (printFile browser fuel item).
Proof.
  unfold printFile, createTab, awaitTabReady, executePrint, scheduleTabRemoval,
    consoleError.
  frame_with
    ltac:(first [ apply addToPrintHistory_sameCache
                | apply keeps_showNotification;
                  [apply sameCache_refl | intros; repeat split
                   | intros; repeat split] ])
    sameCache_refl sameCache_trans.
Qed.

Lemma printFile_sameStoredSettings (browser : Browser) (fuel : nat) (item : DownloadItem) :
  keeps sameStoredSettings (printFile browser fuel item).
Proof.
  unfold printFile, createTab, awaitTabReady, executePrint, scheduleTabRemoval,
    consoleError.
  frame_with
    ltac:(first [ apply addToPrintHistory_sameStoredSettings
                | apply keeps_showNotification;
                  [apply sameStoredSettings_refl | intros; reflexivity
                   | intros; reflexivity] ])
    sameStoredSettings_refl sameStoredSettings_trans.
Qed.
(* ===================================================================== *)
(** ** One append to the history, in every storage condition *)
(* ===================================================================== *)

Lemma addToPrintHistory_cases (browser : Browser) (fuel : nat)
      (item : PrintAttempt) (w : World) :
  addToPrintHistory browser fuel item w
  = match trimLoop fuel (capRead browser w)
            (stamp (now w) item :: historyRead browser w) with
    | None => None
    | Some h =>
        let w2 := afterReads browser w in
        let failed := setErrorLog ("[AutoPrint] Error adding to print history:"
                                   :: errorLog w2) w2 in
        if storageAPI browser then
          match storageSet browser PRINT_HISTORY with
          | None =>
              Some (Normal (stamp (now w) item),
                    setStorage {| autoprint_settings := autoprint_settings (storage w);
                                  autoprint_history := Some h |} w2)
          | Some e => Some (Throw e, failed)
          end
        else Some (Throw "No compatible storage API found", failed)
    end.
Proof.
  unfold addToPrintHistory, tryCatch, bind at 1.
  rewrite loadSettings_run.
  unfold capRead, historyRead, storedSettings, afterReads.
  destruct (readSucceeds browser SETTINGS) eqn:Hs;
    (unfold bind at 1; rewrite loadPrintHistory_run;
     destruct (readSucceeds browser PRINT_HISTORY) eqn:Hh;
     unfold bind at 1, gets; unfold bind at 1, trimHistory;
     cbn [now storage setErrorLog];
     match goal with
     | |- context [trimLoop ?f ?m ?l] => destruct (trimLoop f m l); [|reflexivity]
     end;
     unfold bind, getStorageAPI, storageSetHistory, consoleError, modify, throw, ret;
     (destruct (storageAPI browser); [|reflexivity]);
     destruct (storageSet browser PRINT_HISTORY); reflexivity).
Qed.

Lemma storageWorks_reads (browser : Browser) :
  storageWorks browser = true ->
  readSucceeds browser SETTINGS = true
  /\ readSucceeds browser PRINT_HISTORY = true
  /\ storageAPI browser = true
  /\ storageSet browser PRINT_HISTORY = None.
Proof.
  unfold storageWorks. intros H.
  apply andb_prop in H as [H Hset]. apply andb_prop in H as [Hs Hh].
  repeat split; try assumption.
  - unfold readSucceeds in Hs. now apply andb_prop in Hs as [-> _].
  - destruct (storageSet browser PRINT_HISTORY); [discriminate|reflexivity].
Qed.

(** One append on working storage: the world afterwards, exactly. *)
Lemma addToPrintHistory_working (browser : Browser) (fuel : nat)
      (item : PrintAttempt) (w : World) :
  storageWorks browser = true ->
  (0 <= storedCap w)%Z ->
  (S (List.length (orEmptyArray (autoprint_history (storage w))))
   - Z.to_nat (storedCap w) < fuel)%nat ->
  addToPrintHistory browser fuel item w
  = Some (Normal (stamp (now w) item),
          setStorage
            {| autoprint_settings := autoprint_settings (storage w);
               autoprint_history :=
                 Some (firstn (Z.to_nat (storedCap w))
                              (stamp (now w) item
                               :: orEmptyArray (autoprint_history (storage w)))) |} w).
Proof.
  intros Hw Hcap Hfuel.
  destruct (storageWorks_reads browser Hw) as (Hs & Hh & Hapi & Hset).
  rewrite addToPrintHistory_cases.
  unfold capRead, historyRead, storedSettings, afterReads. rewrite Hs, Hh.
  fold (storedCap w).
  rewrite trimLoop_firstn; [ | exact Hcap | exact Hfuel ].
  cbv zeta. now rewrite Hapi, Hset.
Qed.

(** X5.  One append, whatever the stored history: on working storage and
    with a cap that is not negative, [addToPrintHistory] returns the new
    record, stamped with the current time, and leaves in storage the new
    record followed by the old ones, cut to the cap; an over-long history
    (left by a larger cap) is cut down by this one call; the stored
    settings are not touched. *)
Theorem append_puts_newest_first_and_trims (browser : Browser) (fuel : nat)
        (item : PrintAttempt) (w : World) :
  storageWorks browser = true ->
  (0 <= storedCap w)%Z ->
  (S (List.length (orEmptyArray (autoprint_history (storage w))))
   - Z.to_nat (storedCap w) < fuel)%nat ->
  exists w',
    addToPrintHistory browser fuel item w = Some (Normal (stamp (now w) item), w')
    /\ autoprint_history (storage w')
       = Some (firstn (Z.to_nat (storedCap w))
                      (stamp (now w) item
                       :: orEmptyArray (autoprint_history (storage w))))
    /\ (List.length (orEmptyArray (autoprint_history (storage w')))
        <= Z.to_nat (storedCap w))%nat
    /\ autoprint_settings (storage w') = autoprint_settings (storage w)
    /\ errorLog w' = errorLog w.
Proof.
  intros Hw Hcap Hfuel.
  rewrite (addToPrintHistory_working browser fuel item w Hw Hcap Hfuel).
  eexists. split; [reflexivity|]. simpl.
  repeat split. apply firstn_le_length.
Qed.

Lemma append_puts_newest_first_and_trims_witness :
  let w := setStorage
             {| autoprint_settings := Some Scenario.enabledSettings;
                autoprint_history :=
                  Some [stamp 3 (Scenario.attempt "c"); stamp 2 (Scenario.attempt "b");
                        stamp 1 (Scenario.attempt "a")] |}
             (Scenario.fresh None) in
  exists w',
    addToPrintHistory Scenario.healthy 4 (Scenario.attempt "d") w
    = Some (Normal (stamp (now w) (Scenario.attempt "d")), w')
    /\ autoprint_history (storage w')
       = Some [stamp (now w) (Scenario.attempt "d"); stamp 3 (Scenario.attempt "c")]
    /\ (List.length (orEmptyArray (autoprint_history (storage w'))) <= 2)%nat
    /\ autoprint_settings (storage w') = autoprint_settings (storage w)
    /\ errorLog w' = errorLog w.
Proof.
  intros w.
  apply (append_puts_newest_first_and_trims Scenario.healthy 4
           (Scenario.attempt "d") w); [reflexivity | vm_compute; discriminate | vm_compute; lia].
Defined.

(** X6.  A negative [maxHistoryItems], which [validateSettings] lets
    through, makes [addToPrintHistory] loop for ever: whatever the number of
    loop tests allowed, the call does not return, so nothing is written and
    nothing is thrown. *)
Theorem negative_cap_never_returns (browser : Browser) (item : PrintAttempt)
        (w : World) :
  (capRead browser w < 0)%Z ->
  forall fuel : nat, addToPrintHistory browser fuel item w = None.
Proof.
  intros Hcap fuel. rewrite addToPrintHistory_cases.
  now rewrite trimLoop_negative_cap.
Qed.

Lemma negative_cap_never_returns_witness :
  let w := Scenario.fresh (Some (JObject [("maxHistoryItems", JNumber (-5))])) in
  maxHistoryItems (validateSettings (JObject [("maxHistoryItems", JNumber (-5))])) = (-5)%Z
  /\ forall fuel : nat,
      addToPrintHistory Scenario.healthy fuel (Scenario.attempt "a") w = None.
Proof.
  intros w. split; [reflexivity|].
  apply (negative_cap_never_returns Scenario.healthy (Scenario.attempt "a") w).
  vm_compute. reflexivity.
Defined.

(** X7.  When the history cannot be written (no storage API, or
    [storage.set] rejects), [addToPrintHistory] logs one console line and
    rethrows the error; the stored history and settings are unchanged. *)
Theorem append_write_failure_rethrows (browser : Browser) (fuel : nat)
        (item : PrintAttempt) (w : World) :
  (0 <= capRead browser w)%Z ->
  (S (List.length (historyRead browser w)) - Z.to_nat (capRead browser w) < fuel)%nat ->
  storageAPI browser = false \/ storageSet browser PRINT_HISTORY <> None ->
  exists e w',
    addToPrintHistory browser fuel item w = Some (Throw e, w')
    /\ e = (if storageAPI browser
            then match storageSet browser PRINT_HISTORY with
                 | Some e' => e'
                 | None => ""
                 end
            else "No compatible storage API found")
    /\ storage w' = storage w
    /\ errorLog w'
       = "[AutoPrint] Error adding to print history:"
         :: errorLog (afterReads browser w).
Proof.
  intros Hcap Hfuel Hfail.
  rewrite addToPrintHistory_cases.
  rewrite trimLoop_firstn; [ | exact Hcap | exact Hfuel ].
  cbv zeta.
  assert (storage (afterReads browser w) = storage w) as Hst.
  { unfold afterReads.
    destruct (readSucceeds browser SETTINGS), (readSucceeds browser PRINT_HISTORY);
      reflexivity. }
  destruct (storageAPI browser).
  - destruct (storageSet browser PRINT_HISTORY) as [e|].
    + exists e. eexists. split; [reflexivity|]. repeat split. exact Hst.
    + destruct Hfail as [H|H]; [discriminate|]. now contradiction H.
  - eexists. eexists. split; [reflexivity|]. repeat split. exact Hst.
Qed.

Lemma append_write_failure_rethrows_witness :
  let w := Scenario.fresh (Some Scenario.enabledSettings) in
  exists e w',
    addToPrintHistory Scenario.noStorage 2 (Scenario.attempt "a") w = Some (Throw e, w')
    /\ e = "No compatible storage API found"
    /\ storage w' = storage w
    /\ errorLog w'
       = "[AutoPrint] Error adding to print history:"
         :: errorLog (afterReads Scenario.noStorage w).
Proof.
  intros w.
  apply (append_write_failure_rethrows Scenario.noStorage 2 (Scenario.attempt "a") w);
    [vm_compute; discriminate | vm_compute; lia | left; reflexivity].
Defined.

(** X8.  When reading the history fails but writing it works, the append
    starts from an empty list: whatever the storage held before, it holds
    afterwards the new record alone - and nothing at all when the cap is 0,
    the new record being trimmed away at once.  The call returns the new
    record in both cases, and the failed read has left its console line. *)
Theorem append_after_failed_read_overwrites (browser : Browser) (fuel : nat)
        (item : PrintAttempt) (w : World) :
  storageAPI browser = true ->
  storageGet browser PRINT_HISTORY <> None ->
  storageSet browser PRINT_HISTORY = None ->
  (0 <= capRead browser w)%Z ->
  (1 - Z.to_nat (capRead browser w) < fuel)%nat ->
  exists w',
    addToPrintHistory browser fuel item w = Some (Normal (stamp (now w) item), w')
    /\ autoprint_history (storage w')
       = Some (firstn (Z.to_nat (capRead browser w)) [stamp (now w) item])
    /\ ((1 <= capRead browser w)%Z ->
        autoprint_history (storage w') = Some [stamp (now w) item])
    /\ (capRead browser w = 0%Z -> autoprint_history (storage w') = Some [])
    /\ autoprint_settings (storage w') = autoprint_settings (storage w)
    /\ In "[AutoPrint] Error loading print history:" (errorLog w').
Proof.
  intros Hapi Hget Hset Hcap Hfuel.
  assert (readSucceeds browser PRINT_HISTORY = false) as Hh.
  { unfold readSucceeds. rewrite Hapi.
    destruct (storageGet browser PRINT_HISTORY); [reflexivity|now contradiction Hget]. }
  rewrite addToPrintHistory_cases.
  unfold historyRead, afterReads. rewrite Hh.
  rewrite trimLoop_firstn; [ | exact Hcap | cbn [List.length]; exact Hfuel ].
  cbv zeta. rewrite Hapi, Hset.
  eexists. split; [reflexivity|].
  cbn [storage setStorage autoprint_history autoprint_settings].
  split; [reflexivity|]. split; [|split; [|split]].
  - intros H1. destruct (Z.to_nat (capRead browser w)) as [|k] eqn:E; [lia|].
    simpl. now rewrite firstn_nil.
  - intros ->. reflexivity.
  - reflexivity.
  - simpl. now left.
Qed.

Lemma append_after_failed_read_overwrites_witness :
  let held := Some [stamp 1 (Scenario.attempt "a")] in
  let w := setStorage
             {| autoprint_settings := Some Scenario.enabledSettings;
                autoprint_history := held |}
             (Scenario.fresh None) in
  let w0 := setStorage
              {| autoprint_settings := Some (JObject [("maxHistoryItems", JNumber 0)]);
                 autoprint_history := held |}
              (Scenario.fresh None) in
  (exists w',
      addToPrintHistory Faults.historyUnreadable 2 (Scenario.attempt "b") w
      = Some (Normal (stamp (now w) (Scenario.attempt "b")), w')
      /\ autoprint_history (storage w') = Some [stamp (now w) (Scenario.attempt "b")])
  /\ (exists w',
        addToPrintHistory Faults.historyUnreadable 2 (Scenario.attempt "b") w0
        = Some (Normal (stamp (now w0) (Scenario.attempt "b")), w')
        /\ autoprint_history (storage w') = Some []).
Proof.
  intros held w w0. split.
  - destruct (append_after_failed_read_overwrites Faults.historyUnreadable 2
                (Scenario.attempt "b") w)
      as (w' & Hrun & _ & H1 & _);
      [reflexivity | vm_compute; discriminate | reflexivity
       | vm_compute; discriminate | vm_compute; lia | ].
    exists w'. split; [exact Hrun|]. apply H1. vm_compute. discriminate.
  - destruct (append_after_failed_read_overwrites Faults.historyUnreadable 2
                (Scenario.attempt "b") w0)
      as (w' & Hrun & _ & _ & H0 & _);
      [reflexivity | vm_compute; discriminate | reflexivity
       | vm_compute; discriminate | vm_compute; lia | ].
    exists w'. split; [exact Hrun|]. apply H0. reflexivity.
Defined.
(* ===================================================================== *)
(** ** The print workflow, path by path *)
(* ===================================================================== *)

Lemma notified_setErrorLog (n : Notification) (l : list string) (w : World) :
  notified n (setErrorLog l w) = notified n w.
Proof. reflexivity. Qed.

Lemma firstn_head {A} (n : nat) (x : A) (l : list A) :
  (1 <= n)%nat -> firstn n (x :: l) = x :: firstn (pred n) l.
Proof. destruct n as [|k]; [lia|reflexivity]. Qed.

(** X9.  The printing path: when the tab opens, the print command runs and
    the history can be written, [printFile] returns [true]; the stored
    history becomes the 'printed' record (leaf name, full path, size)
    followed by the old records, cut to the cap - so the record is at the
    head when the cap is at least 1 and is not kept when the cap is 0; the
    'File Sent to Printer' notification appears when notifications are on and
    [chrome.notifications.create] goes through, one console line is logged
    when that call throws; and the removal of the tab is scheduled 5000 ms
    later. *)
Theorem printFile_prints_and_records (browser : Browser) (fuel : nat)
        (item : DownloadItem) (w : World) (tab : Z) :
  tabsCreate browser ("file://" ++ dl_filename item) = Normal tab ->
  executeScript browser tab = Normal tt ->
  storageWorks browser = true ->
  (0 <= storedCap w)%Z ->
  (S (List.length (orEmptyArray (autoprint_history (storage w))))
   - Z.to_nat (storedCap w) < fuel)%nat ->
  exists w',
    printFile browser fuel item w = Some (Normal true, w')
    /\ autoprint_history (storage w')
       = Some (firstn (Z.to_nat (storedCap w))
                      (stamp (now w) (printedRecord item)
                       :: orEmptyArray (autoprint_history (storage w))))
    /\ ((1 <= storedCap w)%Z ->
        exists older,
          autoprint_history (storage w')
          = Some (stamp (now w) (printedRecord item) :: older))
    /\ (storedCap w = 0%Z -> autoprint_history (storage w') = Some [])
    /\ notifications w'
       = (if cachedShowNotifications w && created browser (sentToPrinter item)
          then sentToPrinter item :: notifications w
          else notifications w)
    /\ openedTabs w' = (tab, "file://" ++ dl_filename item) :: openedTabs w
    /\ printCommands w' = tab :: printCommands w
    /\ tabRemovals w' = (tab, 5000%Z) :: tabRemovals w
    /\ errorLog w'
       = (if cachedShowNotifications w && negb (created browser (sentToPrinter item))
          then "[AutoPrint] Notification error:" :: errorLog w
          else errorLog w).
Proof.
  intros Ht Hx Hw Hcap Hfuel.
  unfold printFile, createTab, awaitTabReady, executePrint, scheduleTabRemoval,
    consoleError, tryCatch, bind, liftC, modify, ret.
  rewrite Ht. cbn beta iota. rewrite Hx. cbn beta iota.
  rewrite addToPrintHistory_working; [ | exact Hw | exact Hcap | exact Hfuel ].
  rewrite showNotification_run.
  change (mkNotification (if String.eqb "success" "success"
                          then PRINT_SUCCESS else PRINT_ERROR)
            "AutoPrint: File Sent to Printer"
            (String.concat "" [quote; getFilename item; quote;
                               " has been sent to the printer."]))
    with (sentToPrinter item).
  eexists. split; [reflexivity|].
  match goal with
  | |- context [afterNotification browser ?n ?w0] =>
      destruct (afterNotification_fields browser n w0)
        as (Hn & He & Hs & _ & _ & _ & _ & Ho & Hp & Hr)
  end.
  cbn [storage openedTabs printCommands tabRemovals errorLog notifications
       setTabRemovals].
  rewrite Hn, He, Hs, Ho, Hp, Hr.
  unfold notifiedBy, consoleAfterNotification, cachedShowNotifications.
  cbn [currentSettings notifications storage openedTabs printCommands tabRemovals
       errorLog setStorage setPrintCommands setOpenedTabs autoprint_history].
  fold (printedRecord item).
  split; [reflexivity|]. split; [|split; [|repeat split]].
  - intros H1. eexists.
    rewrite firstn_head; [reflexivity|].
    change (1 <= Z.to_nat (storedCap w))%nat. lia.
  - intros H0.
    repeat match goal with
           | |- context [storedCap ?w0] =>
               progress change (storedCap w0) with (storedCap w)
           end.
    rewrite H0. reflexivity.
Qed.

Lemma printFile_prints_and_records_witness :
  let w := afterInit Scenario.healthy (Scenario.fresh (Some Scenario.enabledSettings)) in
  (exists w',
      printFile Scenario.healthy 2 Scenario.invoice w = Some (Normal true, w')
      /\ autoprint_history (storage w')
         = Some [stamp (now w) (printedRecord Scenario.invoice)]
      /\ notifications w' = [sentToPrinter Scenario.invoice]
      /\ tabRemovals w' = [(7%Z, 5000%Z)]
      /\ errorLog w' = [])
  /\ (exists w',
        printFile Faults.cannotNotify 2 Scenario.invoice w = Some (Normal true, w')
        /\ autoprint_history (storage w')
           = Some [stamp (now w) (printedRecord Scenario.invoice)]
        /\ notifications w' = []
        /\ tabRemovals w' = [(7%Z, 5000%Z)]
        /\ errorLog w' = ["[AutoPrint] Notification error:"]).
Proof.
  intros w. split.
  - destruct (printFile_prints_and_records Scenario.healthy 2 Scenario.invoice w 7%Z)
      as (w' & Hrun & Hh & _ & _ & Hn & _ & _ & Hr & He);
      [reflexivity | reflexivity | reflexivity | vm_compute; discriminate
       | vm_compute; lia | ].
    exists w'. split; [exact Hrun|]. split; [exact Hh|].
    split; [exact Hn|]. split; [exact Hr|exact He].
  - destruct (printFile_prints_and_records Faults.cannotNotify 2 Scenario.invoice w 7%Z)
      as (w' & Hrun & Hh & _ & _ & Hn & _ & _ & Hr & He);
      [reflexivity | reflexivity | reflexivity | vm_compute; discriminate
       | vm_compute; lia | ].
    exists w'. split; [exact Hrun|]. split; [exact Hh|].
    split; [exact Hn|]. split; [exact Hr|exact He].
Defined.

(** X10.  The failing path: when the file cannot be opened, [printFile]
    returns [false]; on working storage the history becomes the 'error'
    record with the message followed by the old records, cut to the cap (at
    the head when the cap is at least 1, not kept when it is 0); the 'Print
    Failed' notification carrying the message appears when notifications are
    on and [chrome.notifications.create] goes through, and one more console
    line is logged when that call throws.  No print command is issued and no
    tab removal is scheduled. *)
Theorem printFile_open_failure_is_recorded (browser : Browser) (fuel : nat)
        (item : DownloadItem) (w : World) (e : string) :
  tabsCreate browser ("file://" ++ dl_filename item) = Throw e ->
  storageWorks browser = true ->
  (0 <= storedCap w)%Z ->
  (S (List.length (orEmptyArray (autoprint_history (storage w))))
   - Z.to_nat (storedCap w) < fuel)%nat ->
  exists w',
    printFile browser fuel item w = Some (Normal false, w')
    /\ autoprint_history (storage w')
       = Some (firstn (Z.to_nat (storedCap w))
                      (stamp (now w) (errorRecord item e)
                       :: orEmptyArray (autoprint_history (storage w))))
    /\ ((1 <= storedCap w)%Z ->
        exists older,
          autoprint_history (storage w')
          = Some (stamp (now w) (errorRecord item e) :: older))
    /\ (storedCap w = 0%Z -> autoprint_history (storage w') = Some [])
    /\ notifications w'
       = (if cachedShowNotifications w && created browser (printFailed item e)
          then printFailed item e :: notifications w
          else notifications w)
    /\ openedTabs w' = openedTabs w
    /\ printCommands w' = printCommands w
    /\ tabRemovals w' = tabRemovals w
    /\ errorLog w'
       = ((if cachedShowNotifications w && negb (created browser (printFailed item e))
           then ["[AutoPrint] Notification error:"; "[AutoPrint] Error printing file:"]
           else ["[AutoPrint] Error printing file:"]) ++ errorLog w)%list.
Proof.
  intros Ht Hw Hcap Hfuel.
  unfold printFile, createTab, awaitTabReady, executePrint, scheduleTabRemoval,
    consoleError, tryCatch, bind, liftC, modify, ret.
  rewrite Ht. cbn beta iota.
  rewrite addToPrintHistory_working; [ | exact Hw | exact Hcap | exact Hfuel ].
  rewrite showNotification_run.
  change (mkNotification (if String.eqb "error" "success"
                          then PRINT_SUCCESS else PRINT_ERROR)
            "AutoPrint: Print Failed"
            (String.concat "" ["Failed to print "; quote; getFilename item; quote;
                               ": "; e]))
    with (printFailed item e).
  eexists. split; [reflexivity|].
  match goal with
  | |- context [afterNotification browser ?n ?w0] =>
      destruct (afterNotification_fields browser n w0)
        as (-> & -> & -> & _ & _ & _ & _ & -> & -> & ->)
  end.
  unfold notifiedBy, consoleAfterNotification, cachedShowNotifications.
  cbn [currentSettings notifications storage openedTabs printCommands tabRemovals
       errorLog now setStorage setErrorLog autoprint_history].
  fold (errorRecord item e).
  split; [reflexivity|]. split; [|split; [|repeat split]].
  - intros H1. eexists.
    rewrite firstn_head; [reflexivity|].
    change (1 <= Z.to_nat (storedCap w))%nat. lia.
  - intros H0.
    repeat match goal with
           | |- context [storedCap ?w0] =>
               progress change (storedCap w0) with (storedCap w)
           end.
    rewrite H0. reflexivity.
  - destruct (match currentSettings w with
              | Some s => showNotifications s
              | None => false
              end && negb (created browser (printFailed item e))); reflexivity.
Qed.

Lemma printFile_open_failure_is_recorded_witness :
  let w := afterInit Scenario.cannotOpen (Scenario.fresh (Some Scenario.enabledSettings)) in
  exists w',
    printFile Scenario.cannotOpen 2 Scenario.invoice w = Some (Normal false, w')
    /\ autoprint_history (storage w')
       = Some [stamp (now w) (errorRecord Scenario.invoice "No current window")]
    /\ notifications w' = [printFailed Scenario.invoice "No current window"]
    /\ openedTabs w' = []
    /\ errorLog w' = ["[AutoPrint] Error printing file:"].
Proof.
  intros w.
  destruct (printFile_open_failure_is_recorded Scenario.cannotOpen 2 Scenario.invoice w
              "No current window")
    as (w' & Hrun & Hh & _ & _ & Hn & Ho & _ & _ & He);
    [reflexivity | reflexivity | vm_compute; discriminate | vm_compute; lia | ].
  exists w'. split; [exact Hrun|]. split; [exact Hh|].
  split; [exact Hn|]. split; [exact Ho|exact He].
Defined.

Lemma storage_afterReads (browser : Browser) (w : World) :
  storage (afterReads browser w) = storage w.
Proof.
  unfold afterReads.
  destruct (readSucceeds browser SETTINGS), (readSucceeds browser PRINT_HISTORY);
    reflexivity.
Qed.

Lemma errorLog_afterReads (browser : Browser) (w : World) (line : string) :
  In line (errorLog w) -> In line (errorLog (afterReads browser w)).
Proof.
  unfold afterReads.
  destruct (readSucceeds browser SETTINGS), (readSucceeds browser PRINT_HISTORY);
    cbn; auto.
Qed.

(** X11.  When the storage rejects every write of the history (its quota
    is exceeded, say), a print that went through is reported as a failure:
    the print command has run, yet [printFile] returns [false] and shows
    'Print Failed' with the storage error (when notifications are on and the
    call goes through); the 'printed' record and then the 'error' record are
    both refused, the second refusal being swallowed with a console line;
    the storage is as before and the tab, though printed from, is never
    scheduled for removal. *)
Theorem printFile_unrecorded_print_reports_failure (browser : Browser) (fuel : nat)
        (item : DownloadItem) (w : World) (tab : Z) (e : string) :
  tabsCreate browser ("file://" ++ dl_filename item) = Normal tab ->
  executeScript browser tab = Normal tt ->
  storageAPI browser = true ->
  storageSet browser PRINT_HISTORY = Some e ->
  (0 <= capRead browser w)%Z ->
  (S (List.length (historyRead browser w)) - Z.to_nat (capRead browser w) < fuel)%nat ->
  exists w',
    printFile browser fuel item w = Some (Normal false, w')
    /\ printCommands w' = tab :: printCommands w
    /\ openedTabs w' = (tab, "file://" ++ dl_filename item) :: openedTabs w
    /\ notifications w'
       = (if cachedShowNotifications w && created browser (printFailed item e)
          then printFailed item e :: notifications w
          else notifications w)
    /\ storage w' = storage w
    /\ tabRemovals w' = tabRemovals w
    /\ In "[AutoPrint] Error printing file:" (errorLog w')
    /\ In "[AutoPrint] History error:" (errorLog w').
Proof.
  intros Ht Hx Hapi Hset Hcap Hfuel.
  assert (forall it w0, storage w0 = storage w ->
            addToPrintHistory browser fuel it w0
            = Some (Throw e,
                    setErrorLog ("[AutoPrint] Error adding to print history:"
                                 :: errorLog (afterReads browser w0))
                                (afterReads browser w0))) as Hrej.
  { intros it w0 Hst. rewrite addToPrintHistory_cases.
    unfold capRead, historyRead, storedSettings in *. rewrite Hst.
    rewrite trimLoop_firstn by assumption.
    cbv zeta. now rewrite Hapi, Hset. }
  assert (forall w0, currentSettings (afterReads browser w0) = currentSettings w0
                     /\ notifications (afterReads browser w0) = notifications w0
                     /\ openedTabs (afterReads browser w0) = openedTabs w0
                     /\ printCommands (afterReads browser w0) = printCommands w0
                     /\ tabRemovals (afterReads browser w0) = tabRemovals w0) as Hfr.
  { intros w0. unfold afterReads.
    destruct (readSucceeds browser SETTINGS), (readSucceeds browser PRINT_HISTORY);
      repeat split. }
  unfold printFile, createTab, awaitTabReady, executePrint, scheduleTabRemoval,
    consoleError, tryCatch, bind, liftC, modify, ret.
  rewrite Ht. cbn beta iota. rewrite Hx. cbn beta iota.
  rewrite Hrej by reflexivity. cbn beta iota.
  rewrite Hrej
    by (cbn [storage setErrorLog]; rewrite storage_afterReads; reflexivity).
  cbn beta iota.
  rewrite showNotification_run.
  change (mkNotification (if String.eqb "error" "success"
                          then PRINT_SUCCESS else PRINT_ERROR)
            "AutoPrint: Print Failed"
            (String.concat "" ["Failed to print "; quote; getFilename item; quote;
                               ": "; e]))
    with (printFailed item e).
  eexists. split; [reflexivity|].
  match goal with
  | |- context [afterNotification browser ?n ?w0] =>
      destruct (afterNotification_fields browser n w0)
        as (-> & -> & -> & _ & _ & _ & _ & -> & -> & ->)
  end.
  unfold notifiedBy, consoleAfterNotification, cachedShowNotifications.
  cbn [currentSettings notifications storage openedTabs printCommands tabRemovals
       errorLog setErrorLog].
  rewrite !storage_afterReads.
  cbn [currentSettings notifications storage openedTabs printCommands tabRemovals
       errorLog setErrorLog].
  repeat match goal with
         | |- context [afterReads browser ?w0] =>
             destruct (Hfr w0) as (-> & -> & -> & -> & ->)
         end.
  cbn [currentSettings notifications storage openedTabs printCommands tabRemovals
       errorLog setErrorLog setPrintCommands setOpenedTabs].
  repeat match goal with
         | |- context [afterReads browser ?w0] =>
             destruct (Hfr w0) as (-> & -> & -> & -> & ->)
         end.
  cbn [currentSettings notifications storage openedTabs printCommands tabRemovals
       errorLog setErrorLog setPrintCommands setOpenedTabs].
  repeat split.
  - now rewrite storage_afterReads.
  - match goal with
    | |- In _ (if ?b then _ else _) => destruct b
    end; cbn [In]; repeat right; apply errorLog_afterReads; cbn; auto.
  - match goal with
    | |- In _ (if ?b then _ else _) => destruct b
    end; cbn [In]; auto.
Qed.

Lemma printFile_unrecorded_print_reports_failure_witness :
  let w := afterInit Faults.writeRejected (Scenario.fresh (Some Scenario.enabledSettings)) in
  exists w',
    printFile Faults.writeRejected 2 Scenario.invoice w = Some (Normal false, w')
    /\ printCommands w' = [7%Z]
    /\ notifications w' = [printFailed Scenario.invoice "QUOTA_BYTES quota exceeded"]
    /\ storage w' = storage w
    /\ tabRemovals w' = [].
Proof.
  intros w.
  destruct (printFile_unrecorded_print_reports_failure Faults.writeRejected 2
              Scenario.invoice w 7%Z "QUOTA_BYTES quota exceeded")
    as (w' & Hrun & Hp & _ & Hn & Hs & Hr & _);
    [reflexivity | reflexivity | reflexivity | reflexivity
     | vm_compute; discriminate | vm_compute; lia | ].
  exists w'. split; [exact Hrun|]. split; [exact Hp|].
  split; [exact Hn|]. split; [exact Hs|exact Hr].
Defined.

Lemma printFile_neverThrows (browser : Browser) (fuel : nat) (item : DownloadItem) :
  neverThrows (printFile browser fuel item).
Proof.
  unfold printFile. apply neverThrows_tryCatch. intros e.
  apply neverThrows_bind; [apply neverThrows_modify|]. intros _.
  apply neverThrows_bind.
  { apply neverThrows_tryCatch. intros e'. apply neverThrows_modify. }
  intros _. apply neverThrows_bind; [apply neverThrows_showNotification|].
  intros _. apply neverThrows_ret.
Qed.

Lemma handleDownloadChanged_neverThrows (browser : Browser) (fuel : nat)
      (delta : DownloadDelta) :
  neverThrows (handleDownloadChanged browser fuel delta).
Proof.
  unfold handleDownloadChanged.
  destruct (negb (reachesComplete delta)); [apply neverThrows_ret|].
  apply neverThrows_bind.
  { apply neverThrows_bind; [apply neverThrows_gets|]. intros inited.
    destruct (negb inited); [apply neverThrows_initialize|apply neverThrows_ret]. }
  intros _. apply neverThrows_bind; [apply neverThrows_gets|]. intros en.
  destruct (negb en); [apply neverThrows_ret|].
  apply neverThrows_tryCatch. intros e. apply neverThrows_modify.
Qed.

(** X12.  Nothing escapes the worker: no run of [printFile], of
    [handleDownloadChanged], of [initialize] or of the storage listener ends
    in an exception, whichever of the browser's calls throw - the storage,
    the download search, [chrome.tabs.create], the injected script,
    [chrome.notifications.create] (caught in [showNotification]) and
    [chrome.action] (caught in [updateBadge]); a run of [printFile] that
    completes yields a boolean. *)
Theorem workflow_never_throws (browser : Browser) (fuel : nat) :
  (forall (item : DownloadItem) (w : World) (r : Completion bool) (w' : World),
      printFile browser fuel item w = Some (r, w') ->
      r = Normal true \/ r = Normal false)
  /\ (forall (delta : DownloadDelta) (w : World) (r : Completion unit) (w' : World),
        handleDownloadChanged browser fuel delta w = Some (r, w') ->
        r = Normal tt)
  /\ (forall (w : World) (r : Completion unit) (w' : World),
        initialize browser w = Some (r, w') -> r = Normal tt)
  /\ (forall (changes : list (string * StorageChange)) (areaName : string)
             (w : World) (r : Completion unit) (w' : World),
        storageChanged browser changes areaName w = Some (r, w') -> r = Normal tt).
Proof.
  split; [|split; [|split]].
  - intros item w r w' H.
    destruct (printFile_neverThrows browser fuel item w r w' H) as [[|] ->]; auto.
  - intros delta w r w' H.
    destruct (handleDownloadChanged_neverThrows browser fuel delta w r w' H) as [[] ->].
    reflexivity.
  - intros w r w' H.
    destruct (neverThrows_initialize browser w r w' H) as [[] ->]. reflexivity.
  - intros changes areaName w r w'. unfold storageChanged, settingsListener.
    destruct (if String.eqb areaName "local" then lookupChange SETTINGS changes else None)
      as [change|]; [|now intros [= <- _]].
    intros H.
    assert (neverThrows (onNewSettings browser (validateSettings (newValue change))))
      as Hn.
    { unfold onNewSettings. apply neverThrows_bind; [apply neverThrows_modify|].
      intros _. apply neverThrows_updateBadge. }
    destruct (Hn w r w' H) as [[] ->]. reflexivity.
Qed.

Lemma workflow_never_throws_witness :
  match printFile Faults.nothingWorks 2 Scenario.invoice
              (afterInit Faults.nothingWorks
                 (Scenario.fresh (Some Scenario.enabledSettings))) with
  | Some (r, w') =>
      (r = Normal true \/ r = Normal false)
      /\ In "[AutoPrint] Notification error:" (errorLog w')
      /\ In "[AutoPrint] Badge update error:" (errorLog w')
  | None => False
  end.
Proof.
  destruct (printFile Faults.nothingWorks 2 Scenario.invoice
              (afterInit Faults.nothingWorks
                 (Scenario.fresh (Some Scenario.enabledSettings))))
    as [[r w']|] eqn:E.
  - split.
    + apply (proj1 (workflow_never_throws Faults.nothingWorks 2)
               Scenario.invoice _ _ _ E).
    + vm_compute in E. injection E as _ <-. cbn [errorLog In]. split; tauto.
  - vm_compute in E. discriminate E.
Defined.
(* ===================================================================== *)
(** ** The download handler *)
(* ===================================================================== *)

(** X13.  A completed download whose name does not pass the filters is
    dropped silently: the handler returns having changed nothing beyond what
    [initialize] did - no history entry, no notification, no tab, not even a
    line on the error console. *)
Theorem filtered_out_download_is_dropped (browser : Browser) (fuel : nat)
        (delta : DownloadDelta) (w : World) (item : DownloadItem)
        (others : list DownloadItem) :
  reachesComplete delta = true ->
  settingsEnabled browser w = true ->
  downloadsSearch browser (delta_id delta) = Normal (item :: others) ->
  matches (checkFilters (currentSettings (afterInit browser w)) (getFilename item))
  = false ->
  handleDownloadChanged browser fuel delta w = Some (Normal tt, afterInit browser w)
  /\ storage (afterInit browser w) = storage w
  /\ notifications (afterInit browser w) = notifications w
  /\ openedTabs (afterInit browser w) = openedTabs w.
Proof.
  intros Hc He Hs Hm.
  destruct (afterInit_frame browser w) as (H1 & H2 & H3 & _).
  split; [|now repeat split].
  rewrite handleDownloadChanged_run, Hc, He. cbn [negb].
  unfold handleCompleted, tryCatch, bind, liftC, gets. rewrite Hs.
  cbn beta iota. rewrite Hm. reflexivity.
Qed.

Lemma filtered_out_download_is_dropped_witness :
  let w := Scenario.fresh (Some (JObject [("enabled", JBool true);
                                          ("extensionFilter", JString "docx")])) in
  handleDownloadChanged Scenario.healthy 2 (Scenario.completed 1) w
  = Some (Normal tt, afterInit Scenario.healthy w)
  /\ storage (afterInit Scenario.healthy w) = storage w
  /\ notifications (afterInit Scenario.healthy w) = notifications w
  /\ openedTabs (afterInit Scenario.healthy w) = openedTabs w.
Proof.
  intros w.
  apply (filtered_out_download_is_dropped Scenario.healthy 2 (Scenario.completed 1) w
           Scenario.invoice []); reflexivity.
Defined.

(** X14.  When [chrome.downloads.search] itself fails, the handler's own
    [catch] logs 'Error handling download' and returns: no history entry,
    no notification, no tab. *)
Theorem search_failure_is_only_logged (browser : Browser) (fuel : nat)
        (delta : DownloadDelta) (w : World) (e : string) :
  reachesComplete delta = true ->
  settingsEnabled browser w = true ->
  downloadsSearch browser (delta_id delta) = Throw e ->
  exists w',
    handleDownloadChanged browser fuel delta w = Some (Normal tt, w')
    /\ storage w' = storage w
    /\ notifications w' = notifications w
    /\ openedTabs w' = openedTabs w
    /\ errorLog w'
       = "[AutoPrint] Error handling download:" :: errorLog (afterInit browser w).
Proof.
  intros Hc He Hs.
  destruct (afterInit_frame browser w) as (H1 & H2 & H3 & _).
  rewrite handleDownloadChanged_run, Hc, He. cbn [negb].
  unfold handleCompleted, tryCatch, bind, liftC. rewrite Hs.
  eexists. split; [reflexivity|]. cbn. now repeat split.
Qed.

Lemma search_failure_is_only_logged_witness :
  let w := Scenario.fresh (Some Scenario.enabledSettings) in
  exists w',
    handleDownloadChanged Faults.searchFails 2 (Scenario.completed 1) w
    = Some (Normal tt, w')
    /\ storage w' = storage w
    /\ notifications w' = notifications w
    /\ openedTabs w' = openedTabs w
    /\ errorLog w'
       = "[AutoPrint] Error handling download:"
         :: errorLog (afterInit Faults.searchFails w).
Proof.
  intros w.
  apply (search_failure_is_only_logged Faults.searchFails 2 (Scenario.completed 1) w
           "downloads unavailable"); reflexivity.
Defined.

(** X15.  A completed download that passes the filters while the extension
    is enabled is handed to [printFile]: the handler does exactly what
    [printFile] does on the first item the search returns, in the world
    [initialize] left; further items of the search result are ignored. *)
Theorem matching_download_is_printed (browser : Browser) (fuel : nat)
        (delta : DownloadDelta) (w : World) (item : DownloadItem)
        (others : list DownloadItem) :
  reachesComplete delta = true ->
  settingsEnabled browser w = true ->
  downloadsSearch browser (delta_id delta) = Normal (item :: others) ->
  matches (checkFilters (currentSettings (afterInit browser w)) (getFilename item))
  = true ->
  handleDownloadChanged browser fuel delta w
  = match printFile browser fuel item (afterInit browser w) with
    | Some (_, w') => Some (Normal tt, w')
    | None => None
    end.
Proof.
  intros Hc He Hs Hm.
  rewrite handleDownloadChanged_run, Hc, He. cbn [negb].
  unfold handleCompleted, tryCatch, bind at 1, liftC. rewrite Hs.
  unfold bind at 1, gets. rewrite Hm. cbn [negb].
  unfold bind, ret.
  destruct (printFile browser fuel item (afterInit browser w)) as [[r w']|] eqn:E;
    [|reflexivity].
  destruct (printFile_neverThrows browser fuel item _ _ _ E) as [b ->].
  reflexivity.
Qed.

Lemma matching_download_is_printed_witness :
  let w := Scenario.fresh (Some Scenario.enabledSettings) in
  handleDownloadChanged Faults.twoResults 2 (Scenario.completed 1) w
  = match printFile Faults.twoResults 2 Scenario.invoice
            (afterInit Faults.twoResults w) with
    | Some (_, w') => Some (Normal tt, w')
    | None => None
    end.
Proof.
  intros w.
  apply (matching_download_is_printed Faults.twoResults 2 (Scenario.completed 1) w
           Scenario.invoice [mkDownloadItem "/tmp/other.txt" 1]); reflexivity.
Defined.

Lemma initialize_sameStoredSettings (browser : Browser) :
  keeps sameStoredSettings (initialize browser).
Proof.
  intros w r w'. rewrite initialize_run. intros [= _ <-].
  unfold sameStoredSettings.
  destruct (afterInit_frame browser w) as (-> & _). reflexivity.
Qed.

Lemma handleDownloadChanged_sameStoredSettings (browser : Browser) (fuel : nat)
      (delta : DownloadDelta) :
  keeps sameStoredSettings (handleDownloadChanged browser fuel delta).
Proof.
  unfold handleDownloadChanged, consoleError.
  frame_with
    ltac:(first [ apply initialize_sameStoredSettings
                | apply printFile_sameStoredSettings ])
    sameStoredSettings_refl sameStoredSettings_trans.
Qed.

Lemma handleCompleted_sameCache (browser : Browser) (fuel : nat) (delta : DownloadDelta) :
  keeps sameCache (handleCompleted browser fuel delta).
Proof.
  unfold handleCompleted, consoleError.
  frame_with ltac:(apply printFile_sameCache) sameCache_refl sameCache_trans.
Qed.

Lemma workerInvariant_afterInit (browser : Browser) (w : World) :
  workerInvariant w -> workerInvariant (afterInit browser w).
Proof.
  intros Hinv.
  destruct (afterInit_cache browser w) as (Hc & _ & Hb).
  destruct (isInitialized w) eqn:Ei.
  - unfold afterInit. rewrite Ei. exact Hinv.
  - intros _. unfold badgeConsistent, cachedEnabled.
    rewrite Hc, (Hb eq_refl). split; [discriminate|reflexivity].
Qed.

(** After [updateBadge] the badge is the one of the cache. *)
Lemma badgeConsistent_afterBadge (browser : Browser) (w : World) :
  badgeConsistent (afterBadge browser w)
  /\ currentSettings (afterBadge browser w) = currentSettings w.
Proof.
  destruct (afterBadge_fields browser w) as (Hb & Hc & _).
  unfold badgeConsistent, cachedEnabled in *. rewrite Hb, Hc. now split.
Qed.

Lemma onNewSettings_run (browser : Browser) (s : Settings) (w : World) :
  onNewSettings browser s w
  = Some (Normal tt, afterBadge browser (setCurrentSettings (Some s) w)).
Proof. unfold onNewSettings, bind, modify. now rewrite updateBadge_run. Qed.

Lemma workerInvariant_sameCache (w w' : World) :
  sameCache w w' -> workerInvariant w -> workerInvariant w'.
Proof.
  intros (Hc & Hi & Hb) Hinv. unfold workerInvariant, badgeConsistent, cachedEnabled in *.
  rewrite Hc, Hi, Hb. exact Hinv.
Qed.

(** X16.  The service worker keeps its badge and cache in step with its
    settings: once initialized, the cached settings are never null and the
    badge (the text last passed to [chrome.action.setBadgeText]) reads ON
    exactly when they are enabled.  This holds in the
    fresh worker and is kept by every download event and every storage
    change event; and no download event ever writes the stored settings. *)
Theorem worker_badge_follows_cache (browser : Browser) (fuel : nat) :
  (forall stored, workerInvariant (Scenario.fresh stored))
  /\ (forall (delta : DownloadDelta) (w w' : World) (r : Completion unit),
        workerInvariant w ->
        handleDownloadChanged browser fuel delta w = Some (r, w') ->
        workerInvariant w'
        /\ autoprint_settings (storage w') = autoprint_settings (storage w))
  /\ (forall (changes : list (string * StorageChange)) (areaName : string)
             (w w' : World) (r : Completion unit),
        workerInvariant w ->
        storageChanged browser changes areaName w = Some (r, w') ->
        workerInvariant w').
Proof.
  split; [|split].
  - intros stored. unfold workerInvariant. simpl. discriminate.
  - intros delta w w' r Hinv Hrun. split.
    + rewrite handleDownloadChanged_run in Hrun.
      destruct (negb (reachesComplete delta)); [now injection Hrun as _ <-|].
      destruct (negb (settingsEnabled browser w)).
      * injection Hrun as _ <-. now apply workerInvariant_afterInit.
      * apply (workerInvariant_sameCache (afterInit browser w)).
        -- exact (handleCompleted_sameCache browser fuel delta _ _ _ Hrun).
        -- now apply workerInvariant_afterInit.
    + exact (handleDownloadChanged_sameStoredSettings browser fuel delta _ _ _ Hrun).
  - intros changes areaName w w' r Hinv.
    unfold storageChanged, settingsListener.
    destruct (if String.eqb areaName "local" then lookupChange SETTINGS changes else None)
      as [change|].
    + rewrite onNewSettings_run. intros [= _ <-]. intros _.
      destruct (badgeConsistent_afterBadge browser
                  (setCurrentSettings (Some (validateSettings (newValue change))) w))
        as (Hb & Hc).
      split; [rewrite Hc; discriminate|exact Hb].
    + intros [= _ <-]. exact Hinv.
Qed.

Lemma worker_badge_follows_cache_witness :
  match handleDownloadChanged Scenario.healthy 2 (Scenario.completed 1)
          (Scenario.fresh (Some Scenario.enabledSettings)) with
  | Some (_, w') =>
      workerInvariant w'
      /\ autoprint_settings (storage w') = Some Scenario.enabledSettings
  | None => False
  end.
Proof.
  destruct (worker_badge_follows_cache Scenario.healthy 2) as (H0 & H1 & _).
  destruct (handleDownloadChanged Scenario.healthy 2 (Scenario.completed 1)
              (Scenario.fresh (Some Scenario.enabledSettings))) as [[r w']|] eqn:E.
  - apply (H1 _ _ _ _ (H0 (Some Scenario.enabledSettings)) E).
  - vm_compute in E. discriminate E.
Defined.

(** X17.  The storage listener reacts to settings changes of the local
    area only: an event of another area, or one that does not carry the
    settings key, leaves the worker untouched; one that carries it replaces
    the cache by the validated new value (the defaults when the key was
    removed) and redraws the badge from it. *)
Theorem storage_listener_refreshes_cache (browser : Browser)
        (changes : list (string * StorageChange)) (areaName : string) (w : World) :
  (areaName <> "local" \/ lookupChange SETTINGS changes = None ->
   storageChanged browser changes areaName w = Some (Normal tt, w))
  /\ (forall change : StorageChange,
        areaName = "local" -> lookupChange SETTINGS changes = Some change ->
        exists w',
          storageChanged browser changes areaName w = Some (Normal tt, w')
          /\ currentSettings w' = Some (validateSettings (newValue change))
          /\ badgeText w' = (if enabled (validateSettings (newValue change))
                             then "ON" else "")
          /\ (newValue change = JUndefined -> currentSettings w' = Some getDefaultSettings)
          /\ storage w' = storage w
          /\ isInitialized w' = isInitialized w).
Proof.
  unfold storageChanged, settingsListener. split.
  - intros [H|H].
    + apply String.eqb_neq in H. now rewrite H.
    + rewrite H. now destruct (String.eqb areaName "local").
  - intros change -> Hc. rewrite String.eqb_refl, Hc, onNewSettings_run.
    eexists. split; [reflexivity|].
    destruct (afterBadge_fields browser
                (setCurrentSettings (Some (validateSettings (newValue change))) w))
      as (-> & -> & -> & -> & _).
    cbn. repeat split. intros ->. reflexivity.
Qed.

Lemma storage_listener_refreshes_cache_witness :
  let w := afterInit Scenario.healthy (Scenario.fresh None) in
  let changes := [(SETTINGS, mkStorageChange JUndefined Scenario.enabledSettings)] in
  storageChanged Scenario.healthy changes "sync" w = Some (Normal tt, w)
  /\ exists w',
      storageChanged Scenario.healthy changes "local" w = Some (Normal tt, w')
      /\ currentSettings w' = Some (validateSettings Scenario.enabledSettings)
      /\ badgeText w' = "ON".
Proof.
  intros w changes.
  destruct (storage_listener_refreshes_cache Scenario.healthy changes "sync" w)
    as (H1 & _).
  destruct (storage_listener_refreshes_cache Scenario.healthy changes "local" w)
    as (_ & H2).
  split.
  - apply H1. left. discriminate.
  - destruct (H2 (mkStorageChange JUndefined Scenario.enabledSettings) eq_refl eq_refl)
      as (w' & Hr & Hc & Hb & _).
    exists w'. split; [exact Hr|]. split; [exact Hc|exact Hb].
Defined.
(* ===================================================================== *)
(** ** The rules the filter engine is given *)
(* ===================================================================== *)

Lemma cacheValidated_sameCache (w w' : World) :
  sameCache w w' -> cacheValidated w -> cacheValidated w'.
Proof. intros (Hc & _) H. unfold cacheValidated in *. now rewrite Hc. Qed.

Lemma cacheValidated_afterInit (browser : Browser) (w : World) :
  cacheValidated w -> cacheValidated (afterInit browser w).
Proof.
  intros H. unfold cacheValidated.
  destruct (afterInit_cache browser w) as (-> & _).
  destruct (isInitialized w); [exact H|].
  unfold storedSettings. destruct (readSucceeds browser SETTINGS).
  - now exists (orEmptyObject (autoprint_settings (storage w))).
  - now exists (JObject []).
Qed.

(** C4.  For every filename and every rule whose prefix filter is non-empty
    and whose extension filter is empty, [checkFilters] yields
    [matches = true] iff the lower-cased filename starts with the lower-cased
    prefix filter.  The rules are those the filter engine is given:
    [currentSettings] is assigned in two places, [initialize] and the storage
    listener, both times a record that [validateSettings] returned, whose
    prefix filter is trimmed; so the cache starts empty, holds validated
    records ever after, and the statement holds of whatever it holds. *)
Theorem prefix_filter_matches_iff_startsWith (browser : Browser) (fuel : nat) :
  (forall (raw : JSValue) (f : string),
      let s := validateSettings raw in
      prefixFilter s <> "" -> extensionFilter s = "" ->
      (matches (checkFilters (Some s) f) = true
       <-> startsWith (toLowerCase f) (toLowerCase (prefixFilter s)) = true))
  /\ (forall w : World, currentSettings w = None -> cacheValidated w)
  /\ (forall (w w' : World) (r : Completion unit),
        cacheValidated w ->
        initialize browser w = Some (r, w') -> cacheValidated w')
  /\ (forall (delta : DownloadDelta) (w w' : World) (r : Completion unit),
        cacheValidated w ->
        handleDownloadChanged browser fuel delta w = Some (r, w') ->
        cacheValidated w')
  /\ (forall (changes : list (string * StorageChange)) (areaName : string)
             (w w' : World) (r : Completion unit),
        cacheValidated w ->
        storageChanged browser changes areaName w = Some (r, w') ->
        cacheValidated w')
  /\ (forall (w : World) (s : Settings) (f : string),
        cacheValidated w -> currentSettings w = Some s ->
        prefixFilter s <> "" -> extensionFilter s = "" ->
        (matches (checkFilters (currentSettings w) f) = true
         <-> startsWith (toLowerCase f) (toLowerCase (prefixFilter s)) = true)).
Proof.
  split; [|split; [|split; [|split; [|split]]]].
  - intros raw f s Hp He. unfold s in *.
    rewrite (validated_prefix_filter raw f Hp He). tauto.
  - intros w Hn. unfold cacheValidated. now rewrite Hn.
  - intros w w' r H. rewrite initialize_run. intros [= _ <-].
    now apply cacheValidated_afterInit.
  - intros delta w w' r H Hrun.
    rewrite handleDownloadChanged_run in Hrun.
    destruct (negb (reachesComplete delta)); [now injection Hrun as _ <-|].
    destruct (negb (settingsEnabled browser w)).
    + injection Hrun as _ <-. now apply cacheValidated_afterInit.
    + apply (cacheValidated_sameCache (afterInit browser w)).
      * exact (handleCompleted_sameCache browser fuel delta _ _ _ Hrun).
      * now apply cacheValidated_afterInit.
  - intros changes areaName w w' r H.
    unfold storageChanged, settingsListener.
    destruct (if String.eqb areaName "local" then lookupChange SETTINGS changes else None)
      as [change|].
    + rewrite onNewSettings_run. intros [= _ <-]. unfold cacheValidated.
      destruct (afterBadge_fields browser
                  (setCurrentSettings (Some (validateSettings (newValue change))) w))
        as (_ & -> & _).
      now exists (newValue change).
    + intros [= _ <-]. exact H.
  - intros w s f H Hs Hp He. unfold cacheValidated in H. rewrite Hs in *.
    destruct H as (raw & ->).
    rewrite (validated_prefix_filter raw f Hp He). tauto.
Qed.

Lemma prefix_filter_matches_iff_startsWith_witness :
  let stored := JObject [("enabled", JBool true); ("prefixFilter", JString "  Invoice_ ")] in
  let w := afterInit Scenario.healthy (Scenario.fresh (Some stored)) in
  prefixFilter (validateSettings stored) = "Invoice_"
  /\ (matches (checkFilters (Some (validateSettings stored)) "invoice_2024.pdf") = true
      <-> startsWith (toLowerCase "invoice_2024.pdf") (toLowerCase "Invoice_") = true)
  /\ currentSettings w = Some (validateSettings stored)
  /\ (matches (checkFilters (currentSettings w) "report.pdf") = true
      <-> startsWith (toLowerCase "report.pdf") (toLowerCase "Invoice_") = true)
  /\ matches (checkFilters (currentSettings w) "invoice_2024.pdf") = true
  /\ matches (checkFilters (currentSettings w) "report.pdf") = false.
Proof.
  intros stored w.
  destruct (prefix_filter_matches_iff_startsWith Scenario.healthy 2)
    as (H1 & H2 & H3 & _ & _ & H6).
  split; [reflexivity|]. split.
  - apply (H1 stored "invoice_2024.pdf"); [vm_compute; discriminate|reflexivity].
  - split; [reflexivity|]. split; [|split; reflexivity].
    apply (H6 w (validateSettings stored) "report.pdf").
    + apply (H3 (Scenario.fresh (Some stored)) w (Normal tt)).
      * apply H2. reflexivity.
      * reflexivity.
    + reflexivity.
    + vm_compute. discriminate.
    + reflexivity.
Defined.

(* ===================================================================== *)
(** ** Saving and updating settings *)
(* ===================================================================== *)

Lemma trimEnd_cons (c : ascii) (r : string) :
  trimEnd (String c r)
  = match trimEnd r with
    | EmptyString => if isSpace c then EmptyString else String c EmptyString
    | String c' r' => String c (String c' r')
    end.
Proof. reflexivity. Qed.

Lemma trimEnd_fixed (z : string) : endsNonSpace z = true -> trimEnd z = z.
Proof.
  induction z as [|c r IH]; [discriminate|].
  destruct r as [|c' r'].
  - simpl. intros H. apply negb_true_iff in H. now rewrite H.
  - intros H. change (endsNonSpace (String c' r') = true) in H.
    rewrite trimEnd_cons, (IH H). reflexivity.
Qed.

Lemma trimStart_fixed (z : string) : startsNonSpace z = true -> trimStart z = z.
Proof.
  destruct z as [|c r]; [discriminate|]. simpl.
  intros H. apply negb_true_iff in H. now rewrite H.
Qed.

Lemma trimStart_start (s : string) :
  trimStart s = "" \/ startsNonSpace (trimStart s) = true.
Proof.
  induction s as [|c r IH]; [now left|]. simpl.
  destruct (isSpace c) eqn:E; [exact IH|]. right. simpl. now rewrite E.
Qed.

Lemma trimEnd_keeps_start (y : string) :
  startsNonSpace y = true -> startsNonSpace (trimEnd y) = true.
Proof.
  destruct y as [|c r]; [discriminate|]. simpl. intros H.
  destruct (trimEnd r); [|exact H].
  apply negb_true_iff in H. rewrite H. simpl. now rewrite H.
Qed.

Lemma trim_idem (s : string) : trim (trim s) = trim s.
Proof.
  unfold trim.
  destruct (trimStart_start s) as [H|H].
  - rewrite H. reflexivity.
  - pose proof (trimEnd_keeps_start _ H) as Hs.
    assert (trimEnd (trimStart s) <> "") as Hne
      by (destruct (trimEnd (trimStart s)); [discriminate Hs|discriminate]).
    rewrite (trimStart_fixed _ Hs).
    apply trimEnd_fixed. now apply endsNonSpace_trimEnd.
Qed.

Lemma trimStart_toLowerCase (s : string) :
  trimStart (toLowerCase s) = toLowerCase (trimStart s).
Proof.
  induction s as [|c r IH]; [reflexivity|]. simpl.
  rewrite lowerChar_isSpace. destruct (isSpace c); [exact IH|reflexivity].
Qed.

Lemma trimEnd_toLowerCase (s : string) :
  trimEnd (toLowerCase s) = toLowerCase (trimEnd s).
Proof.
  induction s as [|c r IH]; [reflexivity|]. simpl.
  rewrite IH, lowerChar_isSpace.
  destruct (trimEnd r); simpl; [destruct (isSpace c)|]; reflexivity.
Qed.

Lemma trim_toLowerCase (s : string) : trim (toLowerCase s) = toLowerCase (trim s).
Proof. unfold trim. now rewrite trimStart_toLowerCase, trimEnd_toLowerCase. Qed.

Lemma validateSettings_settingsObject (s : Settings) :
  validateSettings (settingsObject s) = revalidated s.
Proof. reflexivity. Qed.

(** Validating a second time changes the extension filter only: one more
    leading dot, and the white space a stripped dot uncovered, go. *)
Lemma revalidated_validated (raw : JSValue) :
  revalidated (validateSettings raw)
  = {| enabled := enabled (validateSettings raw);
       prefixFilter := prefixFilter (validateSettings raw);
       extensionFilter :=
         stripLeadingDot (trim (extensionFilter (validateSettings raw)));
       showNotifications := showNotifications (validateSettings raw);
       maxHistoryItems := maxHistoryItems (validateSettings raw) |}.
Proof.
  unfold revalidated. f_equal.
  - unfold validateSettings; simpl.
    destruct (optField raw "prefixFilter"); simpl; try reflexivity.
    apply trim_idem.
  - rewrite <- trim_toLowerCase, validated_extension_lowercase. reflexivity.
Qed.

(** [result[KEY] || {}] changes nothing for the validation: a falsy stored
    value validates to the defaults as the empty object does. *)
Lemma validateSettings_orEmptyObject (x : JSValue) :
  validateSettings (orEmptyObject (Some x)) = validateSettings x.
Proof.
  unfold orEmptyObject. destruct (jsTruthy x) eqn:E; [reflexivity|].
  destruct x; try reflexivity; discriminate.
Qed.

Lemma saveSettings_run (browser : Browser) (settings : JSValue) (w : World) :
  saveSettings browser settings w
  = let failed := setErrorLog ("[AutoPrint] Error saving settings:" :: errorLog w) w in
    if storageAPI browser then
      match storageSet browser SETTINGS with
      | None =>
          Some (Normal (validateSettings settings),
                setStorage
                  {| autoprint_settings :=
                       Some (settingsObject (validateSettings settings));
                     autoprint_history := autoprint_history (storage w) |} w)
      | Some e => Some (Throw e, failed)
      end
    else Some (Throw "No compatible storage API found", failed).
Proof.
  unfold saveSettings, tryCatch, bind, getStorageAPI, storageSetSettings,
    consoleError, modify, throw, ret.
  destruct (storageAPI browser); [|reflexivity].
  destruct (storageSet browser SETTINGS); reflexivity.
Qed.

Lemma settingsStorageWorks_parts (browser : Browser) :
  settingsStorageWorks browser = true ->
  readSucceeds browser SETTINGS = true
  /\ storageAPI browser = true
  /\ storageSet browser SETTINGS = None.
Proof.
  unfold settingsStorageWorks. intros H. apply andb_prop in H as [Hr Hs].
  repeat split; try assumption.
  - unfold readSucceeds in Hr. now apply andb_prop in Hr as [-> _].
  - destruct (storageSet browser SETTINGS); [discriminate|reflexivity].
Qed.

(** X18.  Saving then loading: [saveSettings] stores the validated record
    and returns it, without touching the history; a [loadSettings] that
    follows returns the same record except for the extension filter, which
    is validated once more and so loses a further leading dot (and the
    white space that dot was hiding).  When the saved extension filter
    starts with neither, the round trip is exact. *)
Theorem save_then_load (browser : Browser) (raw : JSValue) (w : World) :
  settingsStorageWorks browser = true ->
  let v := validateSettings raw in
  exists w',
    saveSettings browser raw w = Some (Normal v, w')
    /\ autoprint_settings (storage w') = Some (settingsObject v)
    /\ autoprint_history (storage w') = autoprint_history (storage w)
    /\ loadSettings browser w'
       = Some (Normal {| enabled := enabled v;
                         prefixFilter := prefixFilter v;
                         extensionFilter := stripLeadingDot (trim (extensionFilter v));
                         showNotifications := showNotifications v;
                         maxHistoryItems := maxHistoryItems v |}, w')
    /\ (stripLeadingDot (trim (extensionFilter v)) = extensionFilter v ->
        loadSettings browser w' = Some (Normal v, w')).
Proof.
  intros Hw v.
  destruct (settingsStorageWorks_parts browser Hw) as (Hr & Hapi & Hset).
  rewrite saveSettings_run. cbv zeta. rewrite Hapi, Hset.
  eexists. split; [reflexivity|]. split; [reflexivity|]. split; [reflexivity|].
  rewrite loadSettings_run, Hr. cbn [storage setStorage autoprint_settings].
  rewrite validateSettings_orEmptyObject, validateSettings_settingsObject.
  unfold v. rewrite revalidated_validated. split; [reflexivity|].
  intros ->. now destruct (validateSettings raw).
Qed.

Lemma save_then_load_witness :
  let raw := JObject [("enabled", JBool true); ("extensionFilter", JString " ..PDF ")] in
  let w := Scenario.fresh None in
  exists w',
    saveSettings Scenario.healthy raw w = Some (Normal (validateSettings raw), w')
    /\ extensionFilter (validateSettings raw) = ".pdf"
    /\ loadSettings Scenario.healthy w'
       = Some (Normal {| enabled := true; prefixFilter := "";
                         extensionFilter := "pdf";
                         showNotifications := true; maxHistoryItems := 100 |}, w').
Proof.
  intros raw w.
  destruct (save_then_load Scenario.healthy raw w eq_refl) as (w' & Hs & _ & _ & Hl & _).
  exists w'. split; [exact Hs|]. split; [reflexivity|exact Hl].
Defined.

(** X19.  A save that fails changes nothing: without a storage API, or when
    [storage.set] rejects, [saveSettings] logs one console line and rethrows
    the error; settings and history in storage are as before. *)
Theorem failed_save_changes_nothing (browser : Browser) (raw : JSValue) (w : World) :
  storageAPI browser = false \/ storageSet browser SETTINGS <> None ->
  exists e w',
    saveSettings browser raw w = Some (Throw e, w')
    /\ storage w' = storage w
    /\ currentSettings w' = currentSettings w
    /\ errorLog w' = "[AutoPrint] Error saving settings:" :: errorLog w.
Proof.
  intros H. rewrite saveSettings_run. cbv zeta.
  destruct (storageAPI browser).
  - destruct (storageSet browser SETTINGS) as [e|].
    + exists e. eexists. split; [reflexivity|]. now repeat split.
    + destruct H as [H|H]; [discriminate|now contradiction H].
  - eexists. eexists. split; [reflexivity|]. now repeat split.
Qed.

Lemma failed_save_changes_nothing_witness :
  let w := Scenario.fresh (Some Scenario.enabledSettings) in
  exists e w',
    saveSettings Faults.writeRejected (JObject [("enabled", JBool false)]) w
    = Some (Throw e, w')
    /\ storage w' = storage w
    /\ currentSettings w' = currentSettings w
    /\ errorLog w' = "[AutoPrint] Error saving settings:" :: errorLog w.
Proof.
  intros w.
  apply (failed_save_changes_nothing Faults.writeRejected
           (JObject [("enabled", JBool false)]) w).
  right. vm_compute. discriminate.
Defined.

Lemma lookupField_app_absent (k : string) (l l' : list (string * JSValue)) :
  hasKey k l = false -> lookupField k (l ++ l') = lookupField k l'.
Proof.
  induction l as [|[k' v] l IH]; simpl; [reflexivity|].
  destruct (String.eqb k k'); simpl; [discriminate|exact IH].
Qed.

Lemma lookupField_app_present (k : string) (l l' : list (string * JSValue)) :
  hasKey k l = true -> lookupField k (l ++ l') = lookupField k l.
Proof.
  induction l as [|[k' v] l IH]; simpl; [discriminate|].
  destruct (String.eqb k k'); simpl; [reflexivity|exact IH].
Qed.

(** X20.  [updateSettings] changes what it is given and keeps the rest: a
    field that the partial object does not mention keeps the value that
    [loadSettings] returned (for the extension filter: that value validated
    once more), and a field it gives with the right type takes the given
    value (strings trimmed); the result is stored and returned. *)
Theorem updateSettings_keeps_other_fields (browser : Browser)
        (partialSettings : list (string * JSValue)) (w : World) :
  settingsStorageWorks browser = true ->
  let before := storedSettings browser w in
  exists after w',
    updateSettings browser partialSettings w = Some (Normal after, w')
    /\ autoprint_settings (storage w') = Some (settingsObject after)
    /\ autoprint_history (storage w') = autoprint_history (storage w)
    /\ (hasKey "enabled" partialSettings = false -> enabled after = enabled before)
    /\ (hasKey "prefixFilter" partialSettings = false ->
        prefixFilter after = prefixFilter before)
    /\ (hasKey "extensionFilter" partialSettings = false ->
        extensionFilter after = stripLeadingDot (trim (extensionFilter before)))
    /\ (hasKey "showNotifications" partialSettings = false ->
        showNotifications after = showNotifications before)
    /\ (hasKey "maxHistoryItems" partialSettings = false ->
        maxHistoryItems after = maxHistoryItems before)
    /\ (forall b, hasKey "enabled" partialSettings = true ->
                  lookupField "enabled" partialSettings = JBool b -> enabled after = b)
    /\ (forall x, hasKey "prefixFilter" partialSettings = true ->
                  lookupField "prefixFilter" partialSettings = JString x ->
                  prefixFilter after = trim x).
Proof.
  intros Hw before.
  destruct (settingsStorageWorks_parts browser Hw) as (Hr & Hapi & Hset).
  unfold updateSettings, bind. rewrite loadSettings_run, Hr.
  rewrite saveSettings_run. cbv zeta. rewrite Hapi, Hset.
  assert (before = validateSettings (orEmptyObject (autoprint_settings (storage w))))
    as Hb by (unfold before, storedSettings; now rewrite Hr).
  rewrite <- Hb.
  eexists. eexists. split; [reflexivity|]. split; [reflexivity|]. split; [reflexivity|].
  pose proof (revalidated_validated (orEmptyObject (autoprint_settings (storage w))))
    as Hrev. rewrite <- Hb in Hrev.
  assert (forall k, hasKey k partialSettings = false ->
            optField (JObject (partialSettings ++ ownFields (settingsObject before))) k
            = optField (settingsObject before) k) as Habs.
  { intros k Hk. simpl. now rewrite lookupField_app_absent. }
  assert (forall k, hasKey k partialSettings = true ->
            optField (JObject (partialSettings ++ ownFields (settingsObject before))) k
            = lookupField k partialSettings) as Hpre.
  { intros k Hk. simpl. now rewrite lookupField_app_present. }
  repeat split.
  - intros Hk. unfold validateSettings. cbn [enabled]. rewrite (Habs _ Hk). reflexivity.
  - intros Hk. unfold validateSettings. cbn [prefixFilter]. rewrite (Habs _ Hk).
    change (trim (prefixFilter before) = prefixFilter before).
    now rewrite <- (f_equal prefixFilter Hrev) at 2.
  - intros Hk. unfold validateSettings. cbn [extensionFilter]. rewrite (Habs _ Hk).
    change (extensionFilter (revalidated before)
            = stripLeadingDot (trim (extensionFilter before))).
    now rewrite Hrev.
  - intros Hk. unfold validateSettings. cbn [showNotifications].
    rewrite (Habs _ Hk). reflexivity.
  - intros Hk. unfold validateSettings. cbn [maxHistoryItems].
    rewrite (Habs _ Hk). reflexivity.
  - intros b Hk Hl. unfold validateSettings. cbn [enabled].
    rewrite (Hpre _ Hk), Hl. reflexivity.
  - intros x Hk Hl. unfold validateSettings. cbn [prefixFilter].
    rewrite (Hpre _ Hk), Hl. reflexivity.
Qed.

Lemma updateSettings_keeps_other_fields_witness :
  let w := Scenario.fresh (Some (JObject [("prefixFilter", JString "inv_");
                                          ("maxHistoryItems", JNumber 7)])) in
  exists after w',
    updateSettings Scenario.healthy [("enabled", JBool true)] w
    = Some (Normal after, w')
    /\ after = {| enabled := true; prefixFilter := "inv_"; extensionFilter := "";
                  showNotifications := true; maxHistoryItems := 7 |}.
Proof.
  intros w.
  destruct (updateSettings_keeps_other_fields Scenario.healthy
              [("enabled", JBool true)] w eq_refl)
    as (after & w' & Hrun & _).
  exists after, w'. split; [exact Hrun|].
  vm_compute in Hrun. now injection Hrun as <- _.
Defined.

(** X21.  The worker's cache agrees with the storage: when the listener is
    told the value that the storage now holds under the settings key, the
    cache it installs is the record [loadSettings] returns from that
    storage. *)
Theorem cache_agrees_with_storage (browser : Browser) (x old : JSValue) (w : World) :
  readSucceeds browser SETTINGS = true ->
  autoprint_settings (storage w) = Some x ->
  exists w',
    storageChanged browser [(SETTINGS, mkStorageChange old x)] "local" w
    = Some (Normal tt, w')
    /\ loadSettings browser w' = Some (Normal (validateSettings x), w')
    /\ currentSettings w' = Some (validateSettings x).
Proof.
  intros Hr Hx.
  assert (storageChanged browser [(SETTINGS, mkStorageChange old x)] "local" w
          = onNewSettings browser (validateSettings x) w) as -> by reflexivity.
  rewrite onNewSettings_run.
  eexists. split; [reflexivity|].
  destruct (afterBadge_fields browser
              (setCurrentSettings (Some (validateSettings x)) w))
    as (_ & Hc & _ & Hs & _).
  split; [|exact Hc].
  rewrite loadSettings_run, Hr, Hs. cbn [storage setCurrentSettings].
  now rewrite Hx, validateSettings_orEmptyObject.
Qed.

Lemma cache_agrees_with_storage_witness :
  let w := Scenario.fresh (Some JNull) in
  exists w',
    storageChanged Scenario.healthy
      [(SETTINGS, mkStorageChange JUndefined JNull)] "local" w
    = Some (Normal tt, w')
    /\ loadSettings Scenario.healthy w' = Some (Normal (validateSettings JNull), w')
    /\ currentSettings w' = Some (validateSettings JNull).
Proof.
  intros w.
  apply (cache_agrees_with_storage Scenario.healthy JNull JUndefined w); reflexivity.
Defined.

(** X22.  Clearing the history: on working storage [clearPrintHistory]
    leaves an empty list to read and does not touch the settings; when the
    write fails it rethrows and the history is as before. *)
Theorem clear_empties_history_only (browser : Browser) (w : World) :
  (storageWorks browser = true ->
   exists w',
     clearPrintHistory browser w = Some (Normal tt, w')
     /\ loadPrintHistory browser w' = Some (Normal [], w')
     /\ autoprint_settings (storage w') = autoprint_settings (storage w))
  /\ (storageAPI browser = false \/ storageSet browser PRINT_HISTORY <> None ->
      exists e w',
        clearPrintHistory browser w = Some (Throw e, w')
        /\ storage w' = storage w).
Proof.
  unfold clearPrintHistory, tryCatch, bind, getStorageAPI, storageSetHistory,
    consoleError, modify, throw, ret.
  split.
  - intros Hw. destruct (storageWorks_reads browser Hw) as (_ & Hh & Hapi & Hset).
    rewrite Hapi, Hset. eexists. split; [reflexivity|].
    rewrite loadPrintHistory_run, Hh. now split.
  - intros H. destruct (storageAPI browser).
    + destruct (storageSet browser PRINT_HISTORY) as [e|].
      * exists e. eexists. now split.
      * destruct H as [H|H]; [discriminate|now contradiction H].
    + eexists. eexists. now split.
Qed.

Lemma clear_empties_history_only_witness :
  let w := setStorage
             {| autoprint_settings := Some Scenario.enabledSettings;
                autoprint_history := Some [stamp 1 (Scenario.attempt "a")] |}
             (Scenario.fresh None) in
  (exists w',
      clearPrintHistory Scenario.healthy w = Some (Normal tt, w')
      /\ loadPrintHistory Scenario.healthy w' = Some (Normal [], w')
      /\ autoprint_settings (storage w') = autoprint_settings (storage w))
  /\ (exists e w',
         clearPrintHistory Faults.writeRejected w = Some (Throw e, w')
         /\ storage w' = storage w).
Proof.
  intros w. split.
  - apply (proj1 (clear_empties_history_only Scenario.healthy w)). reflexivity.
  - apply (proj2 (clear_empties_history_only Faults.writeRejected w)).
    right. vm_compute. discriminate.
Defined.
(* ===================================================================== *)
(** ** The earlier service worker *)
(* ===================================================================== *)

Lemma legacy_showNotification_created (browser : Browser)
      (title message type : string) (w : World) :
  created browser (mkNotification (if String.eqb type "success"
                                   then PRINT_SUCCESS else PRINT_ERROR)
                     title message) = true ->
  Legacy.showNotification browser title message type w
  = Some (Normal tt,
          if cachedShowNotifications w
          then setNotifications
                 (mkNotification (if String.eqb type "success"
                                  then PRINT_SUCCESS else PRINT_ERROR)
                    title message :: notifications w) w
          else w).
Proof.
  unfold created, Legacy.showNotification, createNotification, bind, gets, modify, ret.
  destruct (cachedShowNotifications w); [|reflexivity]. cbn [negb].
  destruct (notificationsCreate browser _); [discriminate|reflexivity].
Qed.

(** X23.  In the earlier worker a print trigger that throws is an error
    like any other: [printFile] returns [false], puts an 'error' record with
    the message at the head of the history and fires 'Print Failed' (the
    call to [chrome.notifications.create] going through); the tab it opened
    stays open, with no removal scheduled. *)
Theorem legacy_trigger_failure_is_an_error (browser : Browser) (fuel : nat)
        (item : DownloadItem) (w : World) (tab : Z) (e : string) :
  tabsCreate browser ("file://" ++ dl_filename item) = Normal tab ->
  executeScript browser tab = Throw e ->
  created browser (printFailed item e) = true ->
  storageWorks browser = true ->
  (0 <= storedCap w)%Z ->
  (S (List.length (orEmptyArray (autoprint_history (storage w))))
   - Z.to_nat (storedCap w) < fuel)%nat ->
  exists w',
    Legacy.printFile browser fuel item w = Some (Normal false, w')
    /\ autoprint_history (storage w')
       = Some (firstn (Z.to_nat (storedCap w))
                      (stamp (now w) (errorRecord item e)
                       :: orEmptyArray (autoprint_history (storage w))))
    /\ notifications w' = notified (printFailed item e) w
    /\ openedTabs w' = (tab, "file://" ++ dl_filename item) :: openedTabs w
    /\ printCommands w' = printCommands w
    /\ tabRemovals w' = tabRemovals w.
Proof.
  intros Ht Hx Hn Hw Hcap Hfuel.
  unfold Legacy.printFile, createTab, executePrint, scheduleTabRemoval,
    consoleError, tryCatch, bind, liftC, modify, ret.
  rewrite Ht. cbn beta iota. rewrite Hx. cbn beta iota.
  rewrite addToPrintHistory_working; [ | exact Hw | exact Hcap | exact Hfuel ].
  rewrite legacy_showNotification_created by exact Hn.
  unfold notified, cachedShowNotifications. cbn.
  destruct (currentSettings w) as [s|]; cbn.
  - destruct (showNotifications s); cbn;
      (eexists; split; [reflexivity|]; repeat split).
  - eexists; split; [reflexivity|]; repeat split.
Qed.

Lemma legacy_trigger_failure_is_an_error_witness :
  let w := afterInit Scenario.printBlocked (Scenario.fresh (Some Scenario.enabledSettings)) in
  exists w',
    Legacy.printFile Scenario.printBlocked 2 Scenario.invoice w
    = Some (Normal false, w')
    /\ autoprint_history (storage w')
       = Some (firstn (Z.to_nat (storedCap w))
                      (stamp (now w)
                         (errorRecord Scenario.invoice "Cannot access contents of the page")
                       :: orEmptyArray (autoprint_history (storage w))))
    /\ notifications w'
       = notified (printFailed Scenario.invoice "Cannot access contents of the page") w
    /\ openedTabs w' = (7%Z, "file://" ++ dl_filename Scenario.invoice) :: openedTabs w
    /\ printCommands w' = printCommands w
    /\ tabRemovals w' = tabRemovals w.
Proof.
  intros w.
  apply (legacy_trigger_failure_is_an_error Scenario.printBlocked 2 Scenario.invoice w
           7%Z "Cannot access contents of the page");
    [reflexivity | reflexivity | reflexivity | reflexivity
     | vm_compute; discriminate | vm_compute; lia].
Defined.

Lemma legacy_handler_neverThrows (browser : Browser) (fuel : nat)
      (delta : DownloadDelta) :
  neverThrows (Legacy.handleDownloadChanged browser fuel delta).
Proof.
  unfold Legacy.handleDownloadChanged.
  destruct (negb (reachesComplete delta)); [apply neverThrows_ret|].
  apply neverThrows_bind; [apply neverThrows_gets|]. intros en.
  destruct (negb en); [apply neverThrows_ret|].
  apply neverThrows_tryCatch. intros e. apply neverThrows_modify.
Qed.

(** X24.  The earlier worker lets errors out of [printFile] and stops them
    in the handler.  When the file cannot be opened and the error record
    cannot be written either, [printFile] throws the storage error, fires no
    notification, and [handleDownloadChanged] logs 'Error handling download'
    and returns; no run of the handler ends in an exception, whatever the
    browser does.  While the cache is null or disabled the handler ignores
    the event and leaves the world as it is: this variant never loads the
    settings on demand. *)
Theorem legacy_errors_stop_at_the_handler (browser : Browser) (fuel : nat)
        (delta : DownloadDelta) (w : World) :
  (forall r w', Legacy.handleDownloadChanged browser fuel delta w = Some (r, w') ->
                r = Normal tt)
  /\ (cachedEnabled w = false ->
      Legacy.handleDownloadChanged browser fuel delta w = Some (Normal tt, w))
  /\ (forall item e e',
        tabsCreate browser ("file://" ++ dl_filename item) = Throw e ->
        storageAPI browser = true ->
        storageSet browser PRINT_HISTORY = Some e' ->
        (0 <= capRead browser w)%Z ->
        (S (List.length (historyRead browser w)) - Z.to_nat (capRead browser w) < fuel)%nat ->
        exists w',
          Legacy.printFile browser fuel item w = Some (Throw e', w')
          /\ notifications w' = notifications w
          /\ storage w' = storage w).
Proof.
  split; [|split].
  - intros r w' H.
    destruct (legacy_handler_neverThrows browser fuel delta w r w' H) as [[] ->].
    reflexivity.
  - intros He. unfold Legacy.handleDownloadChanged, bind, gets.
    destruct (negb (reachesComplete delta)); [reflexivity|]. now rewrite He.
  - intros item e e' Ht Hapi Hset Hcap Hfuel.
    unfold Legacy.printFile, createTab, consoleError, tryCatch, bind, liftC, modify.
    rewrite Ht. cbn beta iota.
    rewrite addToPrintHistory_cases.
    unfold capRead, historyRead, storedSettings in *.
    cbn [storage now setErrorLog] in *.
    rewrite trimLoop_firstn by assumption.
    cbv zeta. rewrite Hapi, Hset.
    eexists. split; [reflexivity|].
    cbn [storage notifications setErrorLog].
    split.
    + unfold afterReads.
      destruct (readSucceeds browser SETTINGS), (readSucceeds browser PRINT_HISTORY);
        reflexivity.
    + apply (storage_afterReads browser
               (setErrorLog ("[AutoPrint] Error printing file:" :: errorLog w) w)).
Qed.

Lemma legacy_errors_stop_at_the_handler_witness :
  let w := Scenario.fresh (Some Scenario.enabledSettings) in
  Legacy.handleDownloadChanged Scenario.healthy 2 (Scenario.completed 1) w
  = Some (Normal tt, w)
  /\ exists w',
      Legacy.printFile Faults.openAndWriteFail 2 Scenario.invoice w
      = Some (Throw "QUOTA_BYTES quota exceeded", w')
      /\ notifications w' = notifications w
      /\ storage w' = storage w.
Proof.
  intros w. split.
  - apply (proj1 (proj2 (legacy_errors_stop_at_the_handler Scenario.healthy 2
                           (Scenario.completed 1) w))).
    reflexivity.
  - apply (proj2 (proj2 (legacy_errors_stop_at_the_handler Faults.openAndWriteFail 2
                           (Scenario.completed 1) w))
             Scenario.invoice "No current window" "QUOTA_BYTES quota exceeded");
      [reflexivity | reflexivity | reflexivity | vm_compute; discriminate | vm_compute; lia].
Defined.
(* ===================================================================== *)
(** ** The popup and the options form *)
(* ===================================================================== *)

Lemma getFormSettings_updateStatusIndicator (b : bool) (ui : PopupUI) :
  Popup.getFormSettings (Popup.updateStatusIndicator b ui) = Popup.getFormSettings ui.
Proof. reflexivity. Qed.

(** X25.  Flipping the popup's toggle saves at once and undoes the flip when
    the save fails: on success the stored settings carry the new [enabled]
    and the indicator shows it; on failure the toggle and the indicator go
    back to the opposite position, 'Failed to update' is shown, and neither
    the storage nor the popup's own settings change. *)
Theorem popup_toggle_saves_or_reverts (browser : Browser) (ui : PopupUI) (w : World) :
  (storageAPI browser = true -> storageSet browser SETTINGS = None ->
   exists ui' w',
     Popup.handleToggleChange browser ui w = Some (ui', w')
     /\ enableToggle ui' = enableToggle ui
     /\ statusActive ui' = enableToggle ui
     /\ autoprint_settings (storage w')
        = Some (settingsObject (revalidated (Popup.getFormSettings ui)))
     /\ enabled (revalidated (Popup.getFormSettings ui)) = enableToggle ui
     /\ popupSettings ui' = Some (Popup.getFormSettings ui)
     /\ saveStatusText ui'
        = (if enableToggle ui then "AutoPrint enabled" else "AutoPrint disabled"))
  /\ (storageAPI browser = false \/ storageSet browser SETTINGS <> None ->
      exists ui' w',
        Popup.handleToggleChange browser ui w = Some (ui', w')
        /\ enableToggle ui' = negb (enableToggle ui)
        /\ statusActive ui' = negb (enableToggle ui)
        /\ statusText ui' = (if enableToggle ui then "Disabled" else "Active")
        /\ saveStatusText ui' = "Failed to update"
        /\ popupSettings ui' = popupSettings ui
        /\ storage w' = storage w).
Proof.
  unfold Popup.handleToggleChange. cbv zeta.
  rewrite getFormSettings_updateStatusIndicator, saveSettings_run. cbv zeta.
  split.
  - intros Hapi Hset. rewrite Hapi, Hset.
    eexists. eexists. split; [reflexivity|]. now repeat split.
  - intros H. destruct (storageAPI browser).
    + destruct (storageSet browser SETTINGS) as [e|].
      * eexists. eexists. split; [reflexivity|]. cbn.
        repeat split. now destruct (enableToggle ui).
      * destruct H as [H|H]; [discriminate|now contradiction H].
    + eexists. eexists. split; [reflexivity|]. cbn.
      repeat split. now destruct (enableToggle ui).
Qed.

Lemma popup_toggle_saves_or_reverts_witness :
  (exists ui' w',
      Popup.handleToggleChange Scenario.healthy popupToggledOff (Scenario.fresh None)
      = Some (ui', w')
      /\ enableToggle ui' = false
      /\ saveStatusText ui' = "AutoPrint disabled")
  /\ (exists ui' w',
         Popup.handleToggleChange Faults.writeRejected popupToggledOff (Scenario.fresh None)
         = Some (ui', w')
         /\ enableToggle ui' = true
         /\ statusText ui' = "Active"
         /\ storage w' = storage (Scenario.fresh None)).
Proof.
  split.
  - destruct (proj1 (popup_toggle_saves_or_reverts Scenario.healthy popupToggledOff
                       (Scenario.fresh None)) eq_refl eq_refl)
      as (ui' & w' & Hr & Ht & _ & _ & _ & _ & Hs).
    exists ui', w'. now repeat split.
  - destruct (proj2 (popup_toggle_saves_or_reverts Faults.writeRejected popupToggledOff
                       (Scenario.fresh None)))
      as (ui' & w' & Hr & Ht & _ & Hx & _ & _ & Hst).
    { right. vm_compute. discriminate. }
    exists ui', w'. now repeat split.
Defined.

(** X26.  Saving from the popup keeps what the popup cannot edit: the
    stored record takes [enabled] and the two filters from the form (the
    prefix trimmed, the extension trimmed, stripped of its dot and
    lower-cased), and [showNotifications] and [maxHistoryItems] from the
    settings the popup holds ([true] and 100 when it holds none).  Whether
    the save succeeds or fails, the Save button is enabled again at the
    end; a failed save leaves the storage as it was. *)
Theorem popup_save_keeps_hidden_settings (browser : Browser) (ui : PopupUI) (w : World) :
  (storageAPI browser = true -> storageSet browser SETTINGS = None ->
   exists ui' w' stored,
     Popup.handleSave browser ui w = Some (ui', w')
     /\ autoprint_settings (storage w') = Some (settingsObject stored)
     /\ enabled stored = enableToggle ui
     /\ prefixFilter stored = trim (prefixValue ui)
     /\ extensionFilter stored
        = stripLeadingDot (toLowerCase (trim (stripLeadingDot (trim (extensionValue ui)))))
     /\ showNotifications stored
        = match popupSettings ui with Some s => showNotifications s | None => true end
     /\ maxHistoryItems stored
        = match popupSettings ui with Some s => maxHistoryItems s | None => 100%Z end
     /\ saveBtnDisabled ui' = false
     /\ saveStatusText ui' = "Settings saved successfully!")
  /\ (storageAPI browser = false \/ storageSet browser SETTINGS <> None ->
      exists ui' w',
        Popup.handleSave browser ui w = Some (ui', w')
        /\ storage w' = storage w
        /\ saveBtnDisabled ui' = false
        /\ saveStatusText ui' = "Failed to save settings"
        /\ popupSettings ui' = popupSettings ui).
Proof.
  unfold Popup.handleSave. cbv zeta. rewrite saveSettings_run. cbv zeta.
  split.
  - intros Hapi Hset. rewrite Hapi, Hset.
    eexists. eexists. exists (revalidated (Popup.getFormSettings ui)).
    split; [reflexivity|]. cbn.
    repeat split. apply trim_idem.
  - intros H. destruct (storageAPI browser).
    + destruct (storageSet browser SETTINGS) as [e|].
      * eexists. eexists. split; [reflexivity|]. now repeat split.
      * destruct H as [H|H]; [discriminate|now contradiction H].
    + eexists. eexists. split; [reflexivity|]. now repeat split.
Qed.

Lemma popup_save_keeps_hidden_settings_witness :
  exists ui' w' stored,
    Popup.handleSave Scenario.healthy popupToggledOff (Scenario.fresh None) = Some (ui', w')
    /\ autoprint_settings (storage w') = Some (settingsObject stored)
    /\ stored = mkSettings false "inv_" "pdf" false 25.
Proof.
  destruct (proj1 (popup_save_keeps_hidden_settings Scenario.healthy popupToggledOff
                     (Scenario.fresh None)) eq_refl eq_refl)
    as (ui' & w' & stored & Hr & Hs & H1 & H2 & H3 & H4 & H5 & _).
  exists ui', w', stored. split; [exact Hr|]. split; [exact Hs|].
  destruct stored. simpl in *. now subst.
Defined.

Lemma previewText_all (p e : string) :
  Popup.previewText p e = "Printing all downloaded files"
  <-> trim p = "" /\ stripLeadingDot (trim e) = "".
Proof.
  unfold Popup.previewText. cbv zeta.
  destruct (trim p) as [|c r]; destruct (stripLeadingDot (trim e)) as [|c' r'];
    cbn; split; try tauto; try (intros [? ?]; discriminate);
    intros H; exfalso; revert H; unfold quote; cbn; discriminate.
Qed.

(** X27.  The popup's preview promises no more than the filter engine
    keeps: when the preview reads 'Printing all downloaded files', the
    settings saved from the same form have both filters empty and every
    filename passes [checkFilters]; and the preview reads so exactly when
    the trimmed prefix and the trimmed, dot-stripped extension are empty. *)
Theorem popup_preview_all_means_no_filter (ui : PopupUI) :
  (filterPreview (Popup.updatePreview ui) = "Printing all downloaded files"
   <-> trim (prefixValue ui) = "" /\ stripLeadingDot (trim (extensionValue ui)) = "")
  /\ (filterPreview (Popup.updatePreview ui) = "Printing all downloaded files" ->
      forall f : string,
        matches (checkFilters
                   (Some (validateSettings (settingsObject (Popup.getFormSettings ui)))) f)
        = true).
Proof.
  split; [apply previewText_all|].
  intros H f. apply previewText_all in H as [Hp He].
  rewrite validateSettings_settingsObject.
  destruct (checkFilters_loaded (revalidated (Popup.getFormSettings ui)) f)
    as (H1 & H2 & H3).
  cbv zeta in *. rewrite H3, H1, H2.
  unfold revalidated, Popup.getFormSettings. cbn [prefixFilter extensionFilter].
  rewrite Hp, He. reflexivity.
Qed.

Lemma popup_preview_all_means_no_filter_witness :
  let ui := {| enableToggle := true; statusActive := true; statusText := "Active";
               prefixValue := "  "; extensionValue := " . ";
               filterPreview := ""; saveBtnDisabled := false;
               saveStatusText := ""; saveStatusClass := ""; statusTimers := 0;
               popupSettings := None |} in
  filterPreview (Popup.updatePreview ui) = "Printing all downloaded files"
  /\ matches (checkFilters
                (Some (validateSettings (settingsObject (Popup.getFormSettings ui))))
                "anything.bin") = true.
Proof.
  intros ui. split; [reflexivity|].
  apply (proj2 (popup_preview_all_means_no_filter ui)). reflexivity.
Defined.

Lemma parseDigits_nonneg (s : string) :
  forall acc seen n, (0 <= acc)%Z -> Options.parseDigits acc seen s = Some n -> (0 <= n)%Z.
Proof.
  induction s as [|c r IH]; intros acc seen n Hacc; simpl.
  - destruct seen; [intros [= <-]; exact Hacc|discriminate].
  - destruct (Options.isDigit c).
    + apply IH. unfold Options.digitValue. lia.
    + destruct seen; [intros [= <-]; exact Hacc|discriminate].
Qed.

Lemma parseDigits_starts_with_digit (s : string) (n : Z) :
  Options.parseDigits 0 false s = Some n ->
  exists c r, s = String c r /\ Options.isDigit c = true.
Proof.
  destruct s as [|c r]; simpl; [discriminate|].
  destruct (Options.isDigit c) eqn:E; [|discriminate].
  intros _. now exists c, r.
Qed.

Lemma digit_is_plain (c : ascii) :
  Options.isDigit c = true ->
  isSpace c = false /\ Ascii.eqb c "-"%char = false /\ Ascii.eqb c "+"%char = false.
Proof.
  destruct c as [[] [] [] [] [] [] [] []]; intros H;
    solve [vm_compute in H; discriminate H | repeat split].
Qed.

Lemma maxHistoryOf_signed (d : string) (n : Z) :
  Options.parseDigits 0 false d = Some n -> n <> 0%Z ->
  Options.maxHistoryOf d = n
  /\ Options.maxHistoryOf (String "-"%char d) = (- n)%Z
  /\ (Options.maxHistoryOf (String "-"%char d) < 0)%Z.
Proof.
  intros Hd Hn.
  destruct (parseDigits_starts_with_digit d n Hd) as (c & r & -> & Hc).
  destruct (digit_is_plain c Hc) as (Hs & Hm & Hp).
  pose proof (parseDigits_nonneg _ _ _ _ (Z.le_refl 0) Hd) as Hpos.
  assert (Options.maxHistoryOf (String "-"%char (String c r)) = (- n)%Z) as Hneg.
  { unfold Options.maxHistoryOf, Options.parseInt10.
    change (trimStart (String "-"%char (String c r))) with (String "-"%char (String c r)).
    cbn [Ascii.eqb Bool.eqb]. cbv iota. rewrite Hd. cbn [option_map].
    destruct (- n =? 0)%Z eqn:E; [apply Z.eqb_eq in E; lia|reflexivity]. }
  split; [|split; [exact Hneg|rewrite Hneg; lia]].
  unfold Options.maxHistoryOf, Options.parseInt10.
  cbn [trimStart]. rewrite Hs, Hm, Hp, Hd.
  destruct (n =? 0)%Z eqn:E; [apply Z.eqb_eq in E; contradiction|reflexivity].
Qed.

(** X28.  What the options form makes of the max-history input
    ([parseInt(value, 10) || 100]): never zero; 100 for an empty or blank
    input and for one that does not start with a number; the number itself
    for a positive one; and a negative number for input with a minus sign,
    which the form lets through (numbers below 2^53, which JavaScript
    holds exactly). *)
Theorem options_max_history_input :
  (forall v : string, Options.maxHistoryOf v <> 0%Z)
  /\ (forall v : string, allSpace v = true -> Options.maxHistoryOf v = 100%Z)
  /\ (forall (c : ascii) (r : string),
        isSpace c = false -> Options.isDigit c = false ->
        Ascii.eqb c "-"%char = false -> Ascii.eqb c "+"%char = false ->
        Options.maxHistoryOf (String c r) = 100%Z)
  /\ (forall (d : string) (n : Z),
        Options.parseDigits 0 false d = Some n -> n <> 0%Z -> (n < 2 ^ 53)%Z ->
        Options.maxHistoryOf d = n
        /\ Options.maxHistoryOf (String "-"%char d) = (- n)%Z
        /\ (Options.maxHistoryOf (String "-"%char d) < 0)%Z).
Proof.
  split; [|split; [|split]].
  - intros v. unfold Options.maxHistoryOf.
    destruct (Options.parseInt10 v) as [n|]; [|discriminate].
    destruct (n =? 0)%Z eqn:E; [discriminate|]. now apply Z.eqb_neq.
  - intros v Hv. unfold Options.maxHistoryOf, Options.parseInt10.
    apply trimStart_empty in Hv. now rewrite Hv.
  - intros c r Hs Hd Hm Hp. unfold Options.maxHistoryOf, Options.parseInt10.
    cbn [trimStart]. rewrite Hs, Hm, Hp. cbn [Options.parseDigits]. now rewrite Hd.
  - intros d n Hd Hn _. now apply maxHistoryOf_signed.
Qed.

Lemma options_max_history_input_witness :
  Options.maxHistoryOf "  " = 100%Z
  /\ Options.maxHistoryOf "abc" = 100%Z
  /\ Options.maxHistoryOf "250 items" = 250%Z
  /\ Options.maxHistoryOf "-5" = (-5)%Z.
Proof.
  destruct options_max_history_input as (_ & H1 & H2 & H3).
  split; [apply H1; reflexivity|].
  split; [apply H2; reflexivity|].
  destruct (H3 "250 items" 250%Z eq_refl) as (Ha & _); [discriminate|reflexivity|].
  destruct (H3 "5" 5%Z eq_refl) as (_ & Hb & _); [discriminate|reflexivity|].
  split; [exact Ha|exact Hb].
Defined.

(** X29.  A negative max-history entered in the options form breaks the
    history: the form lets the number through, [saveSettings] stores it
    ([validateSettings] only checks that it is a number), and from then on
    no call of [addToPrintHistory] returns. *)
Theorem negative_max_history_hangs_the_history (browser : Browser)
        (enableChecked notificationsChecked : bool)
        (prefixInput extensionInput d : string) (n : Z) (w : World) :
  settingsStorageWorks browser = true ->
  Options.parseDigits 0 false d = Some n -> n <> 0%Z -> (n < 2 ^ 53)%Z ->
  let form := Options.getFormSettings enableChecked notificationsChecked
                prefixInput extensionInput (String "-"%char d) in
  exists saved w',
    saveSettings browser (settingsObject form) w = Some (Normal saved, w')
    /\ maxHistoryItems saved = (- n)%Z
    /\ (maxHistoryItems saved < 0)%Z
    /\ forall (fuel : nat) (item : PrintAttempt),
        addToPrintHistory browser fuel item w' = None.
Proof.
  intros Hw Hd Hn _ form.
  destruct (settingsStorageWorks_parts browser Hw) as (Hr & Hapi & Hset).
  destruct (maxHistoryOf_signed d n Hd Hn) as (_ & Hneg & Hlt).
  rewrite saveSettings_run. cbv zeta. rewrite Hapi, Hset.
  eexists. eexists. split; [reflexivity|].
  rewrite validateSettings_settingsObject.
  assert (maxHistoryItems (revalidated form) = (- n)%Z) as Hm by exact Hneg.
  split; [exact Hm|]. split; [lia|].
  intros fuel item. rewrite addToPrintHistory_cases.
  rewrite trimLoop_negative_cap; [reflexivity|].
  unfold capRead, storedSettings. rewrite Hr.
  cbn [storage setStorage autoprint_settings].
  rewrite validateSettings_orEmptyObject, validateSettings_settingsObject.
  change (maxHistoryItems (revalidated (revalidated form)) < 0)%Z.
  change (maxHistoryItems (revalidated form) < 0)%Z. lia.
Qed.

Lemma negative_max_history_hangs_the_history_witness :
  let form := Options.getFormSettings true true "" "pdf" "-1" in
  exists saved w',
    saveSettings Scenario.healthy (settingsObject form) (Scenario.fresh None)
    = Some (Normal saved, w')
    /\ maxHistoryItems saved = (-1)%Z
    /\ (maxHistoryItems saved < 0)%Z
    /\ forall (fuel : nat) (item : PrintAttempt),
        addToPrintHistory Scenario.healthy fuel item w' = None.
Proof.
  intros form.
  apply (negative_max_history_hangs_the_history Scenario.healthy true true "" "pdf" "1"
           1%Z (Scenario.fresh None));
    [reflexivity | reflexivity | discriminate | reflexivity].
Defined.
(* ===================================================================== *)
(** ** The PNG icon script *)
(* ===================================================================== *)

(** The check value of CRC-32, and the empty input. *)
Example crc32_check_value :
  Png.crc32 (Png.bytesOf "123456789") = 3421780262%Z          (* 0xCBF43926 *)
  /\ Png.crc32 [] = 0%Z
  /\ Png.crc32 (Png.bytesOf "IEND") = 2923585666%Z.           (* 0xAE426082 *)
Proof. vm_compute. repeat split. Qed.

Lemma crc32_range (data : list Z) : (0 <= Png.crc32 data < 2 ^ 32)%Z.
Proof.
  unfold Png.crc32, Png.ushr. rewrite Z.shiftr_0_r.
  unfold Png.toUint32. apply Z.mod_pos_bound. reflexivity.
Qed.

Lemma writeUInt32BE_in_range (v : Z) :
  (0 <= v < 2 ^ 32)%Z ->
  exists a b c d,
    Png.writeUInt32BE v = Normal [a; b; c; d]
    /\ Png.readUInt32BE [a; b; c; d] = v
    /\ Png.isByte a /\ Png.isByte b /\ Png.isByte c /\ Png.isByte d.
Proof.
  intros [Hlo Hhi]. unfold Png.writeUInt32BE.
  assert (((0 <=? v) && (v <? 2 ^ 32))%Z = true) as ->
    by (apply andb_true_intro; split; [apply Z.leb_le|apply Z.ltb_lt]; assumption).
  do 4 eexists. split; [reflexivity|].
  unfold Png.readUInt32BE, Png.isByte.
  change (2 ^ 24)%Z with 16777216%Z. change (2 ^ 16)%Z with 65536%Z.
  change (2 ^ 8)%Z with 256%Z. change (2 ^ 32)%Z with 4294967296%Z in Hhi.
  pose proof (Z.div_mod v 256 ltac:(lia)) as E0.
  pose proof (Z.mod_pos_bound v 256 ltac:(lia)) as B0.
  pose proof (Z.div_mod (v / 256) 256 ltac:(lia)) as E1.
  pose proof (Z.mod_pos_bound (v / 256) 256 ltac:(lia)) as B1.
  pose proof (Z.div_mod (v / 65536) 256 ltac:(lia)) as E2.
  pose proof (Z.mod_pos_bound (v / 65536) 256 ltac:(lia)) as B2.
  assert (v / 256 / 256 = v / 65536)%Z as D1 by (rewrite Z.div_div by lia; reflexivity).
  assert (v / 65536 / 256 = v / 16777216)%Z as D2 by (rewrite Z.div_div by lia; reflexivity).
  rewrite D1 in E1. rewrite D2 in E2.
  assert (0 <= v / 16777216 < 256)%Z as B3.
  { split; [apply Z.div_pos; lia|apply Z.div_lt_upper_bound; lia]. }
  repeat split; lia.
Qed.

(** X30.  [createChunk] builds a well-formed PNG chunk and cannot fail on
    the CRC: for data shorter than 2^32 bytes it returns the 4-byte
    big-endian length of the data, the type, the data, and the 4-byte
    big-endian CRC-32 of type and data - the CRC being always within the
    range [writeUInt32BE] accepts. *)
Theorem createChunk_layout (type data : list Z) :
  (Z.of_nat (List.length data) < 2 ^ 32)%Z ->
  exists lengthBytes crcBytes,
    Png.createChunk type data = Normal (lengthBytes ++ type ++ data ++ crcBytes)%list
    /\ List.length lengthBytes = 4%nat
    /\ List.length crcBytes = 4%nat
    /\ Png.readUInt32BE lengthBytes = Z.of_nat (List.length data)
    /\ Png.readUInt32BE crcBytes = Png.crc32 (type ++ data)%list
    /\ Forall Png.isByte lengthBytes
    /\ Forall Png.isByte crcBytes.
Proof.
  intros Hlen. unfold Png.createChunk.
  destruct (writeUInt32BE_in_range (Z.of_nat (List.length data)) ltac:(lia))
    as (a & b & c & d & -> & Hr & Ha & Hb & Hc & Hd).
  cbv zeta.
  destruct (writeUInt32BE_in_range (Png.crc32 (type ++ data)%list) (crc32_range _))
    as (a' & b' & c' & d' & -> & Hr' & Ha' & Hb' & Hc' & Hd').
  exists [a; b; c; d], [a'; b'; c'; d'].
  repeat split; auto.
Qed.

Lemma createChunk_layout_witness :
  exists lengthBytes crcBytes,
    Png.createChunk (Png.bytesOf "IEND") [] = Normal (lengthBytes ++ Png.bytesOf "IEND" ++ [] ++ crcBytes)%list
    /\ List.length lengthBytes = 4%nat
    /\ List.length crcBytes = 4%nat
    /\ Png.readUInt32BE lengthBytes = 0%Z
    /\ Png.readUInt32BE crcBytes = Png.crc32 (Png.bytesOf "IEND" ++ [])%list
    /\ Forall Png.isByte lengthBytes
    /\ Forall Png.isByte crcBytes.
Proof.
  apply (createChunk_layout (Png.bytesOf "IEND") []). reflexivity.
Defined.

(** The IEND chunk every PNG file ends with. *)
Example iend_chunk :
  Png.createChunk (Png.bytesOf "IEND") []
  = Normal [0; 0; 0; 0; 73; 69; 78; 68; 174; 66; 96; 130]%Z.
Proof. vm_compute. reflexivity. Qed.
